(** * Screening questionnaire: risk scoring and session history

    A shallow embedding of the TypeScript sources

    - [src/types/autism.ts]                    (data model),
    - [src/utils/dataProcessing.ts]            ([responseToNumber], [numberToResponse]),
    - [src/components/PredictionInterface.tsx] ([calculatePrediction]),
    - [src/utils/sessionStorage.ts]            ([saveSession] and friends),

    followed by the properties the specification states about them.  In the
    source tree at hand the text of [dataProcessing.ts] follows the SQL
    migration in [src/supabase/migrations/] (from line 163),
    [sessionStorage.ts] is [src/unnamed/part_001], and an earlier version of
    [PredictionInterface.tsx] is [src/unnamed/part_003].

    The development then covers the code around these functions: the form
    wizard of [PredictionInterface.tsx] with [handleResponseChange],
    [handleSubmit] and [resetAssessment]; the category summary of
    [ScoreBreakdown.tsx] ([src/unnamed/part_005]); and, from
    [dataProcessing.ts], [calculateMetrics], [trainTestSplit],
    [prepareFeatures] and the prediction methods of [SimpleDecisionTree] and
    [SimpleRandomForest].

    Numbers.  A JavaScript [number] is an IEEE 754 binary64 value.  Values that
    the program only ever uses as small integers (response scores, their sum,
    list lengths, the age picked from the 2..14 selector) are modelled in [Z]
    or [nat], where binary64 arithmetic on them is exact.  The risk arithmetic,
    which uses decimal constants such as [0.85] that binary64 cannot represent,
    is modelled on Rocq's primitive binary64 floats ([PrimFloat]), so that every
    rounding step of the source is reproduced.  [numberToResponse] takes an
    arbitrary finite number; it is modelled over [Q], which contains every
    finite binary64 value and on which [Math.round] is exact. *)

From Stdlib Require Import ZArith List String Bool Lia QArith Qround Floats.
From Stdlib Require Import DecimalString Permutation.
Import ListNotations.

Local Open Scope Z_scope.

(** A decimal literal in float scope denotes the nearest binary64 value, as
    the same literal does in JavaScript. *)
#[local] Set Warnings "-inexact-float".

(* ================================================================== *)
(** ** Data model ([src/types/autism.ts]) *)

Inductive QuestionnaireResponse : Set :=
  never | rarely | sometimes | often | always.

Inductive Gender : Set := M | F.

Inductive RiskLevel : Set := Low | Medium | High.

(** [PredictionInput]: the form state that the scoring function reads. *)
Record PredictionInput : Set := {
  age : Z;
  gender : Gender;
  responses : list QuestionnaireResponse
}.

(** One element of [PredictionResult.scoreBreakdown].  [question] is the value
    of [QUESTIONNAIRE_ITEMS[index]], which is [undefined] ([None]) when the
    index is past the end of the table. *)
Record ScoreBreakdownItem : Set := {
  question : option string;
  response : QuestionnaireResponse;
  score : Z
}.

(** [PredictionResult]; the three fields declared with [?] are optional. *)
Record PredictionResult : Set := {
  prediction : Z;
  confidence : float;
  riskLevel : RiskLevel;
  recommendation : string;
  riskPercentage : option float;
  scoreBreakdown : option (list ScoreBreakdownItem);
  timestamp : option string
}.

Definition QuestionnaireResponse_eqb (a b : QuestionnaireResponse) : bool :=
  match a, b with
  | never, never | rarely, rarely | sometimes, sometimes
  | often, often | always, always => true
  | _, _ => false
  end.

Definition QUESTIONNAIRE_ITEMS : list string := [
  "Does your child make eye contact when you call their name?";
  "Does your child show interest in other children or prefer to play alone?";
  "Does your child use gestures like pointing or waving to communicate?";
  "Does your child understand and follow simple instructions?";
  "Does your child have difficulty with changes in routine or environment?";
  "Does your child show repetitive behaviors or intense interests in specific topics?";
  "Does your child have conversations or mainly speaks in single words?";
  "Does your child respond appropriately to emotions of others?";
  "Does your child have unusual sensory reactions (sounds, textures, lights)?";
  "Does your child engage in pretend or imaginative play?"
]%string.

(** The shape constraints the specification puts on an input: the age offered
    by the form (2..14) and one response per question.  Every response is one
    of the five categories by typing. *)
Definition validInput (formData : PredictionInput) : Prop :=
  2 <= age formData <= 14 /\ List.length (responses formData) = 10%nat.

Definition validInputb (formData : PredictionInput) : bool :=
  (2 <=? age formData) && (age formData <=? 14)
  && Nat.eqb (List.length (responses formData)) 10.

(* ================================================================== *)
(** ** Response mappings ([src/utils/dataProcessing.ts]) *)

(** [const map = { never: 0, rarely: 1, sometimes: 2, often: 3, always: 4 };
     return map[response];] *)
Definition responseToNumber (response : QuestionnaireResponse) : Z :=
  match response with
  | never => 0
  | rarely => 1
  | sometimes => 2
  | often => 3
  | always => 4
  end.

(** [Math.round] on a finite number: the nearest integer, ties towards
    plus infinity, that is [floor (x + 1/2)]. *)
Definition Math_round (num : Q) : Z := Qfloor (num + (1 # 2))%Q.

(** [responses[Math.max(0, Math.min(4, Math.round(num)))]], with the array
    access returning [undefined] ([None]) outside the array. *)
Definition numberToResponse (num : Q) : option QuestionnaireResponse :=
  let responses := [never; rarely; sometimes; often; always] in
  nth_error responses (Z.to_nat (Z.max 0 (Z.min 4 (Math_round num)))).

(* ================================================================== *)
(** ** Binary64 helpers *)

(** An integer-valued JavaScript number as a binary64 float (exact below
    [2^53]). *)
Definition Number_of_Z (z : Z) : float :=
  if z <? 0 then (- of_uint63 (Uint63.of_Z (- z)))%float
  else of_uint63 (Uint63.of_Z z).

(** [Math.max(a, b)]: NaN if either is NaN, and [+0] is larger than [-0]. *)
Definition Math_max (a b : float) : float :=
  if is_nan a || is_nan b then nan
  else if (a <? b)%float then b
  else if (b <? a)%float then a
  else if is_zero a && get_sign a then b else a.

(** [Math.min(a, b)]: NaN if either is NaN, and [-0] is smaller than [+0]. *)
Definition Math_min (a b : float) : float :=
  if is_nan a || is_nan b then nan
  else if (a <? b)%float then a
  else if (b <? a)%float then b
  else if is_zero b && get_sign b then b else a.

(* ================================================================== *)
(** ** The scoring function ([src/components/PredictionInterface.tsx]) *)

(** Lines 45-47: [responses.reduce((sum, response) =>
    sum + responseToNumber(response), 0)]. *)
Definition totalScore (responses : list QuestionnaireResponse) : Z :=
  fold_left (fun sum response => sum + responseToNumber response) responses 0.

(** Lines 59-61: [responses.filter(r => r === 'always' || r === 'often').length]. *)
Definition highRiskResponses (responses : list QuestionnaireResponse) : nat :=
  List.length (filter (fun r => QuestionnaireResponse_eqb r always
                           || QuestionnaireResponse_eqb r often) responses).

(** Lines 63-65: [responses.filter(r => r === 'never' || r === 'rarely').length]. *)
Definition lowEngagementResponses (responses : list QuestionnaireResponse) : nat :=
  List.length (filter (fun r => QuestionnaireResponse_eqb r never
                           || QuestionnaireResponse_eqb r rarely) responses).

(** Lines 49-54: the demographic part of [riskScore]. *)
Definition demographicRisk (age : Z) (gender : Gender) : float :=
  let riskScore := 0%float in
  let riskScore :=
    if age <=? 3 then (riskScore + 0.05)%float
    else if age >=? 10 then (riskScore + 0.03)%float
    else riskScore in
  let riskScore :=
    match gender with M => (riskScore + 0.05)%float | F => riskScore end in
  riskScore.

(** Lines 56-57: [riskScore] after the weighted combination. *)
Definition weightedRisk (age : Z) (gender : Gender) (totalScore : Z) : float :=
  let riskScore := demographicRisk age gender in
  let normalizedScore := (Number_of_Z totalScore / 40)%float in
  (normalizedScore * 0.85 + riskScore * 0.15)%float.

(** Lines 67-68: the two pattern bonuses, applied to [riskScore] in order. *)
Definition patternBonus (riskScore : float) (highRiskResponses lowEngagementResponses : nat)
  : float :=
  let riskScore :=
    if (6 <=? highRiskResponses)%nat then (riskScore + 0.1)%float else riskScore in
  let riskScore :=
    if (7 <=? lowEngagementResponses)%nat then (riskScore + 0.05)%float else riskScore in
  riskScore.

(** Lines 49-68: [riskScore] just before it is clamped. *)
Definition unclampedRisk (age : Z) (gender : Gender) (totalScore : Z)
    (highRiskResponses lowEngagementResponses : nat) : float :=
  patternBonus (weightedRisk age gender totalScore)
    highRiskResponses lowEngagementResponses.

(** Lines 70-71: [riskPercentage]. *)
Definition riskPercentageOf (age : Z) (gender : Gender) (totalScore : Z)
    (highRiskResponses lowEngagementResponses : nat) : float :=
  let riskScore :=
    unclampedRisk age gender totalScore highRiskResponses lowEngagementResponses in
  let riskScore := Math_max 0 (Math_min 1 riskScore) in
  (riskScore * 100)%float.

(** Line 72: [riskPercentage >= 50 ? 1 : 0]. *)
Definition predictionOf (riskPercentage : float) : Z :=
  if (50 <=? riskPercentage)%float then 1 else 0.

(** Lines 74-86: the level and the raw confidence. *)
Definition levelAndConfidence (riskPercentage : float) : RiskLevel * float :=
  if (riskPercentage <? 35)%float then
    (Low, ((35 - riskPercentage) / 35)%float)
  else if (riskPercentage <? 65)%float then
    (Medium, 0.7%float)
  else
    (High, ((riskPercentage - 65) / 35)%float).

(** Line 88: [Math.min(0.95, Math.max(0.6, confidence))]. *)
Definition clampConfidence (confidence : float) : float :=
  Math_min 0.95 (Math_max 0.6 confidence).

(** Lines 90-94: [responses.map((response, index) => ({ question:
    QUESTIONNAIRE_ITEMS[index], response, score: responseToNumber(response) }))]. *)
Fixpoint mapWithIndex {A B : Type} (f : A -> nat -> B) (index : nat) (l : list A)
  : list B :=
  match l with
  | [] => []
  | x :: rest => f x index :: mapWithIndex f (S index) rest
  end.

Definition scoreBreakdownOf (responses : list QuestionnaireResponse)
  : list ScoreBreakdownItem :=
  mapWithIndex (fun response index =>
    {| question := nth_error QUESTIONNAIRE_ITEMS index;
       response := response;
       score := responseToNumber response |}) 0 responses.

(** Lines 96-103. *)
Definition recommendationOf (riskLevel : RiskLevel) : string :=
  match riskLevel with
  | High => "We strongly recommend consulting with a pediatric developmental specialist or child psychologist for a comprehensive evaluation. Early screening and intervention can significantly improve outcomes."
  | Medium => "While the assessment shows moderate indicators, we recommend discussing these observations with your pediatrician. Continue monitoring your child's development closely."
  | Low => "The assessment suggests typical development patterns. Continue regular developmental check-ups with your pediatrician and implement the supportive strategies provided below."
  end%string.

(** [calculatePrediction] (lines 44-114).  The function reads the component
    state [formData] and, for the [timestamp] field, the wall clock:
    [now] is the string that [new Date().toISOString()] returns at the call. *)
Definition calculatePrediction (now : string) (formData : PredictionInput)
  : PredictionResult :=
  let totalScore := totalScore (responses formData) in
  let highRiskResponses := highRiskResponses (responses formData) in
  let lowEngagementResponses := lowEngagementResponses (responses formData) in
  let riskPercentage :=
    riskPercentageOf (age formData) (gender formData) totalScore
      highRiskResponses lowEngagementResponses in
  let prediction := predictionOf riskPercentage in
  let '(riskLevel, confidence) := levelAndConfidence riskPercentage in
  let confidence := clampConfidence confidence in
  let scoreBreakdown := scoreBreakdownOf (responses formData) in
  let recommendation := recommendationOf riskLevel in
  {| prediction := prediction;
     confidence := confidence;
     riskLevel := riskLevel;
     recommendation := recommendation;
     riskPercentage := Some riskPercentage;
     scoreBreakdown := Some scoreBreakdown;
     timestamp := Some now |}.

(** How a call ends: with a value, or by throwing.  The body of
    [calculatePrediction] contains no [throw], no input check, and only calls
    ([reduce], [filter], [map], [Math.max], [Math.min], object and array
    reads) that cannot throw on a [PredictionInput]; its completion is
    therefore always a normal one. *)
Inductive ErrorKind : Set := InvalidInput.

Inductive Completion (A : Type) : Type :=
| Returns (value : A)
| Throws (error : ErrorKind).

Arguments Returns {A} value.
Arguments Throws {A} error.

Definition calculatePrediction_completion (now : string) (formData : PredictionInput)
  : Completion PredictionResult :=
  Returns (calculatePrediction now formData).

(* ================================================================== *)
(** ** Session history ([src/utils/sessionStorage.ts]) *)

Module SessionStorage.

(** [SessionHistory] of [src/types/autism.ts]. *)
Record SessionHistory : Set := {
  id : string;
  timestamp : string;
  age : Z;
  gender : Gender;
  result : PredictionResult;
  totalScore : Z
}.

(** The browser's [localStorage], restricted to the one key
    [SESSION_HISTORY_KEY] this module touches: [None] when the key is absent
    ([getItem] returns [null]), [Some history] when it holds the JSON text of
    [history].  [JSON.parse (JSON.stringify h)] is taken to give [h] back and
    [setItem] to succeed, so the [catch] branches, which only log, are not
    entered. *)
Definition LocalStorage : Set := option (list SessionHistory).

(** [stored ? JSON.parse(stored) : []] *)
Definition getSessionHistory (localStorage : LocalStorage) : list SessionHistory :=
  match localStorage with
  | Some stored => stored
  | None => []
  end.

(** [history.unshift(session); history.slice(0, 10)], written back. *)
Definition saveSession (session : SessionHistory) (localStorage : LocalStorage)
  : LocalStorage :=
  let history := getSessionHistory localStorage in
  let history := session :: history in
  let limitedHistory := firstn 10 history in
  Some limitedHistory.

(** [localStorage.removeItem(SESSION_HISTORY_KEY)] *)
Definition clearSessionHistory (localStorage : LocalStorage) : LocalStorage :=
  None.

(** [history.filter(session => session.id !== id)], written back. *)
Definition deleteSession (id0 : string) (localStorage : LocalStorage) : LocalStorage :=
  let history := getSessionHistory localStorage in
  let filtered := filter (fun session => negb (String.eqb (id session) id0)) history in
  Some filtered.

(** The calls a page can make on the store, and a run of them. *)
Inductive Call : Set :=
| CallSave (session : SessionHistory)
| CallClear
| CallDelete (id0 : string).

Definition step (localStorage : LocalStorage) (c : Call) : LocalStorage :=
  match c with
  | CallSave session => saveSession session localStorage
  | CallClear => clearSessionHistory localStorage
  | CallDelete id0 => deleteSession id0 localStorage
  end.

Definition run (calls : list Call) (localStorage : LocalStorage) : LocalStorage :=
  fold_left step calls localStorage.

End SessionStorage.

(* ================================================================== *)
(** ** Finite enumeration of the numeric inputs

    The numeric fields of a result depend on the input only through five
    small integers.  Properties of binary64 results are established by
    evaluating the source arithmetic on every combination a valid input can
    produce. *)

Definition forallZ (lo : Z) (n : nat) (P : Z -> bool) : bool :=
  forallb P (map (fun k => lo + Z.of_nat k) (seq 0 n)).

Definition forallN (n : nat) (P : nat -> bool) : bool :=
  forallb P (seq 0 n).

(** [P] holds of [riskPercentage] for every age 2..14, both genders, every
    total 0..40 and all counts 0..10. *)
Definition forallRiskPercentage (P : float -> bool) : bool :=
  forallZ 2 13 (fun age =>
  forallb (fun gender =>
  forallZ 0 41 (fun total =>
  forallN 11 (fun high =>
  forallN 11 (fun low =>
    P (riskPercentageOf age gender total high low))))) [M; F]).

(** [P] holds of the weighted score for every age 2..14, both genders and
    every total 0..40. *)
Definition forallWeightedRisk (P : float -> bool) : bool :=
  forallZ 2 13 (fun age =>
  forallb (fun gender =>
  forallZ 0 41 (fun total => P (weightedRisk age gender total))) [M; F]).

(** The order facts about a percentage that the level and prediction
    tests rely on. *)
Definition percentageInRange (p : float) : bool :=
  ((0 <=? p) && (p <=? 100))%float.

Definition percentageOrdered (p : float) : bool :=
  (Bool.eqb (p <? 35) (negb (35 <=? p))
   && Bool.eqb (p <? 65) (negb (65 <=? p))
   && Bool.eqb (p <? 50) (negb (50 <=? p))
   && implb (p <? 35) (p <? 50)
   && implb (p <? 50) (p <? 65))%float.

Definition confidenceInRange (p : float) : bool :=
  let confidence := clampConfidence (snd (levelAndConfidence p)) in
  ((0.6 <=? confidence) && (confidence <=? 0.95))%float.

Definition bonusVisible (riskScore : float) : bool :=
  ((riskScore <? riskScore + 0.1) && (riskScore <? riskScore + 0.05))%float.

(* ================================================================== *)
(** ** The earlier prediction interface

    A second [PredictionInterface] component in the sources holds an earlier
    [calculatePrediction] with other constants, no percentage, no breakdown
    and no timestamp.  It is embedded here to record where the two differ. *)

Module Legacy.

Definition riskScoreOf (age : Z) (gender : Gender) (totalScore : Z)
    (highRiskResponses lowEngagementResponses : nat) : float :=
  let riskScore := 0%float in
  let riskScore :=
    if age <=? 3 then (riskScore + 0.1)%float
    else if age >=? 10 then (riskScore + 0.05)%float
    else riskScore in
  let riskScore :=
    match gender with M => (riskScore + 0.1)%float | F => riskScore end in
  let normalizedScore := (Number_of_Z totalScore / 40)%float in
  let riskScore := (riskScore + normalizedScore * 0.8)%float in
  let riskScore :=
    if (6 <=? highRiskResponses)%nat then (riskScore + 0.2)%float else riskScore in
  let riskScore :=
    if (6 <=? lowEngagementResponses)%nat then (riskScore + 0.15)%float else riskScore in
  Math_max 0 (Math_min 1 riskScore).

Definition calculatePrediction (formData : PredictionInput) : PredictionResult :=
  let totalScore := totalScore (responses formData) in
  let highRiskResponses := highRiskResponses (responses formData) in
  let lowEngagementResponses := lowEngagementResponses (responses formData) in
  let riskScore :=
    riskScoreOf (age formData) (gender formData) totalScore
      highRiskResponses lowEngagementResponses in
  let prediction := if (0.6 <=? riskScore)%float then 1 else 0 in
  let confidence :=
    if (0.6 <=? riskScore)%float then riskScore else (1 - riskScore)%float in
  let riskLevel :=
    if (riskScore <? 0.3)%float then Low
    else if (riskScore <? 0.7)%float then Medium
    else High in
  let recommendation :=
    (if Z.eqb prediction 1 then
      "We recommend consulting with a pediatric developmental specialist or child psychologist for a comprehensive evaluation. Early screening and intervention can significantly improve outcomes."
    else match riskLevel with
    | Medium => "While the current assessment suggests lower risk, continue monitoring your child's development and consult with your pediatrician if you have concerns."
    | _ => "The assessment suggests typical development patterns. Continue regular developmental check-ups with your pediatrician."
    end)%string in
  {| prediction := prediction;
     confidence := confidence;
     riskLevel := riskLevel;
     recommendation := recommendation;
     riskPercentage := None;
     scoreBreakdown := None;
     timestamp := None |}.

End Legacy.

(* ================================================================== *)
(** ** Category summary of the breakdown ([src/components/ScoreBreakdown.tsx],
    here the first part of [src/unnamed/part_005]) *)

Module ScoreBreakdown.

Record CategoryAnalysis : Set := {
  highConcern : nat;
  moderate : nat;
  lowConcern : nat
}.

(** Lines 12 and 32-36: the component renders nothing ([null], here [None])
    for a result without a breakdown; otherwise it counts the entries with
    [score >= 3], [score === 2] and [score <= 1]. *)
Definition categoryAnalysis (result : PredictionResult) : option CategoryAnalysis :=
  match scoreBreakdown result with
  | None => None
  | Some items =>
      Some {| highConcern := List.length (filter (fun item => 3 <=? score item) items);
              moderate := List.length (filter (fun item => score item =? 2) items);
              lowConcern := List.length (filter (fun item => score item <=? 1) items) |}
  end.

End ScoreBreakdown.

(* ================================================================== *)
(** ** The form wizard ([src/components/PredictionInterface.tsx], lines 27-42,
    116-190 and 194-597)

    The component keeps four state variables and, through [saveSession], the
    session history.  Each user action that the rendered view offers is an
    [Event]; [step] gives the state after it, or [None] when the view in that
    state does not offer the control or renders it disabled.

    [handleSubmit] is asynchronous.  It runs up to the 1.5 second timer, is
    resumed when the timer fires, and (when a user is signed in) waits once
    more for the database insert before it clears [loading]; other events can
    occur while it waits.  All through, it reads the [formData] of the render
    in which the button was clicked, which the [AwaitingTimer] phase carries.
    The database row and the toasts do not touch the state modelled here and
    are left out.

    The results view embeds the history tab ([SessionHistory], second part
    of [src/unnamed/part_005]), whose buttons call [deleteSession] with the
    id of a listed session and [clearSessionHistory]; the model offers both
    in the results view, the deletion for any id. *)

Module Wizard.

(** [new Array(10).fill('sometimes')] with [age: 2] and [gender: 'M']
    (lines 30-34 and 184-188). *)
Definition initialFormData : PredictionInput :=
  {| age := 2; gender := M; responses := repeat sometimes 10 |}.

(** [newResponses[questionIndex] = response] on a copy of the array.  Writing
    at an index below the length replaces the element and writing at the
    length appends; writing further out would leave holes in the array, which
    a list of responses cannot hold ([None]). *)
Fixpoint array_set {A : Type} (l : list A) (index : nat) (x : A) : option (list A) :=
  match l, index with
  | [], O => Some [x]
  | [], S _ => None
  | _ :: rest, O => Some (x :: rest)
  | y :: rest, S i => option_map (cons y) (array_set rest i x)
  end.

(** Lines 38-42. *)
Definition handleResponseChange (questionIndex : nat) (response : QuestionnaireResponse)
    (formData : PredictionInput) : option PredictionInput :=
  option_map
    (fun newResponses =>
       {| age := age formData; gender := gender formData; responses := newResponses |})
    (array_set (responses formData) questionIndex response).

Inductive SubmitPhase : Set :=
| Idle
| AwaitingTimer (captured : PredictionInput)
| AwaitingInsert.

Record State : Set := {
  currentStep : Z;
  formData : PredictionInput;
  prediction : option PredictionResult;
  loading : bool;
  submitPhase : SubmitPhase;
  localStorage : SessionStorage.LocalStorage
}.

Definition initialState (localStorage : SessionStorage.LocalStorage) : State :=
  {| currentStep := 0;
     formData := initialFormData;
     prediction := None;
     loading := false;
     submitPhase := Idle;
     localStorage := localStorage |}.

(** Which of the four returns of the component is rendered (lines 194, 407,
    462 and 532). *)
Inductive View : Set :=
| ResultsView
| DemographicsView
| QuestionView (questionIndex : nat)
| ReviewView.

Definition view (s : State) : View :=
  match prediction s with
  | Some _ => ResultsView
  | None =>
      if currentStep s =? 0 then DemographicsView
      else if (1 <=? currentStep s) && (currentStep s <=? 10)
           then QuestionView (Z.to_nat (currentStep s - 1))
           else ReviewView
  end.

(** The ages the selector offers: [Array.from({ length: 13 }, (_, i) => i + 2)]. *)
Definition ageOptions : list Z := map (fun i => Z.of_nat i + 2) (seq 0 13).

Definition setCurrentStep (s : State) (currentStep : Z) : State :=
  {| currentStep := currentStep;
     formData := formData s;
     prediction := prediction s;
     loading := loading s;
     submitPhase := submitPhase s;
     localStorage := localStorage s |}.

Definition setFormData (s : State) (formData : PredictionInput) : State :=
  {| currentStep := currentStep s;
     formData := formData;
     prediction := prediction s;
     loading := loading s;
     submitPhase := submitPhase s;
     localStorage := localStorage s |}.

Definition setLocalStorage (s : State) (localStorage : SessionStorage.LocalStorage)
  : State :=
  {| currentStep := currentStep s;
     formData := formData s;
     prediction := prediction s;
     loading := loading s;
     submitPhase := submitPhase s;
     localStorage := localStorage |}.

(** Lines 182-190. *)
Definition resetAssessment (s : State) : State :=
  {| currentStep := 0;
     formData := initialFormData;
     prediction := None;
     loading := loading s;
     submitPhase := submitPhase s;
     localStorage := localStorage s |}.

(** Lines 116-119: [setLoading(true)], then the timer. *)
Definition handleSubmit_start (s : State) : State :=
  {| currentStep := currentStep s;
     formData := formData s;
     prediction := prediction s;
     loading := true;
     submitPhase := AwaitingTimer (formData s);
     localStorage := localStorage s |}.

(** The session that lines 124-136 build: [now] is read by
    [calculatePrediction], [dateNow] is [Date.now()] and [sessionNow] the
    second [new Date().toISOString()]. *)
Definition sessionOf (captured : PredictionInput) (now : string) (dateNow : N)
    (sessionNow : string) : SessionStorage.SessionHistory :=
  let result := calculatePrediction now captured in
  let totalScore := totalScore (responses captured) in
  {| SessionStorage.id := "session_" ++ NilEmpty.string_of_uint (N.to_uint dateNow);
     SessionStorage.timestamp := sessionNow;
     SessionStorage.age := age captured;
     SessionStorage.gender := gender captured;
     SessionStorage.result := result;
     SessionStorage.totalScore := totalScore |}.

(** Lines 121-136: after the timer. *)
Definition handleSubmit_resume (s : State) (captured : PredictionInput)
    (now : string) (dateNow : N) (sessionNow : string) : State :=
  let session := sessionOf captured now dateNow sessionNow in
  {| currentStep := currentStep s;
     formData := formData s;
     prediction := Some (SessionStorage.result session);
     loading := loading s;
     submitPhase := AwaitingInsert;
     localStorage := SessionStorage.saveSession session (localStorage s) |}.

(** Line 179: [setLoading(false)]. *)
Definition handleSubmit_finish (s : State) : State :=
  {| currentStep := currentStep s;
     formData := formData s;
     prediction := prediction s;
     loading := false;
     submitPhase := Idle;
     localStorage := localStorage s |}.

Inductive Event : Set :=
| SelectAge (item : nat)
| SelectGender (value : Gender)
| ContinueToQuestions
| SelectResponse (value : QuestionnaireResponse)
| Previous
| Next
| BackToQuestions
| Submit
| TimerFires (now : string) (dateNow : N) (sessionNow : string)
| InsertSettles
| TakeNewAssessment
| DeleteFromHistory (id0 : string)
| ClearHistory.

Definition step (s : State) (e : Event) : option State :=
  match e, view s with
  | SelectAge item, DemographicsView =>
      match nth_error ageOptions item with
      | Some value =>
          Some (setFormData s {| age := value; gender := gender (formData s);
                                 responses := responses (formData s) |})
      | None => None
      end
  | SelectGender value, DemographicsView =>
      Some (setFormData s {| age := age (formData s); gender := value;
                             responses := responses (formData s) |})
  | ContinueToQuestions, DemographicsView => Some (setCurrentStep s 1)
  | SelectResponse value, QuestionView questionIndex =>
      option_map (setFormData s)
        (handleResponseChange questionIndex value (formData s))
  | Previous, QuestionView _ => Some (setCurrentStep s (currentStep s - 1))
  | Next, QuestionView questionIndex =>
      match nth_error (responses (formData s)) questionIndex with
      | None => None
      | Some _ =>
          if currentStep s <? 11 then Some (setCurrentStep s (currentStep s + 1))
          else Some s
      end
  | BackToQuestions, ReviewView => Some (setCurrentStep s 10)
  | Submit, ReviewView =>
      if loading s then None else Some (handleSubmit_start s)
  | TimerFires now dateNow sessionNow, _ =>
      match submitPhase s with
      | AwaitingTimer captured =>
          Some (handleSubmit_resume s captured now dateNow sessionNow)
      | _ => None
      end
  | InsertSettles, _ =>
      match submitPhase s with
      | AwaitingInsert => Some (handleSubmit_finish s)
      | _ => None
      end
  | TakeNewAssessment, ResultsView => Some (resetAssessment s)
  | DeleteFromHistory id0, ResultsView =>
      Some (setLocalStorage s (SessionStorage.deleteSession id0 (localStorage s)))
  | ClearHistory, ResultsView =>
      Some (setLocalStorage s (SessionStorage.clearSessionHistory (localStorage s)))
  | _, _ => None
  end.

(** A run of events; an event the current view does not offer changes
    nothing. *)
Definition apply (s : State) (e : Event) : State :=
  match step s e with
  | Some s' => s'
  | None => s
  end.

Definition run (events : list Event) (s : State) : State :=
  fold_left apply events s.

(** The events of a user who picks an age and a gender, answers the ten
    questions in order, and submits. *)
Definition answerAll (answers : list QuestionnaireResponse) : list Event :=
  flat_map (fun value => [SelectResponse value; Next]) answers.

Definition fillAndSubmit (item : nat) (value : Gender)
    (answers : list QuestionnaireResponse)
    (now : string) (dateNow : N) (sessionNow : string) : list Event :=
  [SelectAge item; SelectGender value; ContinueToQuestions]
  ++ answerAll answers
  ++ [Submit; TimerFires now dateNow sessionNow].

(** What holds of every state a run can reach. *)
Definition formInvariant (s : State) : Prop :=
  validInput (formData s)
  /\ 0 <= currentStep s <= 11
  /\ (forall captured, submitPhase s = AwaitingTimer captured -> validInput captured)
  /\ (loading s = true <-> submitPhase s <> Idle).

(** A stored session as [handleSubmit] builds it from a valid form state. *)
Definition submittedSession (session : SessionStorage.SessionHistory) : Prop :=
  exists (captured : PredictionInput) (now : string) (dateNow : N) (sessionNow : string),
    validInput captured
    /\ session = sessionOf captured now dateNow sessionNow.

(** What holds of the history and of the result on display in every state
    a run can reach from a history of submitted sessions. *)
Definition storeInvariant (s : State) : Prop :=
  Forall submittedSession (SessionStorage.getSessionHistory (localStorage s))
  /\ (List.length (SessionStorage.getSessionHistory (localStorage s)) <= 10)%nat
  /\ (forall r, prediction s = Some r ->
        exists now captured, validInput captured /\ r = calculatePrediction now captured).

End Wizard.

(* ================================================================== *)
(** ** Metrics and data split ([src/utils/dataProcessing.ts], found after
    the SQL migration in [src/supabase/migrations/]) *)

Module DataProcessing.

(** [array.filter((element, i) => f(element, i))] *)
Fixpoint filterWithIndex {A : Type} (f : A -> nat -> bool) (index : nat) (l : list A)
  : list A :=
  match l with
  | [] => []
  | x :: rest =>
      if f x index then x :: filterWithIndex f (S index) rest
      else filterWithIndex f (S index) rest
  end.

(** [yPred[i] === value]; a read past the end gives [undefined], which is
    equal to no number. *)
Definition at_is (yPred : list Z) (i : nat) (value : Z) : bool :=
  match nth_error yPred i with
  | Some predicted => predicted =? value
  | None => false
  end.

Record ModelMetrics : Set := {
  accuracy : float;
  precision : float;
  recall : float;
  f1Score : float;
  confusionMatrix : list (list nat)
}.

Definition count_tp (yTrue yPred : list Z) : nat :=
  List.length (filterWithIndex (fun actual i => (actual =? 1) && at_is yPred i 1) 0 yTrue).

Definition count_tn (yTrue yPred : list Z) : nat :=
  List.length (filterWithIndex (fun actual i => (actual =? 0) && at_is yPred i 0) 0 yTrue).

Definition count_fp (yTrue yPred : list Z) : nat :=
  List.length (filterWithIndex (fun actual i => (actual =? 0) && at_is yPred i 1) 0 yTrue).

Definition count_fn (yTrue yPred : list Z) : nat :=
  List.length (filterWithIndex (fun actual i => (actual =? 1) && at_is yPred i 0) 0 yTrue).

(** A count as a JavaScript number. *)
Definition Number_of_nat (n : nat) : float := Number_of_Z (Z.of_nat n).

(** [calculateMetrics]. *)
Definition calculateMetrics (yTrue yPred : list Z) : ModelMetrics :=
  let tp := count_tp yTrue yPred in
  let tn := count_tn yTrue yPred in
  let fp := count_fp yTrue yPred in
  let fn := count_fn yTrue yPred in
  let accuracy := (Number_of_nat (tp + tn) / Number_of_nat (tp + tn + fp + fn))%float in
  let precision :=
    if Nat.eqb tp 0 then 0%float
    else (Number_of_nat tp / Number_of_nat (tp + fp))%float in
  let recall :=
    if Nat.eqb tp 0 then 0%float
    else (Number_of_nat tp / Number_of_nat (tp + fn))%float in
  let f1Score :=
    if (precision + recall =? 0)%float then 0%float
    else (2 * (precision * recall) / (precision + recall))%float in
  {| accuracy := accuracy;
     precision := precision;
     recall := recall;
     f1Score := f1Score;
     confusionMatrix := [[tn; fp]; [fn; tp]] |}.

(** An integer or an infinity, as [Array.prototype.slice] sees its
    arguments. *)
Inductive IntegerOrInfinity : Set :=
| Int (z : Z)
| PlusInfinity
| MinusInfinity.

(** [Math.floor(x)] as [slice] receives it: the largest integer not above a
    finite [x], read off the sign, mantissa and exponent of the binary64
    value; NaN counts as 0. *)
Definition floorToInteger (x : float) : IntegerOrInfinity :=
  match Prim2SF x with
  | S754_zero _ => Int 0
  | S754_nan => Int 0
  | S754_infinity s => if s then MinusInfinity else PlusInfinity
  | S754_finite s m e =>
      let M := if s then Z.neg m else Z.pos m in
      if 0 <=? e then Int (M * 2 ^ e) else Int (M / 2 ^ (- e))
  end.

(** The position that [slice] makes of an argument: negative arguments
    count from the end, and all are clamped to [0..len]. *)
Definition relativeIndex (len : nat) (k : IntegerOrInfinity) : nat :=
  match k with
  | MinusInfinity => 0%nat
  | PlusInfinity => len
  | Int z =>
      if z <? 0 then Z.to_nat (Z.max (Z.of_nat len + z) 0)
      else Z.to_nat (Z.min z (Z.of_nat len))
  end.

(** [l.slice(start, end)]; [None] for an omitted [end]. *)
Definition slice {A : Type} (l : list A) (start : IntegerOrInfinity)
    (end_ : option IntegerOrInfinity) : list A :=
  let len := List.length l in
  let k := relativeIndex len start in
  let final :=
    match end_ with
    | None => len
    | Some e => relativeIndex len e
    end in
  firstn (final - k) (skipn k l).

(** [[indices[i], indices[j]] = [indices[j], indices[i]]] for positions
    inside the array.  A position outside it would make the array grow with
    an [undefined] entry; the loop never produces one, and the model gives
    [None] there. *)
Definition swap (indices : list nat) (i j : nat) : option (list nat) :=
  match nth_error indices i, nth_error indices j with
  | Some a, Some b =>
      match Wizard.array_set indices i b with
      | Some indices' => Wizard.array_set indices' j a
      | None => None
      end
  | _, _ => None
  end.

(** The shuffle loop [for (let i = indices.length - 1; i > 0; i--)].
    [draw i] is the value of [Math.floor(Math.random() * (i + 1))] in the
    iteration for [i]. *)
Fixpoint shuffleFrom (draw : nat -> nat) (i : nat) (indices : list nat)
  : option (list nat) :=
  match i with
  | O => Some indices
  | S i' =>
      match swap indices i (draw i) with
      | Some indices' => shuffleFrom draw i' indices'
      | None => None
      end
  end.

Record Split (A B : Type) : Type := {
  XTrain : list (option A);
  XTest : list (option A);
  yTrain : list (option B);
  yTest : list (option B)
}.

Arguments XTrain {A B} _.
Arguments XTest {A B} _.
Arguments yTrain {A B} _.
Arguments yTest {A B} _.

(** [trainTestSplit(X, y, testSize)].  [X[i]] and [y[i]] are array reads,
    [undefined] ([None]) past the end. *)
Definition trainTestSplit {A B : Type} (draw : nat -> nat) (X : list A) (y : list B)
    (testSize : float) : option (Split A B) :=
  let indices := seq 0 (List.length X) in
  match shuffleFrom draw (List.length indices - 1) indices with
  | None => None
  | Some indices =>
      let trainSize :=
        floorToInteger (Number_of_nat (List.length X) * (1 - testSize))%float in
      let trainIndices := slice indices (Int 0) (Some trainSize) in
      let testIndices := slice indices trainSize None in
      Some {| XTrain := map (fun i => nth_error X i) trainIndices;
              XTest := map (fun i => nth_error X i) testIndices;
              yTrain := map (fun i => nth_error y i) trainIndices;
              yTest := map (fun i => nth_error y i) testIndices |}
  end.

(** A class label. *)
Definition isLabel (a : Z) : Prop := a = 0 \/ a = 1.

(** Equality of two (actual, predicted) label pairs is decidable. *)
Definition labelPair_eq_dec (a b : Z * Z) : {a = b} + {a <> b}.
Proof. decide equality; apply Z.eq_dec. Defined.

(** The number of positions at which the actual label is [actual] and the
    predicted label is [predicted]: the two lists are paired up position by
    position and the occurrences of the pair are counted.  This is the
    meaning of a confusion-matrix cell, written without the code's indexed
    [filter] calls, to be compared with them. *)
Definition positionsWith (yTrue yPred : list Z) (actual predicted : Z) : nat :=
  count_occ labelPair_eq_dec (combine yTrue yPred) (actual, predicted).

(** The number of samples whose actual label is [actual]. *)
Definition samplesWith (yTrue : list Z) (actual : Z) : nat :=
  count_occ Z.eq_dec yTrue actual.

(** Sample labels. *)
Definition sampleTrue : list Z := [1; 0; 1; 1].
Definition samplePred : list Z := [1; 1; 0; 1].

(** The default [testSize = 0.2]. *)
Definition defaultTestSize : float := 0.2%float.

(** The training size of the default split is four fifths of the row count,
    rounded down. *)
Definition defaultTrainSizeOk (n : nat) : bool :=
  match floorToInteger (Number_of_nat n * (1 - defaultTestSize))%float with
  | Int z => z =? (4 * Z.of_nat n) / 5
  | _ => false
  end.

(** [AutismDataPoint] of [src/types/autism.ts], a row of the data set. *)
Record AutismDataPoint : Set := {
  Age : Z;
  Gender : Gender;
  Q1 : QuestionnaireResponse;
  Q2 : QuestionnaireResponse;
  Q3 : QuestionnaireResponse;
  Q4 : QuestionnaireResponse;
  Q5 : QuestionnaireResponse;
  Q6 : QuestionnaireResponse;
  Q7 : QuestionnaireResponse;
  Q8 : QuestionnaireResponse;
  Q9 : QuestionnaireResponse;
  Q10 : QuestionnaireResponse;
  Total_Score : Z;
  ASD_Label : Z
}.

(** The feature vector that [prepareFeatures] builds for one row. *)
Definition featuresOf (item : AutismDataPoint) : list float :=
  [ (Number_of_Z (Age item) / 12)%float;
    match Gender item with M => 1%float | F => 0%float end;
    (Number_of_Z (responseToNumber (Q1 item)) / 4)%float;
    (Number_of_Z (responseToNumber (Q2 item)) / 4)%float;
    (Number_of_Z (responseToNumber (Q3 item)) / 4)%float;
    (Number_of_Z (responseToNumber (Q4 item)) / 4)%float;
    (Number_of_Z (responseToNumber (Q5 item)) / 4)%float;
    (Number_of_Z (responseToNumber (Q6 item)) / 4)%float;
    (Number_of_Z (responseToNumber (Q7 item)) / 4)%float;
    (Number_of_Z (responseToNumber (Q8 item)) / 4)%float;
    (Number_of_Z (responseToNumber (Q9 item)) / 4)%float;
    (Number_of_Z (responseToNumber (Q10 item)) / 4)%float;
    (Number_of_Z (Total_Score item) / 40)%float ].

Record Features : Set := {
  X : list (list float);
  y : list Z
}.

(** [prepareFeatures]. *)
Definition prepareFeatures (data : list AutismDataPoint) : Features :=
  let X := map featuresOf data in
  let y := map ASD_Label data in
  {| X := X; y := y |}.

(** A feature between 0 and 1. *)
Definition inUnit (feature : float) : bool :=
  ((0 <=? feature) && (feature <=? 1))%float.

End DataProcessing.

(* ================================================================== *)
(** ** Decision stumps and their forest ([src/utils/dataProcessing.ts],
    classes [SimpleDecisionTree] and [SimpleRandomForest]) *)

Module RandomForest.

(** The three private fields of a [SimpleDecisionTree]. *)
Record SimpleDecisionTree : Set := {
  threshold : float;
  feature : nat;
  prediction : Z
}.

(** The fields of a tree that has not been fitted. *)
Definition newTree : SimpleDecisionTree :=
  {| threshold := 0.5%float; feature := 0%nat; prediction := 0 |}.

(** One row of [SimpleDecisionTree.predict]:
    [features[this.feature] <= this.threshold ? this.prediction
     : 1 - this.prediction]; a missing feature is [undefined], for which the
    comparison is false. *)
Definition tree_predict_row (tree : SimpleDecisionTree) (features : list float) : Z :=
  match nth_error features (feature tree) with
  | Some value =>
      if (value <=? threshold tree)%float then prediction tree
      else 1 - prediction tree
  | None => 1 - prediction tree
  end.

Definition tree_predict (tree : SimpleDecisionTree) (rows : list (list float))
  : list Z :=
  map (tree_predict_row tree) rows.

(** [private nTrees = 10]. *)
Definition nTrees : Z := 10.

(** [this.trees.map(tree => tree.predict([features])[0])
      .reduce((a, b) => a + b, 0)]. *)
Definition votes (trees : list SimpleDecisionTree) (features : list float) : Z :=
  fold_left Z.add
    (map (fun tree => nth 0 (tree_predict tree [features]) 0) trees) 0.

(** [SimpleRandomForest.predict]: [sum >= this.nTrees / 2 ? 1 : 0]. *)
Definition forest_predict (trees : list SimpleDecisionTree) (rows : list (list float))
  : list Z :=
  map (fun features =>
         let sum := votes trees features in
         if (Number_of_Z nTrees / 2 <=? Number_of_Z sum)%float then 1 else 0) rows.

(** [SimpleRandomForest.predictProba]: [sum / this.nTrees]. *)
Definition forest_predictProba (trees : list SimpleDecisionTree)
    (rows : list (list float)) : list float :=
  map (fun features => (Number_of_Z (votes trees features) / Number_of_Z nTrees)%float)
    rows.

(** The vote test and the probability agree on every number of votes that
    at most ten trees can cast. *)
Definition voteFacts (sum : Z) : bool :=
  let p := (Number_of_Z sum / Number_of_Z nTrees)%float in
  Bool.eqb (Number_of_Z nTrees / 2 <=? Number_of_Z sum)%float (0.5 <=? p)%float
  && Bool.eqb (Number_of_Z nTrees / 2 <=? Number_of_Z sum)%float (5 <=? sum)
  && (0 <=? p)%float && (p <=? 1)%float.

(** The number of trees whose own prediction for the row is 1: the trees'
    predictions are listed and the occurrences of 1 are counted.  This is
    the vote count in words ("at least five trees vote 1"), written without
    the code's [reduce] sum, to be compared with [votes]. *)
Definition treesVotingOne (trees : list SimpleDecisionTree) (features : list float)
  : nat :=
  count_occ Z.eq_dec (map (fun tree => tree_predict_row tree features) trees) 1.

(** A fitted stump that predicts 1 for a first feature up to 0.5, and a
    forest of ten trees, as [fit] builds it: five such stumps and five that
    predict 0 there. *)
Definition stumpOne : SimpleDecisionTree :=
  {| threshold := 0.5%float; feature := 0%nat; prediction := 1 |}.

Definition tiedForest : list SimpleDecisionTree :=
  repeat stumpOne 5 ++ repeat newTree 5.

End RandomForest.

(* ================================================================== *)
(** ** Auxiliary definitions used in the statements *)

(** The sum of a list of integers, written as a right fold. *)
Definition sumZ (l : list Z) : Z := fold_right Z.add 0 l.

(** Equality of two answers is decidable. *)
Definition QuestionnaireResponse_eq_dec (a b : QuestionnaireResponse) :
  {a = b} + {a <> b}.
Proof. decide equality. Defined.

(** How often one answer occurs among the responses.  This is the count in
    the specification's words ("the count of responses that are ..."),
    written with the library's [count_occ] and without the code's [filter]
    calls, to be compared with [highRiskResponses] and
    [lowEngagementResponses]. *)
Definition occurrences (r : QuestionnaireResponse)
    (responses : list QuestionnaireResponse) : nat :=
  count_occ QuestionnaireResponse_eq_dec responses r.

Definition countOftenOrAlways (responses : list QuestionnaireResponse) : nat :=
  (occurrences often responses + occurrences always responses)%nat.

Definition countNeverOrRarely (responses : list QuestionnaireResponse) : nat :=
  (occurrences never responses + occurrences rarely responses)%nat.

(** The [riskPercentage] local of [calculatePrediction], as a function of the
    form state. *)
Definition riskPercentageOfInput (formData : PredictionInput) : float :=
  riskPercentageOf (age formData) (gender formData)
    (totalScore (responses formData))
    (highRiskResponses (responses formData))
    (lowEngagementResponses (responses formData)).

(** [riskScore] after line 57 and after line 68, as functions of the form
    state. *)
Definition weightedRiskOfInput (formData : PredictionInput) : float :=
  weightedRisk (age formData) (gender formData) (totalScore (responses formData)).

Definition unclampedRiskOfInput (formData : PredictionInput) : float :=
  unclampedRisk (age formData) (gender formData)
    (totalScore (responses formData))
    (highRiskResponses (responses formData))
    (lowEngagementResponses (responses formData)).

(* ================================================================== *)
(** ** Enumeration of the numeric inputs ten responses can produce

    With ten responses of which [high] are [often] or [always] and [low] are
    [never] or [rarely], the total lies between [20 + high - 2 low] and
    [20 + 2 high - low]. *)

Definition reachable (total : Z) (high low : nat) : bool :=
  (high + low <=? 10)%nat
  && (20 + Z.of_nat high - 2 * Z.of_nat low <=? total)
  && (total <=? 20 + 2 * Z.of_nat high - Z.of_nat low).

Definition forallReachable (P : Z -> Gender -> Z -> nat -> nat -> bool) : bool :=
  forallZ 2 13 (fun age =>
  forallb (fun gender =>
  forallZ 0 41 (fun total =>
  forallN 11 (fun high =>
  forallN 11 (fun low =>
    if reachable total high low then P age gender total high low else true)))) [M; F]).

Definition RiskLevel_eqb (a b : RiskLevel) : bool :=
  match a, b with
  | Low, Low | Medium, Medium | High, High => true
  | _, _ => false
  end.

(** The unclamped score is a number strictly between 0 and 1, the percentage
    lies in 5..96.5 and the confidence in 0.6..0.9. *)
Definition tightRanges (age : Z) (gender : Gender) (total : Z) (high low : nat) : bool :=
  let u := unclampedRisk age gender total high low in
  let p := riskPercentageOf age gender total high low in
  let c := clampConfidence (snd (levelAndConfidence p)) in
  ((u =? u) && (0 <? u) && (u <? 1) && negb (1 <? u)
   && (5 <=? p) && (p <=? 96.5)
   && (0.6 <=? c) && (c <=? 0.9))%float.

(** Which totals go with which level. *)
Definition levelByTotal (age : Z) (gender : Gender) (total : Z) (high low : nat) : bool :=
  let level := fst (levelAndConfidence (riskPercentageOf age gender total high low)) in
  implb (total <=? 13) (RiskLevel_eqb level Low)
  && implb ((17 <=? total) && (total <=? 25)) (RiskLevel_eqb level Medium)
  && implb (31 <=? total) (RiskLevel_eqb level High)
  && implb (RiskLevel_eqb level Low) (total <=? 16)
  && implb (RiskLevel_eqb level Medium) ((14 <=? total) && (total <=? 30))
  && implb (RiskLevel_eqb level High) (26 <=? total).

(** The age band that the two age tests of the scoring function select,
    by a representative age. *)
Definition ageBand (age : Z) : Z :=
  if age <=? 3 then 3 else if age >=? 10 then 10 else 5.

(** Changing age and gender moves the percentage by no more than 1.5 points
    (and the rounding of the arithmetic). *)
Definition demographicSpread (age : Z) (gender : Gender) (total : Z) (high low : nat)
  : bool :=
  forallb (fun age' =>
  forallb (fun gender' =>
    (riskPercentageOf age' gender' total high low
     - riskPercentageOf (ageBand age) gender total high low <=? 1.5000001)%float)
    [M; F]) [3; 5; 10].

(** With seven low responses, turning one of them into [sometimes] (the total
    grows by 1 or 2, the low count falls to six) lowers the percentage. *)
Definition thresholdDrop (age : Z) (gender : Gender) (total : Z) (high low : nat) : bool :=
  if Nat.eqb low 7 then
    ((riskPercentageOf age gender (total + 1) high 6
      <? riskPercentageOf age gender total high 7)
     && (riskPercentageOf age gender (total + 2) high 6
         <? riskPercentageOf age gender total high 7))%float
  else true.

(** With the two bonus tests decided the same way, the percentage does not
    fall when the total grows. *)
Definition forallTotalPairs (P : Z -> Gender -> nat -> nat -> Z -> Z -> bool) : bool :=
  forallZ 2 13 (fun age =>
  forallb (fun gender =>
  forallb (fun high =>
  forallb (fun low =>
  forallZ 0 41 (fun total =>
  forallZ 0 41 (fun total' =>
    P age gender high low total total'))) [0; 7]%nat) [0; 6]%nat) [M; F]).

Definition monotoneInTotal (age : Z) (gender : Gender) (high low : nat)
    (total total' : Z) : bool :=
  if total <=? total' then
    (riskPercentageOf age gender total high low
     <=? riskPercentageOf age gender total' high low)%float
  else true.

(** The earlier interface: order facts about its risk score and the range
    of its confidence. *)
Definition legacyFacts (age : Z) (gender : Gender) (total : Z) (high low : nat) : bool :=
  let r := Legacy.riskScoreOf age gender total high low in
  let c := if (0.6 <=? r)%float then r else (1 - r)%float in
  ((0 <=? r) && (r <=? 1)
   && Bool.eqb (r <? 0.3) (negb (0.3 <=? r))
   && Bool.eqb (r <? 0.6) (negb (0.6 <=? r))
   && Bool.eqb (r <? 0.7) (negb (0.7 <=? r))
   && implb (r <? 0.3) (r <? 0.6)
   && implb (r <? 0.6) (r <? 0.7)
   && (0.4 <=? c) && (c <=? 1))%float.

(* ================================================================== *)
(** ** Sample inputs *)

Definition allNeverInput : PredictionInput :=
  {| age := 5; gender := F; responses := repeat never 10 |}.

Definition allAlwaysInput : PredictionInput :=
  {| age := 5; gender := M; responses := repeat always 10 |}.

Definition sixOftenInput : PredictionInput :=
  {| age := 8; gender := M; responses := repeat often 6 ++ repeat never 4 |}.

Definition allSometimesInput : PredictionInput :=
  {| age := 12; gender := M; responses := repeat sometimes 10 |}.

Definition sevenNeverInput : PredictionInput :=
  {| age := 6; gender := F; responses := repeat never 7 ++ repeat sometimes 3 |}.

Definition nineResponsesInput : PredictionInput :=
  {| age := 5; gender := F; responses := repeat sometimes 9 |}.

Definition ageTwentyInput : PredictionInput :=
  {| age := 20; gender := M; responses := repeat sometimes 10 |}.

(** A stored session, identified by [id0]. *)
Definition sampleSession (id0 : string) : SessionStorage.SessionHistory :=
  {| SessionStorage.id := id0;
     SessionStorage.timestamp := "2025-11-20T09:40:24.000Z";
     SessionStorage.age := 8;
     SessionStorage.gender := M;
     SessionStorage.result :=
       calculatePrediction "2025-11-20T09:40:24.000Z" sixOftenInput;
     SessionStorage.totalScore := 18 |}.

Definition tenSessionIds : list string :=
  ["s10"; "s9"; "s8"; "s7"; "s6"; "s5"; "s4"; "s3"; "s2"; "s1"]%string.

(* ================================================================== *)
(** * Properties *)

(** Validity of a concrete form state, by evaluation. *)
Ltac valid_sample := unfold validInput; simpl; lia.

(** ** Sums, counts and ranges of the integer quantities *)

Lemma fold_left_score_acc (responses : list QuestionnaireResponse) (acc : Z) :
  fold_left (fun sum response => sum + responseToNumber response) responses acc
  = acc + sumZ (map responseToNumber responses).
Proof.
  revert acc. induction responses as [|r rest IH]; intros acc; simpl.
  - lia.
  - rewrite IH. unfold sumZ. simpl. lia.
Qed.

Lemma totalScore_sum (responses : list QuestionnaireResponse) :
  totalScore responses = sumZ (map responseToNumber responses).
Proof. unfold totalScore. rewrite fold_left_score_acc. lia. Qed.

Lemma responseToNumber_range (r : QuestionnaireResponse) :
  0 <= responseToNumber r <= 4.
Proof. destruct r; simpl; lia. Qed.

Lemma sum_scores_range (responses : list QuestionnaireResponse) :
  0 <= sumZ (map responseToNumber responses) <= 4 * Z.of_nat (List.length responses).
Proof.
  induction responses as [|r rest IH].
  - simpl. lia.
  - pose proof (responseToNumber_range r) as Hr.
    change (sumZ (map responseToNumber (r :: rest)))
      with (responseToNumber r + sumZ (map responseToNumber rest)).
    simpl List.length. lia.
Qed.

Lemma totalScore_range (responses : list QuestionnaireResponse) :
  0 <= totalScore responses <= 4 * Z.of_nat (List.length responses).
Proof. rewrite totalScore_sum. apply sum_scores_range. Qed.

Lemma filter_pair_length {A : Type} (p q : A -> bool) (l : list A) :
  (forall x, p x && q x = false) ->
  (List.length (filter p l) + List.length (filter q l) <= List.length l)%nat.
Proof.
  intros Hpq. induction l as [|x rest IH]; simpl.
  - lia.
  - specialize (Hpq x).
    destruct (p x), (q x); simpl in *; try discriminate; lia.
Qed.

Lemma counts_disjoint (responses : list QuestionnaireResponse) :
  (highRiskResponses responses + lowEngagementResponses responses
   <= List.length responses)%nat.
Proof.
  unfold highRiskResponses, lowEngagementResponses.
  apply filter_pair_length. intros x. destruct x; reflexivity.
Qed.

(** ** Soundness of the enumeration *)

Lemma forallZ_spec (lo : Z) (n : nat) (P : Z -> bool) :
  forallZ lo n P = true ->
  forall z, lo <= z < lo + Z.of_nat n -> P z = true.
Proof.
  unfold forallZ. intros H z Hz.
  rewrite forallb_forall in H. apply H.
  apply in_map_iff. exists (Z.to_nat (z - lo)). split.
  - lia.
  - apply in_seq. lia.
Qed.

Lemma forallN_spec (n : nat) (P : nat -> bool) :
  forallN n P = true -> forall k, (k < n)%nat -> P k = true.
Proof.
  unfold forallN. intros H k Hk.
  rewrite forallb_forall in H. apply H. apply in_seq. lia.
Qed.

Lemma forallRiskPercentage_spec (P : float -> bool) :
  forallRiskPercentage P = true ->
  forall age gender total high low,
    2 <= age <= 14 -> 0 <= total <= 40 -> (high <= 10)%nat -> (low <= 10)%nat ->
    P (riskPercentageOf age gender total high low) = true.
Proof.
  unfold forallRiskPercentage.
  intros H age0 gender0 total high low Ha Ht Hh Hl.
  pose proof (forallZ_spec _ _ _ H age0 ltac:(lia)) as H1. cbv beta in H1.
  rewrite forallb_forall in H1.
  assert (Hg : In gender0 [M; F]) by (destruct gender0; simpl; auto).
  apply H1 in Hg.
  pose proof (forallZ_spec _ _ _ Hg total ltac:(lia)) as H2. cbv beta in H2.
  pose proof (forallN_spec _ _ H2 high ltac:(lia)) as H3. cbv beta in H3.
  apply (forallN_spec _ _ H3 low). lia.
Qed.

Lemma forallWeightedRisk_spec (P : float -> bool) :
  forallWeightedRisk P = true ->
  forall age gender total,
    2 <= age <= 14 -> 0 <= total <= 40 ->
    P (weightedRisk age gender total) = true.
Proof.
  unfold forallWeightedRisk.
  intros H age0 gender0 total Ha Ht.
  pose proof (forallZ_spec _ _ _ H age0 ltac:(lia)) as H1. cbv beta in H1.
  rewrite forallb_forall in H1.
  assert (Hg : In gender0 [M; F]) by (destruct gender0; simpl; auto).
  apply H1 in Hg.
  apply (forallZ_spec _ _ _ Hg total). lia.
Qed.

(** Every valid input falls inside the enumerated box. *)
Lemma valid_in_box (formData : PredictionInput) :
  validInput formData ->
  2 <= age formData <= 14
  /\ 0 <= totalScore (responses formData) <= 40
  /\ (highRiskResponses (responses formData) <= 10)%nat
  /\ (lowEngagementResponses (responses formData) <= 10)%nat
  /\ (highRiskResponses (responses formData)
      + lowEngagementResponses (responses formData) <= 10)%nat.
Proof.
  intros [Hage Hlen].
  pose proof (totalScore_range (responses formData)) as Ht.
  pose proof (counts_disjoint (responses formData)) as Hc.
  rewrite Hlen in Ht, Hc. repeat split; lia.
Qed.

Lemma valid_riskPercentage (P : float -> bool) (formData : PredictionInput) :
  forallRiskPercentage P = true ->
  validInput formData ->
  P (riskPercentageOfInput formData) = true.
Proof.
  intros HP Hv. destruct (valid_in_box formData Hv) as (Ha & Ht & Hh & Hl & _).
  unfold riskPercentageOfInput.
  apply forallRiskPercentage_spec; assumption.
Qed.

(** ** Evaluation of the binary64 arithmetic over the box *)

Lemma percentageInRange_checked : forallRiskPercentage percentageInRange = true.
Proof. vm_compute. reflexivity. Qed.

Lemma percentageOrdered_checked : forallRiskPercentage percentageOrdered = true.
Proof. vm_compute. reflexivity. Qed.

Lemma confidenceInRange_checked : forallRiskPercentage confidenceInRange = true.
Proof. vm_compute. reflexivity. Qed.

Lemma bonusVisible_checked : forallWeightedRisk bonusVisible = true.
Proof. vm_compute. reflexivity. Qed.

(** ** The fields of the result in terms of the stages *)

Lemma calculatePrediction_fields (now : string) (formData : PredictionInput) :
  let r := calculatePrediction now formData in
  let p := riskPercentageOfInput formData in
  prediction r = predictionOf p
  /\ confidence r = clampConfidence (snd (levelAndConfidence p))
  /\ riskLevel r = fst (levelAndConfidence p)
  /\ recommendation r = recommendationOf (fst (levelAndConfidence p))
  /\ riskPercentage r = Some p
  /\ scoreBreakdown r = Some (scoreBreakdownOf (responses formData))
  /\ timestamp r = Some now.
Proof.
  cbv zeta. unfold calculatePrediction.
  fold (riskPercentageOfInput formData).
  destruct (levelAndConfidence (riskPercentageOfInput formData)) as [lvl conf].
  repeat split.
Qed.

(* ================================================================== *)
(** ** Risk percentage and risk level *)

(** C1.  For every valid input the result carries a [riskPercentage] that
    lies between 0 and 100, and the [riskLevel] is [Low] exactly when the
    percentage is below 35, [Medium] exactly when it is at least 35 and below
    65, and [High] exactly when it is at least 65. *)
Theorem riskPercentage_range_and_level (now : string) (formData : PredictionInput) :
  validInput formData ->
  exists p : float,
    riskPercentage (calculatePrediction now formData) = Some p
    /\ (0 <=? p)%float = true /\ (p <=? 100)%float = true
    /\ (riskLevel (calculatePrediction now formData) = Low
        <-> (p <? 35)%float = true)
    /\ (riskLevel (calculatePrediction now formData) = Medium
        <-> (35 <=? p)%float = true /\ (p <? 65)%float = true)
    /\ (riskLevel (calculatePrediction now formData) = High
        <-> (65 <=? p)%float = true).
Proof.
  intros Hv.
  destruct (calculatePrediction_fields now formData)
    as (_ & _ & Hlvl & _ & Hp & _). cbv zeta in Hlvl, Hp.
  exists (riskPercentageOfInput formData).
  rewrite Hlvl. split; [exact Hp|].
  pose proof (valid_riskPercentage _ _ percentageInRange_checked Hv) as Hr.
  pose proof (valid_riskPercentage _ _ percentageOrdered_checked Hv) as Ho.
  revert Hr Ho. generalize (riskPercentageOfInput formData). intros p.
  unfold percentageInRange, percentageOrdered, levelAndConfidence.
  destruct (0 <=? p)%float, (p <=? 100)%float,
    (p <? 35)%float, (35 <=? p)%float,
    (p <? 65)%float, (65 <=? p)%float,
    (p <? 50)%float, (50 <=? p)%float;
    simpl; intros Hr Ho; try discriminate;
    repeat split; intros; try discriminate; try reflexivity;
    repeat match goal with H : _ /\ _ |- _ => destruct H end;
    try discriminate; auto.
Qed.

Lemma riskPercentage_range_and_level_witness :
  validInput sixOftenInput
  /\ exists p : float,
    riskPercentage (calculatePrediction "2025-11-20T09:40:24.000Z" sixOftenInput) = Some p
    /\ (0 <=? p)%float = true /\ (p <=? 100)%float = true
    /\ (riskLevel (calculatePrediction "2025-11-20T09:40:24.000Z" sixOftenInput) = Low
        <-> (p <? 35)%float = true)
    /\ (riskLevel (calculatePrediction "2025-11-20T09:40:24.000Z" sixOftenInput) = Medium
        <-> (35 <=? p)%float = true /\ (p <? 65)%float = true)
    /\ (riskLevel (calculatePrediction "2025-11-20T09:40:24.000Z" sixOftenInput) = High
        <-> (65 <=? p)%float = true).
Proof.
  assert (Hv : validInput sixOftenInput) by valid_sample.
  split; [exact Hv|].
  apply (riskPercentage_range_and_level _ sixOftenInput Hv).
Defined.

(* ================================================================== *)
(** ** Confidence *)

(** C2.  For every valid input the [confidence] of the result lies in the
    closed interval from 0.6 to 0.95, whatever the risk level. *)
Theorem confidence_range (now : string) (formData : PredictionInput) :
  validInput formData ->
  (0.6 <=? confidence (calculatePrediction now formData))%float = true
  /\ (confidence (calculatePrediction now formData) <=? 0.95)%float = true.
Proof.
  intros Hv.
  destruct (calculatePrediction_fields now formData) as (_ & Hc & _).
  cbv zeta in Hc. rewrite Hc.
  pose proof (valid_riskPercentage _ _ confidenceInRange_checked Hv) as H.
  unfold confidenceInRange in H. cbv zeta in H.
  apply andb_true_iff in H. exact H.
Qed.

Lemma confidence_range_witness :
  validInput allAlwaysInput
  /\ (0.6 <=? confidence (calculatePrediction "2025-11-20T09:40:24.000Z" allAlwaysInput))%float
     = true
  /\ (confidence (calculatePrediction "2025-11-20T09:40:24.000Z" allAlwaysInput) <=? 0.95)%float
     = true.
Proof.
  assert (Hv : validInput allAlwaysInput) by valid_sample.
  split; [exact Hv|].
  apply (confidence_range _ allAlwaysInput Hv).
Defined.

(** The three branches of the confidence formula on the sample inputs: the
    low branch gives 30/35 at 5 percent, the middle branch 0.7, and the high
    branch 30.75/35 at 95.75 percent. *)
Example confidence_samples :
  confidence (calculatePrediction "" allNeverInput) = 0.8571428571428571%float
  /\ riskLevel (calculatePrediction "" allNeverInput) = Low
  /\ confidence (calculatePrediction "" sixOftenInput) = 0.7%float
  /\ riskLevel (calculatePrediction "" sixOftenInput) = Medium
  /\ confidence (calculatePrediction "" allAlwaysInput) = 0.87857142857142811%float
  /\ riskLevel (calculatePrediction "" allAlwaysInput) = High.
Proof. vm_compute. repeat split. Qed.

(* ================================================================== *)
(** ** Binary prediction *)

(** C10.  For every valid input the [prediction] field is 1 exactly when the
    risk percentage is at least 50 and 0 otherwise; hence a [Low] level comes
    with prediction 0 and a [High] level with prediction 1. *)
Theorem prediction_threshold (now : string) (formData : PredictionInput) :
  validInput formData ->
  exists p : float,
    riskPercentage (calculatePrediction now formData) = Some p
    /\ (prediction (calculatePrediction now formData) = 1
        <-> (50 <=? p)%float = true)
    /\ (prediction (calculatePrediction now formData) = 0
        <-> (p <? 50)%float = true)
    /\ (riskLevel (calculatePrediction now formData) = Low ->
        prediction (calculatePrediction now formData) = 0)
    /\ (riskLevel (calculatePrediction now formData) = High ->
        prediction (calculatePrediction now formData) = 1).
Proof.
  intros Hv.
  destruct (calculatePrediction_fields now formData)
    as (Hpred & _ & Hlvl & _ & Hp & _). cbv zeta in Hpred, Hlvl, Hp.
  exists (riskPercentageOfInput formData).
  rewrite Hlvl, Hpred. split; [exact Hp|].
  pose proof (valid_riskPercentage _ _ percentageOrdered_checked Hv) as Ho.
  revert Ho. generalize (riskPercentageOfInput formData). intros p.
  unfold percentageOrdered, levelAndConfidence, predictionOf.
  destruct (p <? 35)%float, (35 <=? p)%float,
    (p <? 65)%float, (65 <=? p)%float,
    (p <? 50)%float, (50 <=? p)%float;
    simpl; intros Ho; try discriminate;
    repeat split; intros; try discriminate; try reflexivity; auto.
Qed.

Lemma prediction_threshold_witness :
  validInput allNeverInput
  /\ exists p : float,
    riskPercentage (calculatePrediction "2025-11-20T09:40:24.000Z" allNeverInput) = Some p
    /\ (prediction (calculatePrediction "2025-11-20T09:40:24.000Z" allNeverInput) = 1
        <-> (50 <=? p)%float = true)
    /\ (prediction (calculatePrediction "2025-11-20T09:40:24.000Z" allNeverInput) = 0
        <-> (p <? 50)%float = true)
    /\ (riskLevel (calculatePrediction "2025-11-20T09:40:24.000Z" allNeverInput) = Low ->
        prediction (calculatePrediction "2025-11-20T09:40:24.000Z" allNeverInput) = 0)
    /\ (riskLevel (calculatePrediction "2025-11-20T09:40:24.000Z" allNeverInput) = High ->
        prediction (calculatePrediction "2025-11-20T09:40:24.000Z" allNeverInput) = 1).
Proof.
  assert (Hv : validInput allNeverInput) by valid_sample.
  split; [exact Hv|].
  apply (prediction_threshold _ allNeverInput Hv).
Defined.

(* ================================================================== *)
(** ** Pattern bonuses *)

(** The code's two [filter(...).length] counts are the numbers of answers
    of the two kinds. *)
Lemma highRiskResponses_counts (l : list QuestionnaireResponse) :
  highRiskResponses l = countOftenOrAlways l.
Proof.
  unfold highRiskResponses, countOftenOrAlways, occurrences.
  induction l as [|r l IH]; [reflexivity|].
  destruct r; simpl; rewrite ?IH; lia.
Qed.

Lemma lowEngagementResponses_counts (l : list QuestionnaireResponse) :
  lowEngagementResponses l = countNeverOrRarely l.
Proof.
  unfold lowEngagementResponses, countNeverOrRarely, occurrences.
  induction l as [|r l IH]; [reflexivity|].
  destruct r; simpl; rewrite ?IH; lia.
Qed.

(** C6.  For every valid input, writing [b] for [riskScore] after the weighted
    combination, [s] for [riskScore] after the two bonus tests, [high] for
    the number of responses that are [often] or [always] and [low] for the
    number that are [never] or [rarely] (both counted on the list itself, not
    through the code's counters): the code's [highRiskResponses] is [high]
    and its [lowEngagementResponses] is [low]; if [high] is at least six then
    [s] is [b + 0.1], one addition of the fixed bonus; if [low] is at least
    seven then [s] is [b + 0.05], one addition of the smaller bonus; and if
    neither threshold is met then [s] is [b].  Either addition strictly
    raises the score, and the percentage of the result is [s], clamped to
    0..1, times 100. *)
Theorem pattern_bonus_once (now : string) (formData : PredictionInput) :
  validInput formData ->
  let b := weightedRiskOfInput formData in
  let s := unclampedRiskOfInput formData in
  let high := countOftenOrAlways (responses formData) in
  let low := countNeverOrRarely (responses formData) in
  highRiskResponses (responses formData) = high
  /\ lowEngagementResponses (responses formData) = low
  /\ ((6 <= high)%nat -> s = (b + 0.1)%float /\ (b <? s)%float = true)
  /\ ((7 <= low)%nat -> s = (b + 0.05)%float /\ (b <? s)%float = true)
  /\ ((high < 6)%nat -> (low < 7)%nat -> s = b)
  /\ riskPercentage (calculatePrediction now formData)
     = Some (Math_max 0 (Math_min 1 s) * 100)%float.
Proof.
  intros Hv. cbv zeta.
  split; [apply highRiskResponses_counts|].
  split; [apply lowEngagementResponses_counts|].
  destruct (valid_in_box formData Hv) as (Ha & Ht & _ & _ & Hsum).
  pose proof (forallWeightedRisk_spec _ bonusVisible_checked
                (age formData) (gender formData) _ Ha Ht) as Hvis.
  unfold bonusVisible in Hvis. apply andb_true_iff in Hvis.
  destruct Hvis as [Hvis1 Hvis2].
  destruct (calculatePrediction_fields now formData)
    as (_ & _ & _ & _ & Hp & _). cbv zeta in Hp.
  rewrite Hp. clear Hp.
  assert (Hclamp : Some (riskPercentageOfInput formData)
                   = Some (Math_max 0 (Math_min 1 (unclampedRiskOfInput formData))
                           * 100)%float) by reflexivity.
  rewrite Hclamp. clear Hclamp.
  rewrite <- highRiskResponses_counts, <- lowEngagementResponses_counts.
  unfold unclampedRiskOfInput, unclampedRisk, weightedRiskOfInput, patternBonus.
  revert Hvis1 Hvis2 Hsum.
  generalize (weightedRisk (age formData) (gender formData)
                (totalScore (responses formData))).
  generalize (highRiskResponses (responses formData)).
  generalize (lowEngagementResponses (responses formData)).
  intros low high b Hvis1 Hvis2 Hsum.
  destruct (Nat.leb_spec 6 high) as [Hh|Hh];
    destruct (Nat.leb_spec 7 low) as [Hl|Hl]; cbv zeta;
    repeat split; intros; try lia; try reflexivity; assumption.
Qed.

(** The specification's example, six [often] and four [never] at age 8: six
    answers are [often] or [always], so the bonus 0.1 is added, once. *)
Lemma pattern_bonus_once_witness :
  validInput sixOftenInput
  /\ (6 <= countOftenOrAlways (responses sixOftenInput))%nat
  /\ highRiskResponses (responses sixOftenInput) = 6%nat
  /\ unclampedRiskOfInput sixOftenInput
     = (weightedRiskOfInput sixOftenInput + 0.1)%float
  /\ (weightedRiskOfInput sixOftenInput <? unclampedRiskOfInput sixOftenInput)%float
     = true
  /\ riskPercentage (calculatePrediction "2025-11-20T09:40:24.000Z" sixOftenInput)
     = Some (Math_max 0 (Math_min 1 (weightedRiskOfInput sixOftenInput + 0.1)) * 100)%float.
Proof.
  assert (Hv : validInput sixOftenInput) by valid_sample.
  assert (Hsix : (6 <= countOftenOrAlways (responses sixOftenInput))%nat)
    by (vm_compute; lia).
  destruct (pattern_bonus_once "2025-11-20T09:40:24.000Z" sixOftenInput Hv)
    as (Hhigh & _ & Hbonus & _ & _ & Hp).
  destruct (Hbonus Hsix) as [Hs Hlt].
  split; [exact Hv|]. split; [exact Hsix|].
  split; [rewrite Hhigh; reflexivity|].
  split; [exact Hs|]. split; [exact Hlt|].
  rewrite <- Hs. exact Hp.
Defined.

(** The specification's example: six [often] and four [never] at age 8 give
    a count of exactly six, the weighted score 0.39 and, with the bonus added
    once, 0.49; two additions would give 0.59. *)
Example six_often_bonus :
  highRiskResponses (responses sixOftenInput) = 6%nat
  /\ lowEngagementResponses (responses sixOftenInput) = 4%nat
  /\ weightedRiskOfInput sixOftenInput = 0.39000000000000001%float
  /\ unclampedRiskOfInput sixOftenInput = 0.48999999999999999%float
  /\ riskPercentage (calculatePrediction "" sixOftenInput) = Some 49%float.
Proof. vm_compute. repeat split. Qed.

(** With five [often] the count stays below the threshold and nothing is
    added. *)
Example five_often_no_bonus :
  let formData :=
    {| age := 8; gender := M; responses := repeat often 5 ++ repeat sometimes 5 |} in
  highRiskResponses (responses formData) = 5%nat
  /\ unclampedRiskOfInput formData = weightedRiskOfInput formData.
Proof. vm_compute. repeat split. Qed.

(* ================================================================== *)
(** ** Total score *)

(** C4.  For every valid input [totalScore] is the sum of the ten responses
    mapped by the table never=0, rarely=1, sometimes=2, often=3, always=4,
    and lies between 0 and 40. *)
Theorem totalScore_is_mapped_sum (formData : PredictionInput) :
  validInput formData ->
  (responseToNumber never = 0 /\ responseToNumber rarely = 1
   /\ responseToNumber sometimes = 2 /\ responseToNumber often = 3
   /\ responseToNumber always = 4)
  /\ (exists r1 r2 r3 r4 r5 r6 r7 r8 r9 r10,
        responses formData = [r1; r2; r3; r4; r5; r6; r7; r8; r9; r10]
        /\ totalScore (responses formData)
           = responseToNumber r1 + responseToNumber r2 + responseToNumber r3
             + responseToNumber r4 + responseToNumber r5 + responseToNumber r6
             + responseToNumber r7 + responseToNumber r8 + responseToNumber r9
             + responseToNumber r10)
  /\ totalScore (responses formData) = sumZ (map responseToNumber (responses formData))
  /\ 0 <= totalScore (responses formData) <= 40.
Proof.
  intros [_ Hlen]. split; [repeat split|]. split; [|split].
  - destruct (responses formData)
      as [|r1 [|r2 [|r3 [|r4 [|r5 [|r6 [|r7 [|r8 [|r9 [|r10 [|r11 rest]]]]]]]]]]];
      try discriminate Hlen.
    exists r1, r2, r3, r4, r5, r6, r7, r8, r9, r10. split; [reflexivity|].
    unfold totalScore. simpl. lia.
  - apply totalScore_sum.
  - pose proof (totalScore_range (responses formData)) as H.
    rewrite Hlen in H. lia.
Qed.

Lemma totalScore_is_mapped_sum_witness :
  validInput sixOftenInput
  /\ (responseToNumber never = 0 /\ responseToNumber rarely = 1
      /\ responseToNumber sometimes = 2 /\ responseToNumber often = 3
      /\ responseToNumber always = 4)
  /\ (exists r1 r2 r3 r4 r5 r6 r7 r8 r9 r10,
        responses sixOftenInput = [r1; r2; r3; r4; r5; r6; r7; r8; r9; r10]
        /\ totalScore (responses sixOftenInput)
           = responseToNumber r1 + responseToNumber r2 + responseToNumber r3
             + responseToNumber r4 + responseToNumber r5 + responseToNumber r6
             + responseToNumber r7 + responseToNumber r8 + responseToNumber r9
             + responseToNumber r10)
  /\ totalScore (responses sixOftenInput)
     = sumZ (map responseToNumber (responses sixOftenInput))
  /\ 0 <= totalScore (responses sixOftenInput) <= 40.
Proof.
  assert (Hv : validInput sixOftenInput) by valid_sample.
  split; [exact Hv|].
  apply (totalScore_is_mapped_sum sixOftenInput Hv).
Defined.

(** The function [handleSubmit] recomputes the total with the same [reduce]
    to store it next to the result; the two extremes are reached. *)
Example totalScore_extremes :
  totalScore (responses allNeverInput) = 0
  /\ totalScore (responses allAlwaysInput) = 40.
Proof. split; reflexivity. Qed.

(* ================================================================== *)
(** ** Score breakdown *)

Lemma mapWithIndex_length {A B : Type} (f : A -> nat -> B) (l : list A) (index : nat) :
  List.length (mapWithIndex f index l) = List.length l.
Proof.
  revert index. induction l as [|x rest IH]; intros index; simpl.
  - reflexivity.
  - rewrite IH. reflexivity.
Qed.




(** Past the tenth response the table of questions is exhausted and the
    entry's [question] is [undefined]. *)
Example scoreBreakdown_eleventh :
  let formData := {| age := 5; gender := F; responses := repeat often 11 |} in
  option_map (fun items => nth_error items 10)
    (scoreBreakdown (calculatePrediction "" formData))
  = Some (Some {| question := None; response := often; score := 3 |}).
Proof. reflexivity. Qed.

(* ================================================================== *)
(** ** Round trip of the response mappings *)

(** [Math_round] picks the integer within one half of its argument, the
    upper one on a tie. *)
Lemma Math_round_nearest (num : Q) :
  (inject_Z (Math_round num) - (1 # 2) <= num)%Q
  /\ (num < inject_Z (Math_round num) + (1 # 2))%Q.
Proof.
  unfold Math_round.
  pose proof (Qfloor_le (num + (1 # 2))) as Hle.
  pose proof (Qlt_floor (num + (1 # 2))) as Hlt.
  rewrite inject_Z_plus in Hlt. simpl inject_Z in Hlt at 2.
  split.
  - apply (Qplus_le_l _ _ (1 # 2)). ring_simplify.
    ring_simplify in Hle. exact Hle.
  - apply (Qplus_lt_l _ _ (1 # 2)).
    setoid_replace (inject_Z (Qfloor (num + (1 # 2))) + (1 # 2) + (1 # 2))%Q
      with (inject_Z (Qfloor (num + (1 # 2))) + 1)%Q by ring.
    exact Hlt.
Qed.

(** C9.  Mapping a response to its number and back gives the response; and
    on every finite number [numberToResponse] returns one of the five
    categories, the one whose number is the rounded argument clamped to the
    range 0..4. *)
Theorem response_number_roundtrip :
  (forall r : QuestionnaireResponse,
     numberToResponse (inject_Z (responseToNumber r)) = Some r)
  /\ (forall num : Q,
        exists r : QuestionnaireResponse,
          numberToResponse num = Some r
          /\ responseToNumber r = Z.max 0 (Z.min 4 (Math_round num))
          /\ 0 <= responseToNumber r <= 4).
Proof.
  split.
  - intros r. destruct r; reflexivity.
  - intros num. unfold numberToResponse. cbv zeta.
    generalize (Math_round num). intros z.
    assert (Hk : Z.max 0 (Z.min 4 z) = 0 \/ Z.max 0 (Z.min 4 z) = 1
                 \/ Z.max 0 (Z.min 4 z) = 2 \/ Z.max 0 (Z.min 4 z) = 3
                 \/ Z.max 0 (Z.min 4 z) = 4) by lia.
    destruct Hk as [Hk|[Hk|[Hk|[Hk|Hk]]]]; rewrite Hk.
    + exists never. simpl. repeat split; lia.
    + exists rarely. simpl. repeat split; lia.
    + exists sometimes. simpl. repeat split; lia.
    + exists often. simpl. repeat split; lia.
    + exists always. simpl. repeat split; lia.
Qed.

(** Rounding and clamping on sample arguments: a tie goes up, and arguments
    outside the range land on the nearest end. *)
Example numberToResponse_samples :
  numberToResponse (5 # 2) = Some often
  /\ numberToResponse (249 # 100) = Some sometimes
  /\ numberToResponse (- (1 # 2)) = Some never
  /\ numberToResponse (- (7 # 1)) = Some never
  /\ numberToResponse (100 # 1) = Some always.
Proof. repeat split. Qed.

(* ================================================================== *)
(** ** Determinism *)

(** Two calls on the same form state, made at different instants, return
    different results: the [timestamp] fields differ. *)
Lemma calculatePrediction_not_idempotent :
  calculatePrediction "2025-11-20T09:40:24.000Z" sixOftenInput
  <> calculatePrediction "2025-11-20T09:40:25.500Z" sixOftenInput.
Proof.
  intros H. apply (f_equal timestamp) in H. simpl in H. discriminate H.
Qed.

(** C3, amended.  Two calls on the same input agree on every field of the
    result except [timestamp], which holds the instant of the call; the two
    results are equal exactly when the two instants are. *)
Theorem calculatePrediction_deterministic_up_to_timestamp
    (now1 now2 : string) (formData : PredictionInput) :
  let r1 := calculatePrediction now1 formData in
  let r2 := calculatePrediction now2 formData in
  prediction r1 = prediction r2
  /\ confidence r1 = confidence r2
  /\ riskLevel r1 = riskLevel r2
  /\ recommendation r1 = recommendation r2
  /\ riskPercentage r1 = riskPercentage r2
  /\ scoreBreakdown r1 = scoreBreakdown r2
  /\ timestamp r1 = Some now1
  /\ timestamp r2 = Some now2
  /\ (r1 = r2 <-> now1 = now2).
Proof.
  cbv zeta.
  destruct (calculatePrediction_fields now1 formData)
    as (Hp1 & Hc1 & Hl1 & Hr1 & Hrp1 & Hb1 & Ht1).
  destruct (calculatePrediction_fields now2 formData)
    as (Hp2 & Hc2 & Hl2 & Hr2 & Hrp2 & Hb2 & Ht2).
  cbv zeta in *.
  rewrite Hp1, Hp2, Hc1, Hc2, Hl1, Hl2, Hr1, Hr2, Hrp1, Hrp2, Hb1, Hb2.
  repeat split; try assumption.
  - intros Heq. apply (f_equal timestamp) in Heq.
    rewrite Ht1, Ht2 in Heq. injection Heq as Heq. exact Heq.
  - intros Heq. rewrite Heq. reflexivity.
Qed.

(* ================================================================== *)
(** ** Input validation *)

(** A form state with nine responses and one with age 20 are both outside
    the shape constraints, and the call returns a result for each. *)
Lemma invalid_input_returns :
  ~ validInput nineResponsesInput
  /\ ~ validInput ageTwentyInput
  /\ calculatePrediction_completion "2025-11-20T09:40:24.000Z" nineResponsesInput
     <> Throws InvalidInput
  /\ calculatePrediction_completion "2025-11-20T09:40:24.000Z" ageTwentyInput
     <> Throws InvalidInput.
Proof.
  unfold validInput. simpl. repeat split; try (intros [H1 H2]; lia);
    unfold calculatePrediction_completion; discriminate.
Qed.

(** C5, amended.  The scoring function checks nothing and never fails with
    [InvalidInput]: for every form state, inside or outside the shape
    constraints, the call returns a result; that result has one breakdown
    entry per response supplied. *)
Theorem calculatePrediction_never_throws (now : string) (formData : PredictionInput) :
  calculatePrediction_completion now formData
  = Returns (calculatePrediction now formData)
  /\ calculatePrediction_completion now formData <> Throws InvalidInput
  /\ option_map (@List.length ScoreBreakdownItem)
       (scoreBreakdown (calculatePrediction now formData))
     = Some (List.length (responses formData)).
Proof.
  split; [reflexivity|]. split; [discriminate|].
  destruct (calculatePrediction_fields now formData)
    as (_ & _ & _ & _ & _ & Hb & _). cbv zeta in Hb.
  rewrite Hb. simpl. unfold scoreBreakdownOf.
  rewrite mapWithIndex_length. reflexivity.
Qed.

(** What the call returns on the two invalid samples. *)
Example invalid_input_results :
  riskPercentage (calculatePrediction "" nineResponsesInput) = Some 38.25%float
  /\ riskLevel (calculatePrediction "" nineResponsesInput) = Medium
  /\ riskPercentage (calculatePrediction "" ageTwentyInput)
     = Some 43.700000000000003%float
  /\ riskLevel (calculatePrediction "" ageTwentyInput) = Medium.
Proof. vm_compute. repeat split. Qed.

(* ================================================================== *)
(** ** Session history *)

Module SessionStorageFacts.
Import SessionStorage.

Lemma getSessionHistory_saveSession (session : SessionHistory)
    (localStorage : LocalStorage) :
  getSessionHistory (saveSession session localStorage)
  = session :: firstn 9 (getSessionHistory localStorage).
Proof. reflexivity. Qed.

(** C8.  For every prior store and every new session, after [saveSession]
    the stored list starts with the new session, continues with the older
    sessions that survive, in their former order (they are the first nine of
    the former list, the rest being dropped), and has at most ten entries. *)
Theorem saveSession_front_capped (session : SessionHistory) (localStorage : LocalStorage) :
  let before := getSessionHistory localStorage in
  let after := getSessionHistory (saveSession session localStorage) in
  exists survivors evicted : list SessionHistory,
    before = survivors ++ evicted
    /\ after = session :: survivors
    /\ survivors = firstn 9 before
    /\ (List.length after <= 10)%nat
    /\ (evicted <> [] -> List.length after = 10%nat).
Proof.
  cbv zeta. rewrite getSessionHistory_saveSession.
  set (before := getSessionHistory localStorage).
  exists (firstn 9 before), (skipn 9 before).
  split; [symmetry; apply firstn_skipn|].
  split; [reflexivity|]. split; [reflexivity|].
  change (List.length (session :: firstn 9 before))
    with (S (List.length (firstn 9 before))).
  split.
  - pose proof (firstn_le_length 9 before). lia.
  - intros Hne.
    destruct (Nat.le_gt_cases (List.length before) 9) as [Hle|Hgt].
    + exfalso. apply Hne. apply skipn_all2. exact Hle.
    + rewrite firstn_length_le by lia. reflexivity.
Qed.

(** Saving an eleventh session into a full store drops the oldest one. *)
Example saveSession_full_store :
  map id (getSessionHistory
            (saveSession (sampleSession "s11") (Some (map sampleSession tenSessionIds))))
  = ["s11"; "s10"; "s9"; "s8"; "s7"; "s6"; "s5"; "s4"; "s3"; "s2"]%string.
Proof. reflexivity. Qed.

(** Saving into an absent key starts a one-element history. *)
Example saveSession_first :
  getSessionHistory (saveSession (sampleSession "s1") None) = [sampleSession "s1"].
Proof. reflexivity. Qed.

(** The cap is an invariant of the store: starting from an empty store, no
    run of [saveSession], [deleteSession] and [clearSessionHistory] leaves
    more than ten sessions behind. *)
Lemma step_keeps_cap (localStorage : LocalStorage) (c : Call) :
  (List.length (getSessionHistory localStorage) <= 10)%nat ->
  (List.length (getSessionHistory (step localStorage c)) <= 10)%nat.
Proof.
  intros Hcap. destruct c as [session| |id0]; unfold step.
  - rewrite getSessionHistory_saveSession.
    change (List.length (session :: firstn 9 (getSessionHistory localStorage)))
      with (S (List.length (firstn 9 (getSessionHistory localStorage)))).
    pose proof (firstn_le_length 9 (getSessionHistory localStorage)). lia.
  - simpl. lia.
  - unfold deleteSession. cbv zeta.
    change (getSessionHistory (Some ?l)) with l.
    pose proof (filter_length_le
        (fun s => negb (String.eqb (id s) id0)) (getSessionHistory localStorage)).
    lia.
Qed.

Lemma run_keeps_cap (calls : list Call) (localStorage : LocalStorage) :
  (List.length (getSessionHistory localStorage) <= 10)%nat ->
  (List.length (getSessionHistory (run calls localStorage)) <= 10)%nat.
Proof.
  revert localStorage. unfold run.
  induction calls as [|c rest IH]; intros localStorage Hcap; simpl.
  - exact Hcap.
  - apply IH. apply step_keeps_cap. exact Hcap.
Qed.

(** X22.  Starting from an empty store, after any sequence of
    [saveSession], [deleteSession] and [clearSessionHistory] calls the
    history holds at most ten sessions. *)
Lemma run_from_empty_capped (calls : list Call) :
  (List.length (getSessionHistory (run calls None)) <= 10)%nat.
Proof. apply run_keeps_cap. simpl. lia. Qed.

End SessionStorageFacts.

(* ================================================================== *)
(** ** Where the earlier interface differs *)

(** The earlier [calculatePrediction] reports [riskScore] or its complement
    as confidence, without a clamp: on valid inputs it returns 1 and 0.45. *)
Example legacy_confidence_unclamped :
  validInputb allAlwaysInput = true
  /\ confidence (Legacy.calculatePrediction allAlwaysInput) = 1%float
  /\ validInputb allSometimesInput = true
  /\ confidence (Legacy.calculatePrediction allSometimesInput)
     = 0.44999999999999996%float.
Proof. vm_compute. repeat split. Qed.

(** It also predicts 1 from a risk score of 0.6 on, while the level turns
    [High] only at 0.7; on the six-[often] sample it reports prediction 1
    with level [Medium], where the current interface reports prediction 0. *)
Example legacy_prediction_differs :
  prediction (Legacy.calculatePrediction sixOftenInput) = 1
  /\ riskLevel (Legacy.calculatePrediction sixOftenInput) = Medium
  /\ riskPercentage (Legacy.calculatePrediction sixOftenInput) = None
  /\ prediction (calculatePrediction "" sixOftenInput) = 0
  /\ riskLevel (calculatePrediction "" sixOftenInput) = Medium.
Proof. vm_compute. repeat split. Qed.

(* ================================================================== *)
(** * Further properties of the session history *)

Module SessionStorageMore.
Import SessionStorage.

Lemma getSessionHistory_deleteSession (id0 : string) (localStorage : LocalStorage) :
  getSessionHistory (deleteSession id0 localStorage)
  = filter (fun session => negb (String.eqb (id session) id0))
      (getSessionHistory localStorage).
Proof. reflexivity. Qed.

Lemma filter_all_true {A : Type} (p : A -> bool) (l : list A) :
  (forall x, In x l -> p x = true) -> filter p l = l.
Proof.
  induction l as [|x rest IH]; intros H; simpl.
  - reflexivity.
  - rewrite (H x (or_introl eq_refl)). rewrite IH; [reflexivity|].
    intros y Hy. apply H. right. exact Hy.
Qed.

Lemma firstn_app_firstn {A : Type} (n : nat) (a b : list A) :
  firstn n (a ++ firstn n b) = firstn n (a ++ b).
Proof.
  rewrite !firstn_app. rewrite firstn_firstn.
  rewrite Nat.min_l by lia. reflexivity.
Qed.

(** X1.  [deleteSession] removes every session that carries the given id and
    nothing else: a session is in the history afterwards exactly when it was
    there before under another id; the history never grows; and deleting an
    id that no stored session carries leaves the history as it was. *)
Theorem deleteSession_removes_exactly (id0 : string) (localStorage : LocalStorage) :
  let before := getSessionHistory localStorage in
  let after := getSessionHistory (deleteSession id0 localStorage) in
  (forall session, In session after <-> In session before /\ id session <> id0)
  /\ (List.length after <= List.length before)%nat
  /\ ((forall session, In session before -> id session <> id0) -> after = before).
Proof.
  cbv zeta. rewrite getSessionHistory_deleteSession.
  set (before := getSessionHistory localStorage).
  split; [|split].
  - intros session. rewrite filter_In. rewrite negb_true_iff.
    rewrite String.eqb_neq. tauto.
  - apply filter_length_le.
  - intros Habsent. apply filter_all_true.
    intros session Hin. apply negb_true_iff. apply String.eqb_neq.
    apply Habsent. exact Hin.
Qed.

(** X2.  Saving a session under an id that no stored session carries and
    deleting that id again gives the first nine sessions of the former
    history: the former history itself when it had at most nine entries, and
    otherwise the former history without its oldest entry, which the save
    has evicted for good. *)
Theorem save_then_delete (session : SessionHistory) (localStorage : LocalStorage) :
  (forall other, In other (getSessionHistory localStorage) -> id other <> id session) ->
  let before := getSessionHistory localStorage in
  let after :=
    getSessionHistory (deleteSession (id session) (saveSession session localStorage)) in
  after = firstn 9 before
  /\ ((List.length before <= 9)%nat -> after = before)
  /\ ((List.length before = 10)%nat -> after = removelast before).
Proof.
  intros Hfresh. cbv zeta.
  rewrite getSessionHistory_deleteSession.
  rewrite SessionStorageFacts.getSessionHistory_saveSession.
  set (before := getSessionHistory localStorage) in *.
  assert (Hmain : filter (fun s => negb (String.eqb (id s) (id session)))
                    (session :: firstn 9 before) = firstn 9 before).
  { simpl. rewrite String.eqb_refl. simpl.
    apply filter_all_true. intros other Hin.
    apply negb_true_iff. apply String.eqb_neq. apply Hfresh.
    rewrite <- (firstn_skipn 9 before). apply in_or_app. left. exact Hin. }
  rewrite Hmain. split; [reflexivity|]. split.
  - intros Hlen. apply firstn_all2. exact Hlen.
  - intros Hlen.
    destruct (exists_last (l := before)) as (front & last & Hsplit).
    { intros Hnil. rewrite Hnil in Hlen. discriminate Hlen. }
    rewrite Hsplit in *. rewrite removelast_last.
    rewrite length_app in Hlen. simpl in Hlen.
    rewrite firstn_app. replace (9 - List.length front)%nat with 0%nat by lia.
    rewrite firstn_all2 by lia. simpl. apply app_nil_r.
Qed.

Lemma save_then_delete_witness :
  let localStorage := Some (map sampleSession tenSessionIds) in
  let session := sampleSession "s11" in
  (forall other, In other (getSessionHistory localStorage) -> id other <> id session)
  /\ getSessionHistory (deleteSession (id session) (saveSession session localStorage))
     = firstn 9 (getSessionHistory localStorage).
Proof.
  cbv zeta.
  assert (Hfresh : forall other,
             In other (getSessionHistory (Some (map sampleSession tenSessionIds))) ->
             id other <> id (sampleSession "s11")).
  { intros other Hin. simpl in Hin.
    repeat (destruct Hin as [Hin|Hin]; [subst other; discriminate|]).
    contradiction. }
  split; [exact Hfresh|].
  exact (proj1 (save_then_delete (sampleSession "s11")
                  (Some (map sampleSession tenSessionIds)) Hfresh)).
Defined.

(** X3.  After one or more sessions are saved one after the other, the
    history holds the ten most recent of the saved and the former sessions,
    the last saved first. *)
Theorem saves_keep_latest_ten (sessions : list SessionHistory)
    (localStorage : LocalStorage) :
  sessions <> [] ->
  getSessionHistory (run (map CallSave sessions) localStorage)
  = firstn 10 (rev sessions ++ getSessionHistory localStorage).
Proof.
  revert localStorage.
  induction sessions as [|session rest IH]; intros localStorage Hne.
  - contradiction.
  - destruct rest as [|next rest'].
    + reflexivity.
    + change (run (map CallSave (session :: next :: rest')) localStorage)
        with (run (map CallSave (next :: rest')) (saveSession session localStorage)).
      rewrite IH by discriminate.
      change (getSessionHistory (saveSession session localStorage))
        with (firstn 10 (session :: getSessionHistory localStorage)).
      rewrite firstn_app_firstn.
      change (rev (session :: next :: rest'))
        with (rev (next :: rest') ++ [session]).
      rewrite <- app_assoc. reflexivity.
Qed.

Lemma saves_keep_latest_ten_witness :
  map sampleSession ["a"; "b"]%string <> []
  /\ getSessionHistory
       (run (map CallSave (map sampleSession ["a"; "b"]%string))
          (Some (map sampleSession tenSessionIds)))
     = firstn 10 (rev (map sampleSession ["a"; "b"]%string)
                  ++ getSessionHistory (Some (map sampleSession tenSessionIds))).
Proof.
  assert (Hne : map sampleSession ["a"; "b"]%string <> []) by discriminate.
  split; [exact Hne|].
  apply (saves_keep_latest_ten _ (Some (map sampleSession tenSessionIds)) Hne).
Defined.

End SessionStorageMore.

(* ================================================================== *)
(** * The category summary agrees with the scoring function *)

Lemma filter_mapWithIndex_length {A B : Type} (f : A -> nat -> B)
    (p : B -> bool) (q : A -> bool) (l : list A) (index : nat) :
  (forall x i, p (f x i) = q x) ->
  List.length (filter p (mapWithIndex f index l)) = List.length (filter q l).
Proof.
  intros Hpq. revert index.
  induction l as [|x rest IH]; intros index; simpl.
  - reflexivity.
  - rewrite Hpq. destruct (q x); simpl; rewrite IH; reflexivity.
Qed.

Lemma filter_three_way {A : Type} (p q r : A -> bool) (l : list A) :
  (forall x, (p x = true /\ q x = false /\ r x = false)
             \/ (p x = false /\ q x = true /\ r x = false)
             \/ (p x = false /\ q x = false /\ r x = true)) ->
  (List.length (filter p l) + List.length (filter q l) + List.length (filter r l)
   = List.length l)%nat.
Proof.
  intros H. induction l as [|x rest IH]; simpl.
  - reflexivity.
  - destruct (H x) as [(Hp & Hq & Hr)|[(Hp & Hq & Hr)|(Hp & Hq & Hr)]];
      rewrite Hp, Hq, Hr; simpl; lia.
Qed.

(** X4.  For the result of [calculatePrediction] on any form state, the
    category summary exists, its "high concern" count is the scoring
    function's [highRiskResponses], its "low concern" count is
    [lowEngagementResponses], its "moderate" count is the number of
    [sometimes] responses, and the three counts add up to the number of
    responses.  For a result of the earlier interface, which carries no
    breakdown, the component renders nothing. *)
Theorem categoryAnalysis_matches_counts (now : string) (formData : PredictionInput) :
  (exists c : ScoreBreakdown.CategoryAnalysis,
     ScoreBreakdown.categoryAnalysis (calculatePrediction now formData) = Some c
     /\ ScoreBreakdown.highConcern c = highRiskResponses (responses formData)
     /\ ScoreBreakdown.lowConcern c = lowEngagementResponses (responses formData)
     /\ ScoreBreakdown.moderate c
        = List.length (filter (fun r => QuestionnaireResponse_eqb r sometimes)
                         (responses formData))
     /\ (ScoreBreakdown.highConcern c + ScoreBreakdown.moderate c
         + ScoreBreakdown.lowConcern c = List.length (responses formData))%nat)
  /\ ScoreBreakdown.categoryAnalysis (Legacy.calculatePrediction formData) = None.
Proof.
  split; [|reflexivity].
  unfold ScoreBreakdown.categoryAnalysis.
  destruct (calculatePrediction_fields now formData)
    as (_ & _ & _ & _ & _ & Hb & _). cbv zeta in Hb. rewrite Hb.
  eexists. split; [reflexivity|]. simpl.
  unfold scoreBreakdownOf, highRiskResponses, lowEngagementResponses.
  set (f := fun (response : QuestionnaireResponse) (index : nat) =>
              {| question := nth_error QUESTIONNAIRE_ITEMS index;
                 response := response;
                 score := responseToNumber response |}).
  rewrite (filter_mapWithIndex_length f (fun item => 3 <=? score item)
             (fun r => QuestionnaireResponse_eqb r always
                       || QuestionnaireResponse_eqb r often))
    by (intros x i; destruct x; reflexivity).
  rewrite (filter_mapWithIndex_length f (fun item => score item =? 2)
             (fun r => QuestionnaireResponse_eqb r sometimes))
    by (intros x i; destruct x; reflexivity).
  rewrite (filter_mapWithIndex_length f (fun item => score item <=? 1)
             (fun r => QuestionnaireResponse_eqb r never
                       || QuestionnaireResponse_eqb r rarely))
    by (intros x i; destruct x; reflexivity).
  repeat split.
  apply filter_three_way. intros x. destruct x; simpl; auto.
Qed.

(* ================================================================== *)
(** * The form wizard *)

Module WizardFacts.
Import Wizard.

Lemma array_set_in_range {A : Type} (l : list A) (index : nat) (x old : A) :
  nth_error l index = Some old ->
  exists l',
    array_set l index x = Some l'
    /\ List.length l' = List.length l
    /\ nth_error l' index = Some x
    /\ (forall j, j <> index -> nth_error l' j = nth_error l j).
Proof.
  revert index. induction l as [|y rest IH]; intros index Hold.
  - destruct index; discriminate Hold.
  - destruct index as [|i].
    + exists (x :: rest). simpl. repeat split.
      intros j Hj. destruct j; [contradiction|reflexivity].
    + simpl in Hold. destruct (IH i Hold) as (l' & Hset & Hlen & Hnth & Hother).
      exists (y :: l'). simpl. rewrite Hset. simpl. rewrite Hlen.
      repeat split; [exact Hnth|].
      intros j Hj. destruct j as [|j]; [reflexivity|].
      simpl. apply Hother. intros Heq. apply Hj. rewrite Heq. reflexivity.
Qed.

Lemma array_set_sum (l l' : list QuestionnaireResponse) (index : nat)
    (x old : QuestionnaireResponse) :
  nth_error l index = Some old ->
  array_set l index x = Some l' ->
  sumZ (map responseToNumber l')
  = sumZ (map responseToNumber l) - responseToNumber old + responseToNumber x.
Proof.
  revert index l'. induction l as [|y rest IH]; intros index l' Hold Hset.
  - destruct index; discriminate Hold.
  - destruct index as [|i].
    + simpl in Hold, Hset. injection Hold as Hold. injection Hset as Hset.
      subst. unfold sumZ. simpl. lia.
    + simpl in Hold, Hset.
      destruct (array_set rest i x) as [rest'|] eqn:Hrest; [|discriminate Hset].
      simpl in Hset. injection Hset as Hset. subst l'.
      specialize (IH i rest' Hold Hrest).
      unfold sumZ in *. simpl. lia.
Qed.

(** X5.  Changing the answer to a question that has one replaces that
    response and nothing else: age, gender, the number of responses and every
    other response stay as they were, and the total score moves by the
    difference between the new and the old answer's numbers. *)
Theorem handleResponseChange_replaces_one (questionIndex : nat)
    (response old : QuestionnaireResponse) (formData : PredictionInput) :
  nth_error (responses formData) questionIndex = Some old ->
  exists formData' : PredictionInput,
    handleResponseChange questionIndex response formData = Some formData'
    /\ age formData' = age formData
    /\ gender formData' = gender formData
    /\ List.length (responses formData') = List.length (responses formData)
    /\ nth_error (responses formData') questionIndex = Some response
    /\ (forall j, j <> questionIndex ->
          nth_error (responses formData') j = nth_error (responses formData) j)
    /\ totalScore (responses formData')
       = totalScore (responses formData)
         - responseToNumber old + responseToNumber response.
Proof.
  intros Hold.
  destruct (array_set_in_range (responses formData) questionIndex response old Hold)
    as (l' & Hset & Hlen & Hnth & Hother).
  unfold handleResponseChange. rewrite Hset. simpl.
  eexists. split; [reflexivity|]. simpl.
  repeat split; try assumption.
  rewrite !totalScore_sum.
  apply (array_set_sum _ _ questionIndex); assumption.
Qed.

Lemma handleResponseChange_replaces_one_witness :
  nth_error (responses sixOftenInput) 0 = Some often
  /\ exists formData' : PredictionInput,
    handleResponseChange 0 never sixOftenInput = Some formData'
    /\ age formData' = age sixOftenInput
    /\ gender formData' = gender sixOftenInput
    /\ List.length (responses formData') = List.length (responses sixOftenInput)
    /\ nth_error (responses formData') 0 = Some never
    /\ (forall j, j <> 0%nat ->
          nth_error (responses formData') j = nth_error (responses sixOftenInput) j)
    /\ totalScore (responses formData')
       = totalScore (responses sixOftenInput)
         - responseToNumber often + responseToNumber never.
Proof.
  assert (Hold : nth_error (responses sixOftenInput) 0 = Some often) by reflexivity.
  split; [exact Hold|].
  apply (handleResponseChange_replaces_one 0 never often sixOftenInput Hold).
Defined.

(** Past the end of the array the write appends or leaves holes; the wizard
    never gets there (see the invariant below). *)
Example handleResponseChange_past_end :
  option_map (fun fd => List.length (responses fd))
    (handleResponseChange 10 never sixOftenInput) = Some 11%nat
  /\ handleResponseChange 11 never sixOftenInput = None.
Proof. split; reflexivity. Qed.

(** *** What the views imply about the step counter *)

Lemma view_demographics (s : State) :
  view s = DemographicsView -> currentStep s = 0 /\ prediction s = None.
Proof.
  unfold view. destruct (prediction s); [discriminate|].
  destruct (Z.eqb_spec (currentStep s) 0) as [H0|H0]; [auto|].
  destruct ((1 <=? currentStep s) && (currentStep s <=? 10)); discriminate.
Qed.

Lemma view_question (s : State) (questionIndex : nat) :
  view s = QuestionView questionIndex ->
  1 <= currentStep s <= 10
  /\ questionIndex = Z.to_nat (currentStep s - 1)
  /\ prediction s = None.
Proof.
  unfold view. destruct (prediction s); [discriminate|].
  destruct (Z.eqb_spec (currentStep s) 0) as [H0|H0]; [discriminate|].
  destruct ((1 <=? currentStep s) && (currentStep s <=? 10)) eqn:Hrange;
    [|discriminate].
  intros H. injection H as H. apply andb_true_iff in Hrange.
  destruct Hrange as [H1 H2]. apply Z.leb_le in H1. apply Z.leb_le in H2.
  repeat split; first [lia | symmetry; exact H | reflexivity].
Qed.

Lemma ageOptions_range (item : nat) (value : Z) :
  nth_error ageOptions item = Some value -> 2 <= value <= 14.
Proof.
  intros H. apply nth_error_In in H. unfold ageOptions in H.
  apply in_map_iff in H. destruct H as (i & Hi & Hin).
  apply in_seq in Hin. lia.
Qed.

(** *** The invariant of the form *)

Lemma initial_formInvariant (localStorage : SessionStorage.LocalStorage) :
  formInvariant (initialState localStorage).
Proof.
  unfold formInvariant, initialState, validInput. simpl.
  repeat split; try lia; try discriminate.
  intros H. contradiction H. reflexivity.
Qed.

Ltac close_invariant :=
  unfold formInvariant, validInput in *; simpl;
  repeat match goal with
         | H : _ /\ _ |- _ => destruct H
         | H : _ <-> _ |- _ => destruct H
         end;
  repeat split; intros;
  first [ assumption | lia | discriminate | congruence | solve [eauto 3]
        | match goal with
          | Hc : forall c, submitPhase _ = AwaitingTimer c -> _,
            Hp : submitPhase _ = AwaitingTimer _ |- _ =>
              destruct (Hc _ Hp) as ((? & ?) & ?); first [assumption | lia]
          | Hl : submitPhase _ <> Idle -> _ |- _ => apply Hl; congruence
          end ].

Lemma step_formInvariant (s s' : State) (e : Event) :
  formInvariant s -> step s e = Some s' -> formInvariant s'.
Proof.
  intros Hinv Hs.
  unfold step in Hs.
  destruct e; destruct (view s) eqn:Hview; try discriminate Hs.
  - (* SelectAge *)
    destruct (nth_error ageOptions item) as [value|] eqn:Hitem; [|discriminate Hs].
    injection Hs as Hs. subst s'. apply ageOptions_range in Hitem.
    close_invariant.
  - (* SelectGender *)
    injection Hs as Hs. subst s'. close_invariant.
  - (* ContinueToQuestions *)
    injection Hs as Hs. subst s'. close_invariant.
  - (* SelectResponse *)
    apply view_question in Hview. destruct Hview as (Hrange & Hq & _).
    assert (Hlen : List.length (responses (formData s)) = 10%nat)
      by (destruct Hinv as ((_ & Hlen) & _); exact Hlen).
    destruct (nth_error (responses (formData s)) questionIndex) as [old|] eqn:Hold.
    2:{ apply nth_error_None in Hold. lia. }
    destruct (array_set_in_range (responses (formData s)) questionIndex value old Hold)
      as (l' & Hset & Hlen' & _).
    unfold handleResponseChange in Hs. rewrite Hset in Hs.
    cbn [option_map] in Hs. injection Hs as Hs. subst s'.
    unfold formInvariant, validInput in *.
    cbn [formData setFormData age responses currentStep submitPhase loading].
    rewrite Hlen'. exact Hinv.
  - (* Previous *)
    apply view_question in Hview. destruct Hview as (Hrange & _).
    injection Hs as Hs. subst s'. close_invariant.
  - (* Next *)
    apply view_question in Hview. destruct Hview as (Hrange & _).
    destruct (nth_error (responses (formData s)) questionIndex); [|discriminate Hs].
    destruct (currentStep s <? 11); injection Hs as Hs; subst s'.
    + close_invariant.
    + exact Hinv.
  - (* BackToQuestions *)
    injection Hs as Hs. subst s'. close_invariant.
  - (* Submit *)
    destruct (loading s) eqn:Hl; [discriminate Hs|].
    injection Hs as Hs. subst s'. close_invariant.
  - (* TimerFires, in each view *)
    destruct (submitPhase s) as [|captured|] eqn:Hphase; try discriminate Hs.
    injection Hs as Hs. subst s'. close_invariant.
  - destruct (submitPhase s) as [|captured|] eqn:Hphase; try discriminate Hs.
    injection Hs as Hs. subst s'. close_invariant.
  - destruct (submitPhase s) as [|captured|] eqn:Hphase; try discriminate Hs.
    injection Hs as Hs. subst s'. close_invariant.
  - destruct (submitPhase s) as [|captured|] eqn:Hphase; try discriminate Hs.
    injection Hs as Hs. subst s'. close_invariant.
  - (* InsertSettles, in each view *)
    destruct (submitPhase s) as [|captured|] eqn:Hphase; try discriminate Hs.
    injection Hs as Hs. subst s'. close_invariant.
  - destruct (submitPhase s) as [|captured|] eqn:Hphase; try discriminate Hs.
    injection Hs as Hs. subst s'. close_invariant.
  - destruct (submitPhase s) as [|captured|] eqn:Hphase; try discriminate Hs.
    injection Hs as Hs. subst s'. close_invariant.
  - destruct (submitPhase s) as [|captured|] eqn:Hphase; try discriminate Hs.
    injection Hs as Hs. subst s'. close_invariant.
  - (* TakeNewAssessment *)
    injection Hs as Hs. subst s'. close_invariant.
  - (* DeleteFromHistory *)
    injection Hs as Hs. subst s'. close_invariant.
  - (* ClearHistory *)
    injection Hs as Hs. subst s'. close_invariant.
Qed.

Lemma apply_formInvariant (s : State) (e : Event) :
  formInvariant s -> formInvariant (apply s e).
Proof.
  intros Hinv. unfold apply. destruct (step s e) as [s'|] eqn:Hs.
  - exact (step_formInvariant s s' e Hinv Hs).
  - exact Hinv.
Qed.

Lemma run_formInvariant (events : list Event) (s : State) :
  formInvariant s -> formInvariant (run events s).
Proof.
  revert s. unfold run. induction events as [|e rest IH]; intros s Hinv; simpl.
  - exact Hinv.
  - apply IH. apply apply_formInvariant. exact Hinv.
Qed.

(** X6.  Whatever the user does, starting from the initial form and any
    session history, the form state stays a valid input (age 2..14, ten
    responses), the step counter stays within 0..11, a submission that waits
    for its timer has captured a valid input, and [loading] is set exactly
    while a submission is under way. *)
Theorem wizard_form_always_valid (events : list Event)
    (localStorage : SessionStorage.LocalStorage) :
  let s := run events (initialState localStorage) in
  validInput (formData s)
  /\ 0 <= currentStep s <= 11
  /\ (forall captured, submitPhase s = AwaitingTimer captured -> validInput captured)
  /\ (loading s = true <-> submitPhase s <> Idle).
Proof.
  cbv zeta.
  exact (run_formInvariant events _ (initial_formInvariant localStorage)).
Qed.

(** *** What is stored and what is shown *)

Lemma scoreBreakdownOf_scores (responses : list QuestionnaireResponse) :
  map score (scoreBreakdownOf responses) = map responseToNumber responses.
Proof.
  unfold scoreBreakdownOf. generalize 0%nat.
  induction responses as [|r rest IH]; intros index; simpl.
  - reflexivity.
  - rewrite IH. reflexivity.
Qed.

(** The ranges of a result computed from a valid input. *)
Lemma valid_result_ranges (now : string) (captured : PredictionInput) :
  validInput captured ->
  (exists p : float,
     riskPercentage (calculatePrediction now captured) = Some p
     /\ (0 <=? p)%float = true /\ (p <=? 100)%float = true)
  /\ (0.6 <=? confidence (calculatePrediction now captured))%float = true
  /\ (confidence (calculatePrediction now captured) <=? 0.95)%float = true
  /\ (exists items : list ScoreBreakdownItem,
        scoreBreakdown (calculatePrediction now captured) = Some items
        /\ List.length items = 10%nat
        /\ sumZ (map score items) = totalScore (responses captured)).
Proof.
  intros Hv.
  destruct (calculatePrediction_fields now captured)
    as (_ & Hc & _ & _ & Hp & Hb & _). cbv zeta in Hc, Hp, Hb.
  pose proof (valid_riskPercentage _ _ percentageInRange_checked Hv) as Hr.
  unfold percentageInRange in Hr. apply andb_true_iff in Hr.
  pose proof (valid_riskPercentage _ _ confidenceInRange_checked Hv) as Hcr.
  unfold confidenceInRange in Hcr. cbv zeta in Hcr. apply andb_true_iff in Hcr.
  split; [|split; [|split]].
  - exists (riskPercentageOfInput captured). tauto.
  - rewrite Hc. tauto.
  - rewrite Hc. tauto.
  - exists (scoreBreakdownOf (responses captured)).
    split; [exact Hb|]. split.
    + unfold scoreBreakdownOf. rewrite mapWithIndex_length. apply Hv.
    + rewrite scoreBreakdownOf_scores. symmetry. apply totalScore_sum.
Qed.

Lemma resume_storeInvariant (s : State) (captured : PredictionInput)
    (now : string) (dateNow : N) (sessionNow : string) :
  validInput captured -> storeInvariant s ->
  storeInvariant (handleSubmit_resume s captured now dateNow sessionNow).
Proof.
  intros Hv (Hall & Hlen & Hpred).
  unfold storeInvariant, handleSubmit_resume.
  cbn [localStorage prediction].
  rewrite SessionStorageFacts.getSessionHistory_saveSession.
  split; [|split].
  - constructor.
    + exists captured, now, dateNow, sessionNow. split; [exact Hv|reflexivity].
    + apply Forall_forall. intros x Hx. rewrite Forall_forall in Hall. apply Hall.
      rewrite <- (firstn_skipn 9 (SessionStorage.getSessionHistory (localStorage s))).
      apply in_or_app. left. exact Hx.
  - change (S (List.length
               (firstn 9 (SessionStorage.getSessionHistory (localStorage s)))) <= 10)%nat.
    pose proof (firstn_le_length 9 (SessionStorage.getSessionHistory (localStorage s))).
    lia.
  - intros r Hr. injection Hr as Hr. subst r.
    exists now, captured. split; [exact Hv|reflexivity].
Qed.

Lemma step_storeInvariant (s s' : State) (e : Event) :
  formInvariant s -> storeInvariant s -> step s e = Some s' -> storeInvariant s'.
Proof.
  intros (_ & _ & Hcap & _) Hstore Hs.
  assert (Hkeep : forall t : State,
             localStorage t = localStorage s -> prediction t = prediction s ->
             storeInvariant t).
  { intros t Hls Hp. unfold storeInvariant in *. rewrite Hls, Hp. exact Hstore. }
  destruct Hstore as (Hall & Hlen & Hpred).
  unfold step in Hs.
  destruct e; destruct (view s) eqn:Hview; try discriminate Hs.
  - destruct (nth_error ageOptions item); [|discriminate Hs].
    injection Hs as Hs. subst s'. apply Hkeep; reflexivity.
  - injection Hs as Hs. subst s'. apply Hkeep; reflexivity.
  - injection Hs as Hs. subst s'. apply Hkeep; reflexivity.
  - destruct (handleResponseChange questionIndex value (formData s));
      [|discriminate Hs].
    injection Hs as Hs. subst s'. apply Hkeep; reflexivity.
  - injection Hs as Hs. subst s'. apply Hkeep; reflexivity.
  - destruct (nth_error (responses (formData s)) questionIndex); [|discriminate Hs].
    destruct (currentStep s <? 11); injection Hs as Hs; subst s';
      apply Hkeep; reflexivity.
  - injection Hs as Hs. subst s'. apply Hkeep; reflexivity.
  - destruct (loading s); [discriminate Hs|].
    injection Hs as Hs. subst s'. apply Hkeep; reflexivity.
  - destruct (submitPhase s) as [|captured|] eqn:Hphase; try discriminate Hs.
    injection Hs as Hs. subst s'.
    apply resume_storeInvariant; [apply Hcap; reflexivity|].
    unfold storeInvariant. auto.
  - destruct (submitPhase s) as [|captured|] eqn:Hphase; try discriminate Hs.
    injection Hs as Hs. subst s'.
    apply resume_storeInvariant; [apply Hcap; reflexivity|].
    unfold storeInvariant. auto.
  - destruct (submitPhase s) as [|captured|] eqn:Hphase; try discriminate Hs.
    injection Hs as Hs. subst s'.
    apply resume_storeInvariant; [apply Hcap; reflexivity|].
    unfold storeInvariant. auto.
  - destruct (submitPhase s) as [|captured|] eqn:Hphase; try discriminate Hs.
    injection Hs as Hs. subst s'.
    apply resume_storeInvariant; [apply Hcap; reflexivity|].
    unfold storeInvariant. auto.
  - destruct (submitPhase s); try discriminate Hs.
    injection Hs as Hs. subst s'. apply Hkeep; reflexivity.
  - destruct (submitPhase s); try discriminate Hs.
    injection Hs as Hs. subst s'. apply Hkeep; reflexivity.
  - destruct (submitPhase s); try discriminate Hs.
    injection Hs as Hs. subst s'. apply Hkeep; reflexivity.
  - destruct (submitPhase s); try discriminate Hs.
    injection Hs as Hs. subst s'. apply Hkeep; reflexivity.
  - (* a new assessment: nothing is shown *)
    injection Hs as Hs. subst s'. unfold storeInvariant, resetAssessment.
    cbn [localStorage prediction].
    split; [exact Hall|split; [exact Hlen|]]. intros r Hr. discriminate Hr.
  - (* a session is deleted *)
    injection Hs as Hs. subst s'. unfold storeInvariant, setLocalStorage.
    cbn [localStorage prediction].
    rewrite SessionStorageMore.getSessionHistory_deleteSession.
    split; [|split; [|exact Hpred]].
    + apply Forall_forall. intros x Hx. apply filter_In in Hx.
      rewrite Forall_forall in Hall. apply Hall. apply Hx.
    + pose proof (filter_length_le
        (fun session => negb (String.eqb (SessionStorage.id session) id0))
        (SessionStorage.getSessionHistory (localStorage s))). lia.
  - (* the history is cleared *)
    injection Hs as Hs. subst s'. unfold storeInvariant, setLocalStorage.
    cbn [localStorage prediction]. unfold SessionStorage.clearSessionHistory.
    cbn [SessionStorage.getSessionHistory].
    split; [constructor|split; [simpl; lia|exact Hpred]].
Qed.

Lemma run_invariants (events : list Event) (s : State) :
  formInvariant s -> storeInvariant s ->
  formInvariant (run events s) /\ storeInvariant (run events s).
Proof.
  revert s. unfold run. induction events as [|e rest IH]; intros s Hf Hst; simpl.
  - split; assumption.
  - apply IH.
    + apply apply_formInvariant. exact Hf.
    + unfold apply. destruct (step s e) as [s'|] eqn:Hs.
      * exact (step_storeInvariant s s' e Hf Hst Hs).
      * exact Hst.
Qed.

Lemma initial_storeInvariant : storeInvariant (initialState None).
Proof.
  unfold storeInvariant, initialState. cbn [localStorage prediction].
  split; [constructor|]. split; [simpl; lia|]. intros r Hr. discriminate Hr.
Qed.

(** X7.  Starting from an empty history, whatever the user does, the history
    never holds more than ten sessions, and every session in it has an age in
    2..14, a total score in 0..40, a result with a risk percentage in 0..100
    and a confidence in 0.6..0.95, and a ten-entry breakdown whose scores add
    up to the stored total score. *)
Theorem stored_sessions_well_formed (events : list Event) :
  let s := run events (initialState None) in
  let history := SessionStorage.getSessionHistory (localStorage s) in
  (List.length history <= 10)%nat
  /\ forall session, In session history ->
       2 <= SessionStorage.age session <= 14
       /\ 0 <= SessionStorage.totalScore session <= 40
       /\ (exists p : float,
             riskPercentage (SessionStorage.result session) = Some p
             /\ (0 <=? p)%float = true /\ (p <=? 100)%float = true)
       /\ (0.6 <=? confidence (SessionStorage.result session))%float = true
       /\ (confidence (SessionStorage.result session) <=? 0.95)%float = true
       /\ (exists items : list ScoreBreakdownItem,
             scoreBreakdown (SessionStorage.result session) = Some items
             /\ List.length items = 10%nat
             /\ sumZ (map score items) = SessionStorage.totalScore session).
Proof.
  cbv zeta.
  destruct (run_invariants events (initialState None)
              (initial_formInvariant None) initial_storeInvariant)
    as (_ & Hall & Hlen & _).
  split; [exact Hlen|].
  intros session Hin. rewrite Forall_forall in Hall.
  destruct (Hall session Hin) as (captured & now & dateNow & sessionNow & Hv & Hs).
  subst session. unfold sessionOf.
  cbn [SessionStorage.age SessionStorage.totalScore SessionStorage.result].
  destruct (valid_result_ranges now captured Hv) as (Hp & Hc1 & Hc2 & Hb).
  destruct (valid_in_box captured Hv) as (Ha & Ht & _).
  repeat split; try assumption; lia.
Qed.

Lemma step_shown (s s' : State) (e : Event) :
  formInvariant s ->
  (forall r, prediction s = Some r ->
     exists now captured, validInput captured /\ r = calculatePrediction now captured) ->
  step s e = Some s' ->
  forall r, prediction s' = Some r ->
    exists now captured, validInput captured /\ r = calculatePrediction now captured.
Proof.
  intros (_ & _ & Hcap & _) Hshown Hs.
  assert (Hkeep : forall t : State, prediction t = prediction s ->
             forall r, prediction t = Some r ->
               exists now captured,
                 validInput captured /\ r = calculatePrediction now captured).
  { intros t Hp. rewrite Hp. exact Hshown. }
  assert (Hresume : forall captured now dateNow sessionNow,
             submitPhase s = AwaitingTimer captured ->
             forall r,
               prediction (handleSubmit_resume s captured now dateNow sessionNow)
               = Some r ->
               exists now0 captured0,
                 validInput captured0 /\ r = calculatePrediction now0 captured0).
  { intros captured now dateNow sessionNow Hphase r Hr.
    unfold handleSubmit_resume in Hr. cbn [prediction] in Hr.
    injection Hr as Hr. subst r. unfold sessionOf. cbn [SessionStorage.result].
    exists now, captured. split; [apply Hcap; exact Hphase|reflexivity]. }
  unfold step in Hs.
  destruct e; destruct (view s) eqn:Hview; try discriminate Hs.
  - destruct (nth_error ageOptions item); [|discriminate Hs].
    injection Hs as Hs. subst s'. apply Hkeep; reflexivity.
  - injection Hs as Hs. subst s'. apply Hkeep; reflexivity.
  - injection Hs as Hs. subst s'. apply Hkeep; reflexivity.
  - destruct (handleResponseChange questionIndex value (formData s));
      [|discriminate Hs].
    injection Hs as Hs. subst s'. apply Hkeep; reflexivity.
  - injection Hs as Hs. subst s'. apply Hkeep; reflexivity.
  - destruct (nth_error (responses (formData s)) questionIndex); [|discriminate Hs].
    destruct (currentStep s <? 11); injection Hs as Hs; subst s';
      apply Hkeep; reflexivity.
  - injection Hs as Hs. subst s'. apply Hkeep; reflexivity.
  - destruct (loading s); [discriminate Hs|].
    injection Hs as Hs. subst s'. apply Hkeep; reflexivity.
  - destruct (submitPhase s) as [|captured|] eqn:Hphase; try discriminate Hs.
    injection Hs as Hs. subst s'. apply Hresume. reflexivity.
  - destruct (submitPhase s) as [|captured|] eqn:Hphase; try discriminate Hs.
    injection Hs as Hs. subst s'. apply Hresume. reflexivity.
  - destruct (submitPhase s) as [|captured|] eqn:Hphase; try discriminate Hs.
    injection Hs as Hs. subst s'. apply Hresume. reflexivity.
  - destruct (submitPhase s) as [|captured|] eqn:Hphase; try discriminate Hs.
    injection Hs as Hs. subst s'. apply Hresume. reflexivity.
  - destruct (submitPhase s); try discriminate Hs.
    injection Hs as Hs. subst s'. apply Hkeep; reflexivity.
  - destruct (submitPhase s); try discriminate Hs.
    injection Hs as Hs. subst s'. apply Hkeep; reflexivity.
  - destruct (submitPhase s); try discriminate Hs.
    injection Hs as Hs. subst s'. apply Hkeep; reflexivity.
  - destruct (submitPhase s); try discriminate Hs.
    injection Hs as Hs. subst s'. apply Hkeep; reflexivity.
  - injection Hs as Hs. subst s'. intros r Hr.
    unfold resetAssessment in Hr. cbn [prediction] in Hr. discriminate Hr.
  - injection Hs as Hs. subst s'. apply Hkeep; reflexivity.
  - injection Hs as Hs. subst s'. apply Hkeep; reflexivity.
Qed.

Lemma run_shown (events : list Event) (s : State) :
  formInvariant s ->
  (forall r, prediction s = Some r ->
     exists now captured, validInput captured /\ r = calculatePrediction now captured) ->
  forall r, prediction (run events s) = Some r ->
    exists now captured, validInput captured /\ r = calculatePrediction now captured.
Proof.
  revert s. unfold run. induction events as [|e rest IH]; intros s Hf Hshown; simpl.
  - exact Hshown.
  - apply IH.
    + apply apply_formInvariant. exact Hf.
    + unfold apply. destruct (step s e) as [s'|] eqn:Hs.
      * exact (step_shown s s' e Hf Hshown Hs).
      * exact Hshown.
Qed.

(** X8.  Whatever the user does, starting from the initial form and any
    session history, a result on display was computed by
    [calculatePrediction] from a valid input, so its risk percentage lies in
    0..100 and its confidence in 0.6..0.95; and the review view, the only
    one that offers the submit button, is shown only at step 11. *)
Theorem displayed_result_from_valid_input (events : list Event)
    (localStorage0 : SessionStorage.LocalStorage) :
  let s := run events (initialState localStorage0) in
  (forall r, prediction s = Some r ->
     (exists now captured, validInput captured /\ r = calculatePrediction now captured)
     /\ (exists p : float,
           riskPercentage r = Some p
           /\ (0 <=? p)%float = true /\ (p <=? 100)%float = true)
     /\ (0.6 <=? confidence r)%float = true
     /\ (confidence r <=? 0.95)%float = true)
  /\ (view s = ReviewView -> currentStep s = 11).
Proof.
  cbv zeta. split.
  - intros r Hr.
    assert (Hinit : forall r0, prediction (initialState localStorage0) = Some r0 ->
              exists now captured,
                validInput captured /\ r0 = calculatePrediction now captured)
      by (intros r0 Hr0; discriminate Hr0).
    destruct (run_shown events _ (initial_formInvariant localStorage0) Hinit r Hr)
      as (now & captured & Hv & Heq).
    split; [exists now, captured; split; assumption|].
    subst r.
    destruct (valid_result_ranges now captured Hv) as (Hp & Hc1 & Hc2 & _).
    repeat split; assumption.
  - pose proof (run_formInvariant events _ (initial_formInvariant localStorage0))
      as (_ & Hstep & _).
    unfold view. destruct (prediction _); [discriminate|].
    destruct (Z.eqb_spec (currentStep (run events (initialState localStorage0))) 0);
      [discriminate|].
    destruct ((1 <=? currentStep (run events (initialState localStorage0)))
              && (currentStep (run events (initialState localStorage0)) <=? 10))
      eqn:Hrange; [discriminate|].
    intros _. apply andb_false_iff in Hrange.
    destruct Hrange as [H|H]; [apply Z.leb_gt in H|apply Z.leb_gt in H]; lia.
Qed.

(** X21.  A user who picks an age and a gender on the first view, answers
    the ten questions in order and submits gets exactly those entries
    scored: once the timer has fired, the result on display is
    [calculatePrediction] of that age, gender and those ten answers, and the
    history starts with the session built from them, followed by the first
    nine sessions of the former history. *)
Theorem wizard_scores_the_answers_given (item : nat) (ageValue : Z) (value : Gender)
    (answers : list QuestionnaireResponse)
    (now : string) (dateNow : N) (sessionNow : string)
    (localStorage0 : SessionStorage.LocalStorage) :
  nth_error ageOptions item = Some ageValue ->
  List.length answers = 10%nat ->
  let entered := {| age := ageValue; gender := value; responses := answers |} in
  let s := run (fillAndSubmit item value answers now dateNow sessionNow)
             (initialState localStorage0) in
  formData s = entered
  /\ prediction s = Some (calculatePrediction now entered)
  /\ view s = ResultsView
  /\ SessionStorage.getSessionHistory (localStorage s)
     = sessionOf entered now dateNow sessionNow
       :: firstn 9 (SessionStorage.getSessionHistory localStorage0).
Proof.
  intros Hitem Hlen. cbv zeta.
  destruct answers
    as [|r1 [|r2 [|r3 [|r4 [|r5 [|r6 [|r7 [|r8 [|r9 [|r10 [|r11 rest]]]]]]]]]]];
    try discriminate Hlen.
  unfold fillAndSubmit, run. rewrite !fold_left_app.
  cbn [fold_left].
  assert (Hfirst : apply (initialState localStorage0) (SelectAge item)
                   = setFormData (initialState localStorage0)
                       {| age := ageValue; gender := M;
                          responses := repeat sometimes 10 |}).
  { unfold apply, step. cbn [view initialState prediction currentStep Z.eqb].
    rewrite Hitem. reflexivity. }
  rewrite Hfirst. clear Hfirst Hitem.
  set (entered := {| age := ageValue; gender := value;
                     responses := [r1; r2; r3; r4; r5; r6; r7; r8; r9; r10] |}).
  assert (Hfilled :
    fold_left apply (answerAll [r1; r2; r3; r4; r5; r6; r7; r8; r9; r10])
      (apply
         (apply
            (setFormData (initialState localStorage0)
               {| age := ageValue; gender := M; responses := repeat sometimes 10 |})
            (SelectGender value))
         ContinueToQuestions)
    = {| currentStep := 11; formData := entered; prediction := None;
         loading := false; submitPhase := Idle; localStorage := localStorage0 |})
    by (vm_compute; reflexivity).
  rewrite Hfilled. clear Hfilled.
  cbn [fold_left].
  assert (Hsubmit :
    apply {| currentStep := 11; formData := entered; prediction := None;
             loading := false; submitPhase := Idle; localStorage := localStorage0 |}
      Submit
    = {| currentStep := 11; formData := entered; prediction := None;
         loading := true; submitPhase := AwaitingTimer entered;
         localStorage := localStorage0 |}) by reflexivity.
  rewrite Hsubmit. clear Hsubmit.
  assert (Htimer :
    apply {| currentStep := 11; formData := entered; prediction := None;
             loading := true; submitPhase := AwaitingTimer entered;
             localStorage := localStorage0 |}
      (TimerFires now dateNow sessionNow)
    = handleSubmit_resume
        {| currentStep := 11; formData := entered; prediction := None;
           loading := true; submitPhase := AwaitingTimer entered;
           localStorage := localStorage0 |}
        entered now dateNow sessionNow) by reflexivity.
  rewrite Htimer. clear Htimer.
  unfold handleSubmit_resume.
  cbn [formData prediction localStorage].
  split; [reflexivity|]. split; [reflexivity|]. split; [reflexivity|].
  apply SessionStorageFacts.getSessionHistory_saveSession.
Qed.

Lemma wizard_scores_the_answers_given_witness :
  nth_error ageOptions 6 = Some 8
  /\ List.length (responses sixOftenInput) = 10%nat
  /\ (let entered :=
        {| age := 8; gender := M; responses := responses sixOftenInput |} in
      let s := run (fillAndSubmit 6 M (responses sixOftenInput)
                      "2025-11-20T09:40:24.000Z" 1763631624000
                      "2025-11-20T09:40:24.001Z")
                 (initialState None) in
      formData s = entered
      /\ prediction s = Some (calculatePrediction "2025-11-20T09:40:24.000Z" entered)
      /\ view s = ResultsView
      /\ SessionStorage.getSessionHistory (localStorage s)
         = sessionOf entered "2025-11-20T09:40:24.000Z" 1763631624000
             "2025-11-20T09:40:24.001Z"
           :: firstn 9 (SessionStorage.getSessionHistory None)).
Proof.
  assert (H1 : nth_error ageOptions 6 = Some 8) by reflexivity.
  assert (H2 : List.length (responses sixOftenInput) = 10%nat) by reflexivity.
  split; [exact H1|]. split; [exact H2|].
  apply (wizard_scores_the_answers_given 6 8 M (responses sixOftenInput)
           "2025-11-20T09:40:24.000Z" 1763631624000 "2025-11-20T09:40:24.001Z"
           None H1 H2).
Defined.

(** The id of the stored session is the decimal rendering of [Date.now()]
    after the prefix. *)
Example session_id_sample :
  SessionStorage.id
    (sessionOf sixOftenInput "2025-11-20T09:40:24.000Z" 1763631624000
       "2025-11-20T09:40:24.001Z")
  = "session_1763631624000"%string.
Proof. reflexivity. Qed.



End WizardFacts.

(* ================================================================== *)
(** * Further properties of the scoring function *)

(** With [n] responses, [high] of them often/always and [low] of them
    never/rarely, the total lies between [2n + high - 2 low] and
    [2n + 2 high - low]. *)
Lemma totalScore_by_counts (responses : list QuestionnaireResponse) :
  2 * Z.of_nat (List.length responses) + Z.of_nat (highRiskResponses responses)
  - 2 * Z.of_nat (lowEngagementResponses responses)
  <= totalScore responses
  <= 2 * Z.of_nat (List.length responses) + 2 * Z.of_nat (highRiskResponses responses)
     - Z.of_nat (lowEngagementResponses responses).
Proof.
  rewrite totalScore_sum. unfold highRiskResponses, lowEngagementResponses.
  induction responses as [|r rest IH].
  - simpl. lia.
  - change (sumZ (map responseToNumber (r :: rest)))
      with (responseToNumber r + sumZ (map responseToNumber rest)).
    destruct r; simpl filter; simpl List.length; simpl responseToNumber; lia.
Qed.

Lemma valid_reachable (formData : PredictionInput) :
  validInput formData ->
  reachable (totalScore (responses formData))
    (highRiskResponses (responses formData))
    (lowEngagementResponses (responses formData)) = true.
Proof.
  intros [_ Hlen].
  pose proof (totalScore_by_counts (responses formData)) as Ht.
  pose proof (counts_disjoint (responses formData)) as Hc.
  rewrite Hlen in Ht, Hc. unfold reachable.
  apply andb_true_iff. split; [apply andb_true_iff; split|].
  - apply Nat.leb_le. exact Hc.
  - apply Z.leb_le. lia.
  - apply Z.leb_le. lia.
Qed.

Lemma forallReachable_spec (P : Z -> Gender -> Z -> nat -> nat -> bool) :
  forallReachable P = true ->
  forall formData, validInput formData ->
    P (age formData) (gender formData) (totalScore (responses formData))
      (highRiskResponses (responses formData))
      (lowEngagementResponses (responses formData)) = true.
Proof.
  unfold forallReachable. intros H formData Hv.
  destruct (valid_in_box formData Hv) as (Ha & Ht & Hh & Hl & _).
  pose proof (valid_reachable formData Hv) as Hr.
  pose proof (forallZ_spec _ _ _ H (age formData) ltac:(lia)) as H1. cbv beta in H1.
  rewrite forallb_forall in H1.
  assert (Hg : In (gender formData) [M; F])
    by (destruct (gender formData); simpl; auto).
  apply H1 in Hg.
  pose proof (forallZ_spec _ _ _ Hg (totalScore (responses formData)) ltac:(lia)) as H2.
  cbv beta in H2.
  pose proof (forallN_spec _ _ H2 (highRiskResponses (responses formData)) ltac:(lia))
    as H3. cbv beta in H3.
  pose proof (forallN_spec _ _ H3 (lowEngagementResponses (responses formData))
                ltac:(lia)) as H4. cbv beta in H4.
  rewrite Hr in H4. exact H4.
Qed.

Lemma tightRanges_checked : forallReachable tightRanges = true.
Proof. vm_compute. reflexivity. Qed.

Lemma levelByTotal_checked : forallReachable levelByTotal = true.
Proof. vm_compute. reflexivity. Qed.

Lemma demographicSpread_checked : forallReachable demographicSpread = true.
Proof. vm_compute. reflexivity. Qed.

Lemma thresholdDrop_checked : forallReachable thresholdDrop = true.
Proof. vm_compute. reflexivity. Qed.

Lemma monotoneInTotal_checked : forallTotalPairs monotoneInTotal = true.
Proof. vm_compute. reflexivity. Qed.

Lemma legacyFacts_checked : forallReachable legacyFacts = true.
Proof. vm_compute. reflexivity. Qed.

Lemma clamp_idle (u : float) :
  (u =? u)%float = true -> (0 <? u)%float = true ->
  (u <? 1)%float = true -> (1 <? u)%float = false ->
  Math_max 0 (Math_min 1 u) = u.
Proof.
  intros Hnan H0 H1 H1'.
  assert (Hmin : Math_min 1 u = u).
  { unfold Math_min, is_nan. rewrite Hnan, H1', H1.
    change (negb (1 =? 1)%float) with false. reflexivity. }
  rewrite Hmin. unfold Math_max, is_nan. rewrite Hnan, H0.
  change (negb (0 =? 0)%float) with false. reflexivity.
Qed.

Ltac split_andb H :=
  repeat match type of H with
         | (_ && _) = true =>
             let H1 := fresh H in
             apply andb_true_iff in H; destruct H as [H H1]
         end.

(** X9.  For every valid input the clamp of [riskScore] to 0..1 changes
    nothing: the score before the clamp is already strictly between 0 and 1,
    and the percentage is that score times 100.  The percentage lies between
    5 and 96.5, and the confidence between 0.6 and 0.9: neither 0 nor 100
    percent nor the confidence cap of 0.95 is ever reached. *)
Theorem riskPercentage_tight_range (now : string) (formData : PredictionInput) :
  validInput formData ->
  let u := unclampedRiskOfInput formData in
  let r := calculatePrediction now formData in
  riskPercentage r = Some (u * 100)%float
  /\ (0 <? u)%float = true /\ (u <? 1)%float = true
  /\ (5 <=? u * 100)%float = true /\ (u * 100 <=? 96.5)%float = true
  /\ (0.6 <=? confidence r)%float = true /\ (confidence r <=? 0.9)%float = true.
Proof.
  intros Hv. cbv zeta.
  pose proof (forallReachable_spec _ tightRanges_checked formData Hv) as H.
  unfold tightRanges in H. cbv zeta in H.
  fold (unclampedRiskOfInput formData) in H.
  fold (riskPercentageOfInput formData) in H.
  destruct (calculatePrediction_fields now formData)
    as (_ & Hc & _ & _ & Hp & _). cbv zeta in Hc, Hp.
  rewrite Hc, Hp.
  assert (Heq : riskPercentageOfInput formData
                = (unclampedRiskOfInput formData * 100)%float).
  { change (riskPercentageOfInput formData)
      with (Math_max 0 (Math_min 1 (unclampedRiskOfInput formData)) * 100)%float.
    split_andb H. rewrite clamp_idle; try assumption; [reflexivity|].
    apply negb_true_iff. assumption. }
  rewrite Heq in *. split_andb H. repeat split; assumption.
Qed.

Lemma riskPercentage_tight_range_witness :
  validInput allAlwaysInput
  /\ (let u := unclampedRiskOfInput allAlwaysInput in
      let r := calculatePrediction "2025-11-20T09:40:24.000Z" allAlwaysInput in
      riskPercentage r = Some (u * 100)%float
      /\ (0 <? u)%float = true /\ (u <? 1)%float = true
      /\ (5 <=? u * 100)%float = true /\ (u * 100 <=? 96.5)%float = true
      /\ (0.6 <=? confidence r)%float = true /\ (confidence r <=? 0.9)%float = true).
Proof.
  assert (Hv : validInput allAlwaysInput) by valid_sample.
  split; [exact Hv|].
  apply (riskPercentage_tight_range _ allAlwaysInput Hv).
Defined.

(** Both ends of the percentage range are reached. *)
Example riskPercentage_extremes :
  riskPercentage (calculatePrediction "" allNeverInput) = Some 5%float
  /\ riskPercentage
       (calculatePrediction ""
          {| age := 3; gender := M; responses := repeat always 10 |})
     = Some 96.5%float.
Proof. vm_compute. split; reflexivity. Qed.

(** X10.  For every valid input the total score confines the risk level: a
    total of at most 13 gives [Low], a total of 17 to 25 gives [Medium], a
    total of at least 31 gives [High]; and conversely [Low] occurs only up to
    16, [Medium] only from 14 to 30, and [High] only from 26 on. *)
Theorem riskLevel_by_totalScore (now : string) (formData : PredictionInput) :
  validInput formData ->
  let total := totalScore (responses formData) in
  let level := riskLevel (calculatePrediction now formData) in
  (total <= 13 -> level = Low)
  /\ (17 <= total <= 25 -> level = Medium)
  /\ (31 <= total -> level = High)
  /\ (level = Low -> total <= 16)
  /\ (level = Medium -> 14 <= total <= 30)
  /\ (level = High -> 26 <= total).
Proof.
  intros Hv. cbv zeta.
  pose proof (forallReachable_spec _ levelByTotal_checked formData Hv) as H.
  unfold levelByTotal in H. cbv zeta in H.
  fold (riskPercentageOfInput formData) in H.
  destruct (calculatePrediction_fields now formData) as (_ & _ & Hl & _).
  cbv zeta in Hl. rewrite Hl. clear Hl.
  revert H.
  generalize (fst (levelAndConfidence (riskPercentageOfInput formData))).
  generalize (totalScore (responses formData)).
  intros total level H.
  destruct (Z.leb_spec total 13), (Z.leb_spec 17 total), (Z.leb_spec total 25),
    (Z.leb_spec 31 total), (Z.leb_spec total 16), (Z.leb_spec 14 total),
    (Z.leb_spec total 30), (Z.leb_spec 26 total);
    try lia; destruct level; simpl in H; try discriminate H;
    repeat split; intros; try lia; try reflexivity; try discriminate.
Qed.

Lemma riskLevel_by_totalScore_witness :
  validInput sixOftenInput
  /\ (let total := totalScore (responses sixOftenInput) in
      let level :=
        riskLevel (calculatePrediction "2025-11-20T09:40:24.000Z" sixOftenInput) in
      (total <= 13 -> level = Low)
      /\ (17 <= total <= 25 -> level = Medium)
      /\ (31 <= total -> level = High)
      /\ (level = Low -> total <= 16)
      /\ (level = Medium -> 14 <= total <= 30)
      /\ (level = High -> 26 <= total)).
Proof.
  assert (Hv : validInput sixOftenInput) by valid_sample.
  split; [exact Hv|].
  apply (riskLevel_by_totalScore _ sixOftenInput Hv).
Defined.

(** In between, the same total can fall on either side: 14 with and
    without the low-engagement bonus, 26 with and without the high-risk
    bonus. *)
Example riskLevel_overlap :
  riskLevel (calculatePrediction ""
     {| age := 2; gender := M; responses := repeat rarely 7 ++ repeat sometimes 2 ++ [often] |})
  = Medium
  /\ riskLevel (calculatePrediction ""
     {| age := 5; gender := F; responses := repeat rarely 6 ++ repeat sometimes 4 |})
  = Low
  /\ riskLevel (calculatePrediction ""
     {| age := 2; gender := M; responses := repeat often 6 ++ repeat sometimes 4 |})
  = High
  /\ riskLevel (calculatePrediction ""
     {| age := 5; gender := F; responses := repeat often 4 ++ repeat sometimes 4
                                              ++ repeat always 1 ++ [sometimes] |})
  = Medium.
Proof. vm_compute. repeat split. Qed.

(** The percentage depends on the two counts only through the two tests. *)
Lemma riskPercentageOf_flags (age : Z) (gender : Gender) (total : Z) (high low : nat) :
  riskPercentageOf age gender total high low
  = riskPercentageOf age gender total
      (if (6 <=? high)%nat then 6 else 0) (if (7 <=? low)%nat then 7 else 0).
Proof.
  unfold riskPercentageOf, unclampedRisk, patternBonus.
  destruct (6 <=? high)%nat, (7 <=? low)%nat; reflexivity.
Qed.

Lemma forallTotalPairs_spec (P : Z -> Gender -> nat -> nat -> Z -> Z -> bool) :
  forallTotalPairs P = true ->
  forall age gender high low total total',
    2 <= age <= 14 -> In high [0; 6]%nat -> In low [0; 7]%nat ->
    0 <= total <= 40 -> 0 <= total' <= 40 ->
    P age gender high low total total' = true.
Proof.
  unfold forallTotalPairs.
  intros H age0 gender0 high low total total' Ha Hh Hl Ht Ht'.
  pose proof (forallZ_spec _ _ _ H age0 ltac:(lia)) as H1. cbv beta in H1.
  rewrite forallb_forall in H1.
  assert (Hg : In gender0 [M; F]) by (destruct gender0; simpl; auto).
  apply H1 in Hg. rewrite forallb_forall in Hg. apply Hg in Hh.
  rewrite forallb_forall in Hh. apply Hh in Hl.
  pose proof (forallZ_spec _ _ _ Hl total ltac:(lia)) as H2. cbv beta in H2.
  apply (forallZ_spec _ _ _ H2 total'). lia.
Qed.

(** X11.  Of two valid inputs with the same age and gender for which each of
    the two bonus tests comes out the same way, the one with the higher total
    score never has the lower risk percentage. *)
Theorem riskPercentage_monotone_in_total (now : string)
    (formData formData' : PredictionInput) :
  validInput formData -> validInput formData' ->
  age formData' = age formData -> gender formData' = gender formData ->
  ((6 <= highRiskResponses (responses formData))%nat
   <-> (6 <= highRiskResponses (responses formData'))%nat) ->
  ((7 <= lowEngagementResponses (responses formData))%nat
   <-> (7 <= lowEngagementResponses (responses formData'))%nat) ->
  totalScore (responses formData) <= totalScore (responses formData') ->
  exists p p' : float,
    riskPercentage (calculatePrediction now formData) = Some p
    /\ riskPercentage (calculatePrediction now formData') = Some p'
    /\ (p <=? p')%float = true.
Proof.
  intros Hv Hv' Hage Hgender Hhigh Hlow Htotal.
  exists (riskPercentageOfInput formData), (riskPercentageOfInput formData').
  destruct (calculatePrediction_fields now formData) as (_ & _ & _ & _ & Hp & _).
  destruct (calculatePrediction_fields now formData') as (_ & _ & _ & _ & Hp' & _).
  cbv zeta in Hp, Hp'. split; [exact Hp|]. split; [exact Hp'|].
  unfold riskPercentageOfInput. rewrite Hage, Hgender.
  rewrite (riskPercentageOf_flags _ _ _ (highRiskResponses (responses formData))).
  rewrite (riskPercentageOf_flags _ _ _ (highRiskResponses (responses formData'))).
  destruct (valid_in_box formData Hv) as (Ha & Ht & _).
  destruct (valid_in_box formData' Hv') as (_ & Ht' & _).
  assert (Hh : (6 <=? highRiskResponses (responses formData'))%nat
               = (6 <=? highRiskResponses (responses formData))%nat).
  { destruct (Nat.leb_spec 6 (highRiskResponses (responses formData')));
      destruct (Nat.leb_spec 6 (highRiskResponses (responses formData)));
      try reflexivity; lia. }
  assert (Hl : (7 <=? lowEngagementResponses (responses formData'))%nat
               = (7 <=? lowEngagementResponses (responses formData))%nat).
  { destruct (Nat.leb_spec 7 (lowEngagementResponses (responses formData')));
      destruct (Nat.leb_spec 7 (lowEngagementResponses (responses formData)));
      try reflexivity; lia. }
  rewrite Hh, Hl.
  pose proof (forallTotalPairs_spec _ monotoneInTotal_checked
                (age formData) (gender formData)
                (if (6 <=? highRiskResponses (responses formData))%nat then 6 else 0)%nat
                (if (7 <=? lowEngagementResponses (responses formData))%nat
                 then 7 else 0)%nat
                (totalScore (responses formData)) (totalScore (responses formData'))
                Ha) as H.
  unfold monotoneInTotal in H.
  assert (Hle : (totalScore (responses formData) <=? totalScore (responses formData'))
                = true) by (apply Z.leb_le; exact Htotal).
  rewrite Hle in H. apply H; try assumption.
  - destruct (6 <=? highRiskResponses (responses formData))%nat; simpl; auto.
  - destruct (7 <=? lowEngagementResponses (responses formData))%nat; simpl; auto.
Qed.

Lemma riskPercentage_monotone_in_total_witness :
  exists p p' : float,
    riskPercentage (calculatePrediction "2025-11-20T09:40:24.000Z" allNeverInput) = Some p
    /\ riskPercentage
         (calculatePrediction "2025-11-20T09:40:24.000Z"
            {| age := 5; gender := F; responses := repeat rarely 10 |}) = Some p'
    /\ (p <=? p')%float = true.
Proof.
  apply (riskPercentage_monotone_in_total _ allNeverInput
           {| age := 5; gender := F; responses := repeat rarely 10 |}).
  - valid_sample.
  - valid_sample.
  - reflexivity.
  - reflexivity.
  - change (highRiskResponses (responses allNeverInput)) with 0%nat.
    change (highRiskResponses
              (responses {| age := 5; gender := F; responses := repeat rarely 10 |}))
      with 0%nat.
    tauto.
  - change (lowEngagementResponses (responses allNeverInput)) with 10%nat.
    change (lowEngagementResponses
              (responses {| age := 5; gender := F; responses := repeat rarely 10 |}))
      with 10%nat.
    tauto.
  - change (totalScore (responses allNeverInput)) with 0.
    change (totalScore
              (responses {| age := 5; gender := F; responses := repeat rarely 10 |}))
      with 10.
    lia.
Defined.

(** *** The drop at the low-engagement threshold *)

Lemma array_set_count {A : Type} (p : A -> bool) (l l' : list A) (index : nat)
    (x old : A) :
  nth_error l index = Some old ->
  Wizard.array_set l index x = Some l' ->
  (List.length (filter p l') + (if p old then 1 else 0)
   = List.length (filter p l) + (if p x then 1 else 0))%nat.
Proof.
  revert index l'. induction l as [|y rest IH]; intros index l' Hold Hset.
  - destruct index; discriminate Hold.
  - destruct index as [|i].
    + simpl in Hold, Hset. injection Hold as Hold. injection Hset as Hset.
      subst. simpl. destruct (p old), (p x); simpl; lia.
    + simpl in Hold, Hset.
      destruct (Wizard.array_set rest i x) as [rest'|] eqn:Hrest; [|discriminate Hset].
      simpl in Hset. injection Hset as Hset. subst l'.
      specialize (IH i rest' Hold Hrest).
      simpl. destruct (p y); simpl; lia.
Qed.

(** X12.  The percentage is not monotone in the answers.  When exactly seven
    responses of a valid input are [never] or [rarely], changing one of those
    seven to [sometimes], a higher category, lowers the risk percentage: the
    low-engagement bonus is lost and the larger total does not make up for
    it. *)
Theorem raising_low_answer_lowers_risk (now : string) (formData formData' : PredictionInput)
    (questionIndex : nat) (old : QuestionnaireResponse) :
  validInput formData ->
  lowEngagementResponses (responses formData) = 7%nat ->
  nth_error (responses formData) questionIndex = Some old ->
  old = never \/ old = rarely ->
  Wizard.handleResponseChange questionIndex sometimes formData = Some formData' ->
  exists p p' : float,
    riskPercentage (calculatePrediction now formData) = Some p
    /\ riskPercentage (calculatePrediction now formData') = Some p'
    /\ (p' <? p)%float = true.
Proof.
  intros Hv Hlow Hold Hkind Hchange.
  exists (riskPercentageOfInput formData), (riskPercentageOfInput formData').
  destruct (calculatePrediction_fields now formData) as (_ & _ & _ & _ & Hp & _).
  destruct (calculatePrediction_fields now formData') as (_ & _ & _ & _ & Hp' & _).
  cbv zeta in Hp, Hp'. split; [exact Hp|]. split; [exact Hp'|].
  unfold Wizard.handleResponseChange in Hchange.
  destruct (Wizard.array_set (responses formData) questionIndex sometimes)
    as [l'|] eqn:Hset; [|discriminate Hchange].
  simpl in Hchange. injection Hchange as Hchange. subst formData'.
  unfold riskPercentageOfInput. cbn [age gender responses].
  pose proof (WizardFacts.array_set_sum _ _ _ _ _ Hold Hset) as Hsum.
  rewrite <- !totalScore_sum in Hsum.
  pose proof (array_set_count
                (fun r => QuestionnaireResponse_eqb r always
                          || QuestionnaireResponse_eqb r often)
                _ _ _ _ _ Hold Hset) as Hhigh.
  pose proof (array_set_count
                (fun r => QuestionnaireResponse_eqb r never
                          || QuestionnaireResponse_eqb r rarely)
                _ _ _ _ _ Hold Hset) as Hlow'.
  fold (highRiskResponses l') in Hhigh.
  fold (highRiskResponses (responses formData)) in Hhigh.
  fold (lowEngagementResponses l') in Hlow'.
  fold (lowEngagementResponses (responses formData)) in Hlow'.
  pose proof (forallReachable_spec _ thresholdDrop_checked formData Hv) as H.
  unfold thresholdDrop in H. rewrite Hlow in H. simpl Nat.eqb in H. cbv iota in H.
  apply andb_true_iff in H. destruct H as [H1 H2].
  rewrite Hlow in *.
  assert (Hh : highRiskResponses l' = highRiskResponses (responses formData))
    by (destruct Hkind; subst old; simpl in Hhigh; lia).
  assert (Hl : lowEngagementResponses l' = 6%nat)
    by (destruct Hkind; subst old; simpl in Hlow'; lia).
  rewrite Hh, Hl, Hsum.
  destruct Hkind; subst old; simpl responseToNumber.
  - replace (totalScore (responses formData) - 0 + 2)
      with (totalScore (responses formData) + 2) by lia. exact H2.
  - replace (totalScore (responses formData) - 1 + 2)
      with (totalScore (responses formData) + 1) by lia. exact H1.
Qed.

Lemma raising_low_answer_lowers_risk_witness :
  exists p p' : float,
    riskPercentage (calculatePrediction "2025-11-20T09:40:24.000Z" sevenNeverInput)
    = Some p
    /\ riskPercentage
         (calculatePrediction "2025-11-20T09:40:24.000Z"
            {| age := 6; gender := F;
               responses := sometimes :: repeat never 6 ++ repeat sometimes 3 |})
       = Some p'
    /\ (p' <? p)%float = true.
Proof.
  apply (raising_low_answer_lowers_risk _ sevenNeverInput _ 0 never);
    [valid_sample | reflexivity | reflexivity | left; reflexivity | reflexivity].
Defined.

(** On the sample: 17.75 percent with seven [never], 17 percent after one of
    them became [sometimes]. *)
Example raising_low_answer_sample :
  riskPercentage (calculatePrediction "" sevenNeverInput) = Some 17.75%float
  /\ riskPercentage
       (calculatePrediction ""
          {| age := 6; gender := F;
             responses := sometimes :: repeat never 6 ++ repeat sometimes 3 |})
     = Some 17%float.
Proof. vm_compute. split; reflexivity. Qed.

Lemma riskPercentageOf_band (age : Z) (gender : Gender) (total : Z) (high low : nat) :
  riskPercentageOf age gender total high low
  = riskPercentageOf (ageBand age) gender total high low.
Proof.
  unfold riskPercentageOf, unclampedRisk, weightedRisk, demographicRisk, ageBand.
  destruct (Z.leb_spec age 3) as [H3|H3]; [reflexivity|].
  destruct (Z.geb_spec age 10) as [H10|H10]; reflexivity.
Qed.

(** X13.  Age and gender account for at most 1.5 points of the percentage:
    two valid inputs with the same responses differ in risk percentage by no
    more than 1.5 (up to the rounding of the arithmetic, below 1.5000001). *)
Theorem demographics_shift_bounded (now : string) (formData formData' : PredictionInput) :
  validInput formData -> validInput formData' ->
  responses formData' = responses formData ->
  exists p p' : float,
    riskPercentage (calculatePrediction now formData) = Some p
    /\ riskPercentage (calculatePrediction now formData') = Some p'
    /\ (p' - p <=? 1.5000001)%float = true
    /\ (p - p' <=? 1.5000001)%float = true.
Proof.
  intros Hv Hv' Hresp.
  exists (riskPercentageOfInput formData), (riskPercentageOfInput formData').
  destruct (calculatePrediction_fields now formData) as (_ & _ & _ & _ & Hp & _).
  destruct (calculatePrediction_fields now formData') as (_ & _ & _ & _ & Hp' & _).
  cbv zeta in Hp, Hp'. split; [exact Hp|]. split; [exact Hp'|].
  assert (Hgen : forall a b : PredictionInput,
             validInput a -> validInput b -> responses b = responses a ->
             (riskPercentageOfInput b - riskPercentageOfInput a <=? 1.5000001)%float
             = true).
  { intros a b Ha Hb Hab.
    pose proof (forallReachable_spec _ demographicSpread_checked a Ha) as H.
    unfold demographicSpread in H.
    rewrite forallb_forall in H.
    assert (Hband : In (ageBand (age b)) [3; 5; 10]).
    { unfold ageBand. destruct (age b <=? 3); [simpl; auto|].
      destruct (age b >=? 10); simpl; auto. }
    apply H in Hband. rewrite forallb_forall in Hband.
    assert (Hg : In (gender b) [M; F]) by (destruct (gender b); simpl; auto).
    apply Hband in Hg. unfold riskPercentageOfInput.
    rewrite (riskPercentageOf_band (age b)), (riskPercentageOf_band (age a)).
    rewrite Hab. exact Hg. }
  split.
  - apply Hgen; assumption.
  - apply Hgen; try assumption. symmetry. exact Hresp.
Qed.

Lemma demographics_shift_bounded_witness :
  exists p p' : float,
    riskPercentage (calculatePrediction "2025-11-20T09:40:24.000Z" allNeverInput) = Some p
    /\ riskPercentage
         (calculatePrediction "2025-11-20T09:40:24.000Z"
            {| age := 2; gender := M; responses := repeat never 10 |}) = Some p'
    /\ (p' - p <=? 1.5000001)%float = true
    /\ (p - p' <=? 1.5000001)%float = true.
Proof.
  apply (demographics_shift_bounded _ allNeverInput
           {| age := 2; gender := M; responses := repeat never 10 |});
    [valid_sample | valid_sample | reflexivity].
Defined.

(* ================================================================== *)
(** * The earlier prediction interface *)

(** X14.  For every valid input the earlier [calculatePrediction] works on a
    risk score [rs] in 0..1: it predicts 1 exactly when [rs] is at least 0.6;
    the level is [Low] exactly below 0.3, [High] exactly from 0.7 on and
    [Medium] in between, so [Low] comes with prediction 0 and [High] with
    prediction 1; the confidence is [rs] or [1 - rs], the larger share, and
    lies between 0.4 and 1; and the result carries no percentage, breakdown
    or timestamp. *)
Theorem legacy_prediction_level_confidence (formData : PredictionInput) :
  validInput formData ->
  let r := Legacy.calculatePrediction formData in
  let rs :=
    Legacy.riskScoreOf (age formData) (gender formData)
      (totalScore (responses formData))
      (highRiskResponses (responses formData))
      (lowEngagementResponses (responses formData)) in
  (0 <=? rs)%float = true /\ (rs <=? 1)%float = true
  /\ (prediction r = 1 <-> (0.6 <=? rs)%float = true)
  /\ (prediction r = 0 <-> (rs <? 0.6)%float = true)
  /\ (riskLevel r = Low <-> (rs <? 0.3)%float = true)
  /\ (riskLevel r = Medium <-> (0.3 <=? rs)%float = true /\ (rs <? 0.7)%float = true)
  /\ (riskLevel r = High <-> (0.7 <=? rs)%float = true)
  /\ (riskLevel r = Low -> prediction r = 0)
  /\ (riskLevel r = High -> prediction r = 1)
  /\ confidence r = (if (0.6 <=? rs)%float then rs else (1 - rs)%float)
  /\ (0.4 <=? confidence r)%float = true /\ (confidence r <=? 1)%float = true
  /\ riskPercentage r = None /\ scoreBreakdown r = None /\ timestamp r = None.
Proof.
  intros Hv. cbv zeta.
  pose proof (forallReachable_spec _ legacyFacts_checked formData Hv) as H.
  unfold legacyFacts in H. cbv zeta in H.
  unfold Legacy.calculatePrediction. cbv zeta.
  cbn [prediction riskLevel confidence riskPercentage scoreBreakdown timestamp].
  revert H.
  generalize (Legacy.riskScoreOf (age formData) (gender formData)
                (totalScore (responses formData))
                (highRiskResponses (responses formData))
                (lowEngagementResponses (responses formData))).
  intros rs H.
  destruct (0.6 <=? rs)%float eqn:H06;
    destruct (0 <=? rs)%float, (rs <=? 1)%float,
      (rs <? 0.3)%float, (0.3 <=? rs)%float,
      (rs <? 0.6)%float,
      (rs <? 0.7)%float, (0.7 <=? rs)%float;
    simpl in H; try discriminate H;
    apply andb_true_iff in H; destruct H as [H1 H2];
    repeat split; intros; try discriminate; try reflexivity; try assumption;
    repeat match goal with Hc : _ /\ _ |- _ => destruct Hc end;
    try discriminate; auto.
Qed.

Lemma legacy_prediction_level_confidence_witness :
  validInput allSometimesInput
  /\ (let r := Legacy.calculatePrediction allSometimesInput in
      let rs :=
        Legacy.riskScoreOf (age allSometimesInput) (gender allSometimesInput)
          (totalScore (responses allSometimesInput))
          (highRiskResponses (responses allSometimesInput))
          (lowEngagementResponses (responses allSometimesInput)) in
      (0 <=? rs)%float = true /\ (rs <=? 1)%float = true
      /\ (prediction r = 1 <-> (0.6 <=? rs)%float = true)
      /\ (prediction r = 0 <-> (rs <? 0.6)%float = true)
      /\ (riskLevel r = Low <-> (rs <? 0.3)%float = true)
      /\ (riskLevel r = Medium <-> (0.3 <=? rs)%float = true /\ (rs <? 0.7)%float = true)
      /\ (riskLevel r = High <-> (0.7 <=? rs)%float = true)
      /\ (riskLevel r = Low -> prediction r = 0)
      /\ (riskLevel r = High -> prediction r = 1)
      /\ confidence r = (if (0.6 <=? rs)%float then rs else (1 - rs)%float)
      /\ (0.4 <=? confidence r)%float = true /\ (confidence r <=? 1)%float = true
      /\ riskPercentage r = None /\ scoreBreakdown r = None /\ timestamp r = None).
Proof.
  assert (Hv : validInput allSometimesInput) by valid_sample.
  split; [exact Hv|].
  apply (legacy_prediction_level_confidence allSometimesInput Hv).
Defined.

(* ================================================================== *)
(** * Further properties of the response mappings *)

Lemma numberToResponse_clamped (num : Q) :
  exists r : QuestionnaireResponse,
    numberToResponse num = Some r
    /\ responseToNumber r = Z.max 0 (Z.min 4 (Math_round num)).
Proof.
  unfold numberToResponse. cbv zeta.
  generalize (Math_round num). intros z.
  assert (Hk : Z.max 0 (Z.min 4 z) = 0 \/ Z.max 0 (Z.min 4 z) = 1
               \/ Z.max 0 (Z.min 4 z) = 2 \/ Z.max 0 (Z.min 4 z) = 3
               \/ Z.max 0 (Z.min 4 z) = 4) by lia.
  destruct Hk as [Hk|[Hk|[Hk|[Hk|Hk]]]]; rewrite Hk;
    [exists never|exists rarely|exists sometimes|exists often|exists always];
    split; reflexivity.
Qed.

Lemma Math_round_monotone (num num' : Q) :
  (num <= num')%Q -> Math_round num <= Math_round num'.
Proof.
  intros H. unfold Math_round. apply Qfloor_resp_le.
  apply Qplus_le_l. exact H.
Qed.

(** X15.  [numberToResponse] picks the nearest category: for a number from
    -1/2 up to but not including 9/2 the number of the category returned is
    within one half of the argument (a tie goes to the higher category);
    below -1/2 the answer is [never], from 9/2 on it is [always]. *)
Theorem numberToResponse_nearest (num : Q) :
  exists r : QuestionnaireResponse,
    numberToResponse num = Some r
    /\ ((- (1 # 2) <= num)%Q -> (num < 9 # 2)%Q ->
        (inject_Z (responseToNumber r) - (1 # 2) <= num)%Q
        /\ (num < inject_Z (responseToNumber r) + (1 # 2))%Q)
    /\ ((num < - (1 # 2))%Q -> r = never)
    /\ ((9 # 2 <= num)%Q -> r = always).
Proof.
  destruct (numberToResponse_clamped num) as (r & Hr & Hk).
  exists r. split; [exact Hr|].
  pose proof (Math_round_nearest num) as [Hlo Hhi].
  assert (Hz0 : (- (1 # 2) <= num)%Q -> 0 <= Math_round num).
  { intros H. change 0 with (Math_round (- (1 # 2))).
    apply Math_round_monotone. exact H. }
  assert (Hz4 : (num < 9 # 2)%Q -> Math_round num <= 4).
  { intros H.
    assert (Hlt : (inject_Z (Math_round num) < inject_Z 5)%Q).
    { apply Qle_lt_trans with (num + (1 # 2))%Q.
      - unfold Math_round. apply Qfloor_le.
      - setoid_replace (inject_Z 5) with ((9 # 2) + (1 # 2))%Q by reflexivity.
        apply Qplus_lt_l. exact H. }
    rewrite <- Zlt_Qlt in Hlt. lia. }
  assert (Hneg : (num < - (1 # 2))%Q -> Math_round num <= -1).
  { intros H.
    assert (Hlt : (inject_Z (Math_round num) < inject_Z 0)%Q).
    { apply Qle_lt_trans with (num + (1 # 2))%Q.
      - unfold Math_round. apply Qfloor_le.
      - setoid_replace (inject_Z 0) with (- (1 # 2) + (1 # 2))%Q by reflexivity.
        apply Qplus_lt_l. exact H. }
    rewrite <- Zlt_Qlt in Hlt. lia. }
  assert (Hbig : (9 # 2 <= num)%Q -> 5 <= Math_round num).
  { intros H. change 5 with (Math_round (9 # 2)).
    apply Math_round_monotone. exact H. }
  split; [|split].
  - intros H1 H2. specialize (Hz0 H1). specialize (Hz4 H2).
    replace (responseToNumber r) with (Math_round num) by lia.
    split; assumption.
  - intros H. specialize (Hneg H).
    destruct r; simpl in Hk; try lia. reflexivity.
  - intros H. specialize (Hbig H).
    destruct r; simpl in Hk; try lia. reflexivity.
Qed.

(** X16.  [numberToResponse] is monotone: a larger number never maps to a
    lower category. *)
Theorem numberToResponse_monotone (num num' : Q) :
  (num <= num')%Q ->
  exists r r' : QuestionnaireResponse,
    numberToResponse num = Some r
    /\ numberToResponse num' = Some r'
    /\ responseToNumber r <= responseToNumber r'.
Proof.
  intros H.
  destruct (numberToResponse_clamped num) as (r & Hr & Hk).
  destruct (numberToResponse_clamped num') as (r' & Hr' & Hk').
  exists r, r'. split; [exact Hr|]. split; [exact Hr'|].
  pose proof (Math_round_monotone num num' H). lia.
Qed.

Lemma numberToResponse_monotone_witness :
  ((3 # 2) <= (5 # 2))%Q
  /\ exists r r' : QuestionnaireResponse,
    numberToResponse (3 # 2) = Some r
    /\ numberToResponse (5 # 2) = Some r'
    /\ responseToNumber r <= responseToNumber r'.
Proof.
  assert (H : ((3 # 2) <= (5 # 2))%Q) by (unfold Qle; simpl; lia).
  split; [exact H|].
  apply (numberToResponse_monotone (3 # 2) (5 # 2) H).
Defined.

(* ================================================================== *)
(** * Metrics *)

Module DataProcessingFacts.
Import DataProcessing.

(** The four tests of [calculateMetrics] split the positions where both
    labels are 0 or 1. *)
Lemma four_way_counts (yTrue yPred : list Z) (index : nat) :
  (forall i a, nth_error yTrue i = Some a ->
     isLabel a /\ exists p, nth_error yPred (index + i) = Some p /\ isLabel p) ->
  let n f := List.length (filterWithIndex f index yTrue) in
  (n (fun actual i => Z.eqb actual 0 && at_is yPred i 0)
   + n (fun actual i => Z.eqb actual 0 && at_is yPred i 1)
   = List.length (filter (fun a => Z.eqb a 0) yTrue))%nat
  /\ (n (fun actual i => Z.eqb actual 1 && at_is yPred i 0)
      + n (fun actual i => Z.eqb actual 1 && at_is yPred i 1)
      = List.length (filter (fun a => Z.eqb a 1) yTrue))%nat
  /\ (List.length (filter (fun a => Z.eqb a 0) yTrue)
      + List.length (filter (fun a => Z.eqb a 1) yTrue)
      = List.length yTrue)%nat.
Proof.
  cbv zeta. revert index.
  induction yTrue as [|a rest IH]; intros index H.
  - simpl. repeat split.
  - destruct (H 0%nat a eq_refl) as (Ha & p & Hp & Hpl).
    rewrite Nat.add_0_r in Hp.
    assert (Hrest : forall i b, nth_error rest i = Some b ->
              isLabel b /\ exists q, nth_error yPred (S index + i) = Some q /\ isLabel q).
    { intros i b Hb. destruct (H (S i) b Hb) as (Hbl & q & Hq & Hql).
      split; [exact Hbl|]. exists q. split; [|exact Hql].
      rewrite <- Hq. f_equal. lia. }
    destruct (IH (S index) Hrest) as (IH0 & IH1 & IH2).
    assert (Hat : forall v, at_is yPred index v = Z.eqb p v)
      by (intros v; unfold at_is; rewrite Hp; reflexivity).
    cbn [filterWithIndex filter]. rewrite !Hat.
    destruct Ha as [Ha|Ha]; destruct Hpl as [Hpl|Hpl]; subst a p;
      change (Z.eqb 0 0) with true; change (Z.eqb 1 1) with true;
      change (Z.eqb 0 1) with false; change (Z.eqb 1 0) with false;
      cbn [andb List.length]; repeat split; lia.
Qed.

(** Reading [yPred] from position [index] on. *)
Lemma skipn_cons_nth_error {A : Type} (l : list A) (index : nat) (x : A)
    (rest : list A) :
  skipn index l = x :: rest ->
  nth_error l index = Some x /\ skipn (S index) l = rest.
Proof.
  revert l. induction index as [|index IH]; intros l H.
  - destruct l as [|y l]; [discriminate|].
    simpl in H. injection H as -> ->. split; reflexivity.
  - destruct l as [|y l]; [discriminate|].
    apply (IH l H).
Qed.

(** One indexed [filter] of [calculateMetrics] counts the positions at
    which the two labels are the given ones; there is no condition on the
    lengths or on the values. *)
Lemma filterWithIndex_positions (actual predicted : Z) (yTrue yPred : list Z)
    (index : nat) :
  List.length
    (filterWithIndex (fun a i => Z.eqb a actual && at_is yPred i predicted)
       index yTrue)
  = count_occ labelPair_eq_dec (combine yTrue (skipn index yPred))
      (actual, predicted).
Proof.
  revert index. induction yTrue as [|a rest IH]; intros index; [reflexivity|].
  cbn [filterWithIndex]. specialize (IH (S index)).
  destruct (skipn index yPred) as [|p tail] eqn:Hs.
  - assert (Hlen : (List.length yPred <= index)%nat).
    { pose proof (length_skipn index yPred) as Hl. rewrite Hs in Hl.
      simpl in Hl. lia. }
    rewrite (skipn_all2 yPred) in IH by lia.
    assert (Hat : at_is yPred index predicted = false).
    { unfold at_is.
      rewrite (proj2 (nth_error_None yPred index) Hlen). reflexivity. }
    rewrite Hat, andb_false_r, IH. destruct rest; reflexivity.
  - destruct (skipn_cons_nth_error _ _ _ _ Hs) as [Hp Htail].
    rewrite Htail in IH.
    assert (Hat : at_is yPred index predicted = Z.eqb p predicted)
      by (unfold at_is; rewrite Hp; reflexivity).
    rewrite Hat. cbn [combine].
    destruct (Z.eqb_spec a actual) as [Ha|Ha];
      destruct (Z.eqb_spec p predicted) as [Hq|Hq]; cbn [andb List.length];
      rewrite IH.
    + subst. rewrite count_occ_cons_eq by reflexivity. reflexivity.
    + rewrite count_occ_cons_neq by congruence. reflexivity.
    + rewrite count_occ_cons_neq by congruence. reflexivity.
    + rewrite count_occ_cons_neq by congruence. reflexivity.
Qed.

Lemma filter_eqb_count (yTrue : list Z) (actual : Z) :
  List.length (filter (fun a => Z.eqb a actual) yTrue)
  = count_occ Z.eq_dec yTrue actual.
Proof.
  induction yTrue as [|a rest IH]; [reflexivity|].
  cbn [filter]. destruct (Z.eqb_spec a actual) as [Ha|Ha].
  - rewrite count_occ_cons_eq by exact Ha. simpl. rewrite IH. reflexivity.
  - rewrite count_occ_cons_neq by exact Ha. exact IH.
Qed.

(** X17.  The confusion matrix of [calculateMetrics] is laid out as
    [[tn, fp], [fn, tp]] and each cell is the number of positions with that
    actual and that predicted label: row 0 holds the positions whose actual
    label is 0, row 1 those whose actual label is 1, column 0 those predicted
    0 and column 1 those predicted 1.  When in addition both lists hold only
    0s and 1s and have the same length, the four cells add up to the number
    of samples, the first row to the number of actual negatives and the
    second row to the number of actual positives. *)
Theorem confusionMatrix_partitions (yTrue yPred : list Z) :
  let tn := positionsWith yTrue yPred 0 0 in
  let fp := positionsWith yTrue yPred 0 1 in
  let fn := positionsWith yTrue yPred 1 0 in
  let tp := positionsWith yTrue yPred 1 1 in
  confusionMatrix (calculateMetrics yTrue yPred) = [[tn; fp]; [fn; tp]]
  /\ (Forall isLabel yTrue -> Forall isLabel yPred ->
      List.length yPred = List.length yTrue ->
      (tn + fp + fn + tp = List.length yTrue)%nat
      /\ (tn + fp)%nat = samplesWith yTrue 0
      /\ (fn + tp)%nat = samplesWith yTrue 1).
Proof.
  cbv zeta. unfold positionsWith, samplesWith.
  assert (Hcell : forall actual predicted,
            List.length
              (filterWithIndex
                 (fun a i => Z.eqb a actual && at_is yPred i predicted) 0 yTrue)
            = count_occ labelPair_eq_dec (combine yTrue yPred)
                (actual, predicted)).
  { intros actual predicted.
    apply (filterWithIndex_positions actual predicted yTrue yPred 0). }
  split.
  - unfold calculateMetrics. cbn [confusionMatrix].
    unfold count_tn, count_fp, count_fn, count_tp.
    rewrite !Hcell. reflexivity.
  - intros HyT HyP Hlen.
    assert (H : forall i a, nth_error yTrue i = Some a ->
              isLabel a /\ exists p, nth_error yPred (0 + i) = Some p /\ isLabel p).
    { intros i a Ha. rewrite Forall_forall in HyT, HyP. split.
      - apply HyT. apply (nth_error_In _ _ Ha).
      - change (0 + i)%nat with i. destruct (nth_error yPred i) as [p|] eqn:Hp.
        + exists p. split; [reflexivity|]. apply HyP. apply (nth_error_In _ _ Hp).
        + apply nth_error_None in Hp.
          assert (i < List.length yTrue)%nat by (apply nth_error_Some; congruence).
          lia. }
    destruct (four_way_counts yTrue yPred 0 H) as (H0 & H1 & H2).
    cbv zeta in H0, H1. rewrite !Hcell in H0, H1.
    rewrite (filter_eqb_count yTrue 0) in H0, H2.
    rewrite (filter_eqb_count yTrue 1) in H1, H2.
    repeat split; lia.
Qed.

(** Four samples with actual labels 1, 0, 1, 1 and predictions 1, 1, 0, 1:
    no true negative, one false positive, one false negative and two true
    positives. *)
Lemma confusionMatrix_partitions_witness :
  confusionMatrix (calculateMetrics sampleTrue samplePred)
  = [[0; 1]; [1; 2]]%nat
  /\ Forall isLabel sampleTrue /\ Forall isLabel samplePred
  /\ Nat.add (Nat.add (Nat.add (positionsWith sampleTrue samplePred 0 0)
                                (positionsWith sampleTrue samplePred 0 1))
                       (positionsWith sampleTrue samplePred 1 0))
              (positionsWith sampleTrue samplePred 1 1) = 4%nat
  /\ Nat.add (positionsWith sampleTrue samplePred 0 0)
              (positionsWith sampleTrue samplePred 0 1) = 1%nat
  /\ Nat.add (positionsWith sampleTrue samplePred 1 0)
              (positionsWith sampleTrue samplePred 1 1) = 3%nat.
Proof.
  assert (H1 : Forall isLabel sampleTrue)
    by (repeat constructor; unfold isLabel; lia).
  assert (H2 : Forall isLabel samplePred)
    by (repeat constructor; unfold isLabel; lia).
  destruct (confusionMatrix_partitions sampleTrue samplePred) as [Hm Hsum].
  destruct (Hsum H1 H2 eq_refl) as (Hall & Hneg & Hpos).
  split; [rewrite Hm; reflexivity|].
  split; [exact H1|]. split; [exact H2|].
  split; [exact Hall|]. split; [exact Hneg|exact Hpos].
Defined.

(** X18.  Without a true positive, precision, recall and F1 score are all 0:
    the guards keep the divisions from being taken.  Accuracy has no guard:
    when all four counts are 0 (no samples, or no predictions to compare
    with) it is NaN. *)
Theorem metrics_without_true_positive (yTrue yPred : list Z) :
  count_tp yTrue yPred = 0%nat ->
  let m := calculateMetrics yTrue yPred in
  precision m = 0%float /\ recall m = 0%float /\ f1Score m = 0%float
  /\ (count_tn yTrue yPred = 0%nat -> count_fp yTrue yPred = 0%nat ->
      count_fn yTrue yPred = 0%nat -> is_nan (accuracy m) = true).
Proof.
  intros Htp. cbv zeta. unfold calculateMetrics. cbv zeta.
  cbn [precision recall f1Score accuracy]. rewrite Htp.
  repeat split.
  intros Htn Hfp Hfn. rewrite Htn, Hfp, Hfn. reflexivity.
Qed.

Lemma metrics_without_true_positive_witness :
  count_tp [0; 1] [0; 0] = 0%nat
  /\ (let m := calculateMetrics [0; 1] [0; 0] in
      precision m = 0%float /\ recall m = 0%float /\ f1Score m = 0%float
      /\ (count_tn [0; 1] [0; 0] = 0%nat -> count_fp [0; 1] [0; 0] = 0%nat ->
          count_fn [0; 1] [0; 0] = 0%nat -> is_nan (accuracy m) = true)).
Proof.
  assert (H : count_tp [0; 1] [0; 0] = 0%nat) by reflexivity.
  split; [exact H|].
  apply (metrics_without_true_positive [0; 1] [0; 0] H).
Defined.

(** Empty inputs and a perfect prediction. *)
Example calculateMetrics_samples :
  is_nan (accuracy (calculateMetrics [] [])) = true
  /\ confusionMatrix (calculateMetrics [] []) = [[0; 0]; [0; 0]]%nat
  /\ accuracy (calculateMetrics sampleTrue sampleTrue) = 1%float
  /\ f1Score (calculateMetrics sampleTrue sampleTrue) = 1%float
  /\ accuracy (calculateMetrics sampleTrue samplePred) = 0.5%float.
Proof. vm_compute. repeat split. Qed.

End DataProcessingFacts.

(* ================================================================== *)
(** * The train/test split *)

Module TrainTestSplitFacts.
Import DataProcessing.

(** Overwriting one element trades the old element for the new one. *)
Lemma array_set_perm {A : Type} (l l' : list A) (index : nat) (x old : A) :
  nth_error l index = Some old ->
  Wizard.array_set l index x = Some l' ->
  Permutation (old :: l') (x :: l).
Proof.
  revert index l'. induction l as [|y rest IH]; intros index l' Hold Hset.
  - destruct index; discriminate Hold.
  - destruct index as [|i].
    + simpl in Hold, Hset. injection Hold as Hold. injection Hset as Hset.
      subst. apply perm_swap.
    + simpl in Hold, Hset.
      destruct (Wizard.array_set rest i x) as [rest'|] eqn:Hrest; [|discriminate Hset].
      simpl in Hset. injection Hset as Hset. subst l'.
      specialize (IH i rest' Hold Hrest).
      apply Permutation_trans with (y :: old :: rest'); [apply perm_swap|].
      apply Permutation_trans with (y :: x :: rest); [|apply perm_swap].
      apply perm_skip. exact IH.
Qed.

Lemma swap_in_range (indices : list nat) (i j : nat) :
  (i < List.length indices)%nat -> (j < List.length indices)%nat ->
  exists indices',
    swap indices i j = Some indices'
    /\ Permutation indices' indices
    /\ List.length indices' = List.length indices.
Proof.
  intros Hi Hj. unfold swap.
  destruct (nth_error indices i) as [a|] eqn:Ha.
  2:{ apply nth_error_None in Ha. lia. }
  destruct (nth_error indices j) as [b|] eqn:Hb.
  2:{ apply nth_error_None in Hb. lia. }
  destruct (WizardFacts.array_set_in_range indices i b a Ha)
    as (l1 & Hset1 & Hlen1 & Hnth1 & Hother1).
  rewrite Hset1.
  assert (Hb1 : nth_error l1 j = Some b).
  { destruct (Nat.eq_dec j i) as [Heq|Hne].
    - subst j. exact Hnth1.
    - rewrite (Hother1 j Hne). exact Hb. }
  destruct (WizardFacts.array_set_in_range l1 j a b Hb1)
    as (l2 & Hset2 & Hlen2 & _ & _).
  exists l2. split; [exact Hset2|]. split; [|lia].
  pose proof (array_set_perm _ _ _ _ _ Ha Hset1) as P1.
  pose proof (array_set_perm _ _ _ _ _ Hb1 Hset2) as P2.
  apply (Permutation_cons_inv (a := b)).
  apply Permutation_trans with (a :: l1); [exact P2|exact P1].
Qed.

Lemma shuffleFrom_perm (draw : nat -> nat) (i : nat) (indices : list nat) :
  (forall k, (draw k <= k)%nat) ->
  (i < List.length indices \/ i = 0)%nat ->
  exists indices',
    shuffleFrom draw i indices = Some indices'
    /\ Permutation indices' indices.
Proof.
  intros Hdraw. revert indices.
  induction i as [|i' IH]; intros indices Hi.
  - exists indices. split; [reflexivity|apply Permutation_refl].
  - assert (Hlt : (S i' < List.length indices)%nat) by lia.
    assert (Hj : (draw (S i') < List.length indices)%nat)
      by (pose proof (Hdraw (S i')); lia).
    destruct (swap_in_range indices (S i') (draw (S i')) Hlt Hj)
      as (l1 & Hswap & Hperm & Hlen).
    simpl. rewrite Hswap.
    destruct (IH l1 ltac:(lia)) as (l2 & Hrest & Hperm2).
    exists l2. split; [exact Hrest|].
    apply Permutation_trans with l1; assumption.
Qed.

Lemma slice_partition {A : Type} (l : list A) (k : IntegerOrInfinity) :
  slice l (Int 0) (Some k) ++ slice l k None = l
  /\ List.length (slice l (Int 0) (Some k)) = relativeIndex (List.length l) k.
Proof.
  unfold slice. cbv zeta.
  assert (H0 : relativeIndex (List.length l) (Int 0) = 0%nat).
  { unfold relativeIndex. simpl. lia. }
  rewrite H0. rewrite Nat.sub_0_r. cbn [skipn].
  assert (Hrel : (relativeIndex (List.length l) k <= List.length l)%nat).
  { unfold relativeIndex. destruct k as [z| |]; try lia.
    destruct (Z.ltb_spec z 0); lia. }
  assert (Htail : firstn (List.length l - relativeIndex (List.length l) k)
                    (skipn (relativeIndex (List.length l) k) l)
                  = skipn (relativeIndex (List.length l) k) l).
  { apply firstn_all2. rewrite length_skipn. lia. }
  rewrite Htail. split.
  - apply firstn_skipn.
  - rewrite length_firstn. lia.
Qed.

Lemma map_nth_error_seq {A : Type} (X : list A) :
  map (fun i => nth_error X i) (seq 0 (List.length X)) = map Some X.
Proof.
  induction X as [|x rest IH].
  - reflexivity.
  - simpl. f_equal. rewrite <- seq_shift. rewrite map_map. simpl. exact IH.
Qed.

(** X19.  Whatever the random draws (each [Math.floor(Math.random() *
    (i + 1))] lies in [0..i]) and whatever the test size, even a negative,
    infinite or NaN one, [trainTestSplit] returns a partition: the training
    and test rows together are the rows of [X], each exactly once, in an
    order given by one permutation of the row indices, and the labels are
    read from [y] at those same indices, so rows and labels stay paired. *)
Theorem trainTestSplit_partition {A B : Type} (draw : nat -> nat) (X : list A)
    (y : list B) (testSize : float) :
  (forall i, (draw i <= i)%nat) ->
  exists (split : Split A B) (indices : list nat),
    trainTestSplit draw X y testSize = Some split
    /\ Permutation indices (seq 0 (List.length X))
    /\ XTrain split ++ XTest split = map (fun i => nth_error X i) indices
    /\ yTrain split ++ yTest split = map (fun i => nth_error y i) indices
    /\ List.length (yTrain split) = List.length (XTrain split)
    /\ List.length (yTest split) = List.length (XTest split)
    /\ Permutation (XTrain split ++ XTest split) (map Some X).
Proof.
  intros Hdraw. unfold trainTestSplit. cbv zeta.
  destruct (shuffleFrom_perm draw (List.length (seq 0 (List.length X)) - 1)
              (seq 0 (List.length X)) Hdraw ltac:(lia))
    as (indices & Hshuffle & Hperm).
  rewrite Hshuffle.
  set (trainSize := floorToInteger
                      (Number_of_nat (List.length X) * (1 - testSize))%float).
  destruct (slice_partition indices trainSize) as [Hpart _].
  eexists. exists indices. split; [reflexivity|].
  cbn [XTrain XTest yTrain yTest].
  split; [exact Hperm|].
  rewrite <- !map_app, Hpart. split; [reflexivity|]. split; [reflexivity|].
  rewrite !length_map. split; [reflexivity|]. split; [reflexivity|].
  rewrite <- map_nth_error_seq. apply Permutation_map. exact Hperm.
Qed.

Lemma trainTestSplit_partition_witness :
  (forall i, ((fun _ : nat => 0%nat) i <= i)%nat)
  /\ exists (split : Split Z Z) (indices : list nat),
    trainTestSplit (fun _ => 0%nat) sampleTrue samplePred defaultTestSize = Some split
    /\ Permutation indices (seq 0 (List.length sampleTrue))
    /\ XTrain split ++ XTest split = map (fun i => nth_error sampleTrue i) indices
    /\ yTrain split ++ yTest split = map (fun i => nth_error samplePred i) indices
    /\ List.length (yTrain split) = List.length (XTrain split)
    /\ List.length (yTest split) = List.length (XTest split)
    /\ Permutation (XTrain split ++ XTest split) (map Some sampleTrue).
Proof.
  assert (H : forall i, ((fun _ : nat => 0%nat) i <= i)%nat) by (intros i; simpl; lia).
  split; [exact H|].
  apply (trainTestSplit_partition (fun _ => 0%nat) sampleTrue samplePred
           defaultTestSize H).
Defined.

Lemma defaultTrainSizes_checked : forallN 2001 defaultTrainSizeOk = true.
Proof. vm_compute. reflexivity. Qed.

(** X20.  With the default test size of 0.2 and up to 2000 rows, the
    training part holds four fifths of the rows, rounded down, and the test
    part the rest: the binary64 product [n * (1 - 0.2)] never falls below
    the exact one. *)
Theorem trainTestSplit_default_sizes {A B : Type} (draw : nat -> nat) (X : list A)
    (y : list B) :
  (forall i, (draw i <= i)%nat) ->
  Z.of_nat (List.length X) <= 2000 ->
  exists split : Split A B,
    trainTestSplit draw X y defaultTestSize = Some split
    /\ Z.of_nat (List.length (XTrain split)) = 4 * Z.of_nat (List.length X) / 5
    /\ Z.of_nat (List.length (XTest split))
       = Z.of_nat (List.length X) - 4 * Z.of_nat (List.length X) / 5.
Proof.
  intros Hdraw Hbound. unfold trainTestSplit. cbv zeta.
  destruct (shuffleFrom_perm draw (List.length (seq 0 (List.length X)) - 1)
              (seq 0 (List.length X)) Hdraw ltac:(lia))
    as (indices & Hshuffle & Hperm).
  rewrite Hshuffle.
  assert (Hsize : defaultTrainSizeOk (List.length X) = true).
  { apply (forallN_spec 2001 defaultTrainSizeOk defaultTrainSizes_checked).
    apply Nat2Z.inj_lt.
    replace (Z.of_nat 2001) with 2001 by (vm_compute; reflexivity). lia. }
  unfold defaultTrainSizeOk in Hsize.
  destruct (floorToInteger (Number_of_nat (List.length X) * (1 - defaultTestSize))%float)
    as [z| |] eqn:Hfloor; try discriminate Hsize.
  apply Z.eqb_eq in Hsize.
  destruct (slice_partition indices (Int z)) as [Hpart Hlen].
  eexists. split; [reflexivity|].
  cbn [XTrain XTest]. rewrite !length_map.
  assert (Hn : List.length indices = List.length X).
  { rewrite (Permutation_length Hperm). apply length_seq. }
  assert (Hz : 0 <= z <= Z.of_nat (List.length X)).
  { rewrite Hsize. split.
    - apply Z.div_pos; lia.
    - apply Z.div_le_upper_bound; lia. }
  assert (Hrel : Z.of_nat (relativeIndex (List.length indices) (Int z)) = z).
  { unfold relativeIndex. rewrite Hn.
    destruct (Z.ltb_spec z 0); lia. }
  split.
  - rewrite Hlen, Hrel. exact Hsize.
  - apply (f_equal (@List.length nat)) in Hpart.
    rewrite length_app in Hpart. rewrite Hlen in Hpart. lia.
Qed.

Lemma trainTestSplit_default_sizes_witness :
  (forall i, ((fun _ : nat => 0%nat) i <= i)%nat)
  /\ Z.of_nat (List.length sampleTrue) <= 2000
  /\ exists split : Split Z Z,
    trainTestSplit (fun _ => 0%nat) sampleTrue samplePred defaultTestSize = Some split
    /\ Z.of_nat (List.length (XTrain split)) = 4 * Z.of_nat (List.length sampleTrue) / 5
    /\ Z.of_nat (List.length (XTest split))
       = Z.of_nat (List.length sampleTrue) - 4 * Z.of_nat (List.length sampleTrue) / 5.
Proof.
  assert (H : forall i, ((fun _ : nat => 0%nat) i <= i)%nat) by (intros i; simpl; lia).
  assert (Hb : Z.of_nat (List.length sampleTrue) <= 2000) by (simpl; lia).
  split; [exact H|]. split; [exact Hb|].
  apply (trainTestSplit_default_sizes (fun _ => 0%nat) sampleTrue samplePred H Hb).
Defined.

(** A split of four rows with all draws 0. *)
Example trainTestSplit_sample :
  option_map (fun s => (XTrain s, XTest s, yTrain s, yTest s))
    (trainTestSplit (fun _ => 0%nat) sampleTrue samplePred defaultTestSize)
  = Some ([Some 0; Some 1; Some 1], [Some 1], [Some 1; Some 0; Some 1], [Some 1]).
Proof. vm_compute. reflexivity. Qed.

End TrainTestSplitFacts.

(* ================================================================== *)
(** * Feature preparation *)

Module PrepareFeaturesFacts.
Import DataProcessing.

Lemma age_feature_checked :
  forallZ 0 13 (fun a => inUnit (Number_of_Z a / 12)%float) = true.
Proof. vm_compute. reflexivity. Qed.

Lemma total_feature_checked :
  forallZ 0 41 (fun t => inUnit (Number_of_Z t / 40)%float) = true.
Proof. vm_compute. reflexivity. Qed.

Lemma response_feature (r : QuestionnaireResponse) :
  inUnit (Number_of_Z (responseToNumber r) / 4)%float = true.
Proof. destruct r; vm_compute; reflexivity. Qed.

(** X23.  [prepareFeatures] turns every row into thirteen features and keeps
    one label per row.  For a row with an age of 0 to 12 and a total score
    of 0 to 40, every feature lies between 0 and 1. *)
Theorem prepareFeatures_normalised (data : list AutismDataPoint) :
  let out := prepareFeatures data in
  List.length (X out) = List.length data
  /\ y out = map ASD_Label data
  /\ (forall row, In row (X out) -> List.length row = 13%nat)
  /\ (forall item, In item data ->
        0 <= Age item <= 12 -> 0 <= Total_Score item <= 40 ->
        In (featuresOf item) (X out)
        /\ forallb inUnit (featuresOf item) = true).
Proof.
  cbv zeta. unfold prepareFeatures. cbn [X y].
  split; [apply length_map|]. split; [reflexivity|]. split.
  - intros row Hrow. apply in_map_iff in Hrow.
    destruct Hrow as (item & Hitem & _). subst row. reflexivity.
  - intros item Hin Hage Htotal. split; [apply in_map; exact Hin|].
    unfold featuresOf. cbn [forallb].
    rewrite (forallZ_spec _ _ _ age_feature_checked (Age item)) by lia.
    rewrite (forallZ_spec _ _ _ total_feature_checked (Total_Score item)) by lia.
    rewrite !response_feature.
    destruct (Gender item); reflexivity.
Qed.

(** The age divisor is 12 while the form offers ages up to 14: for ages 13
    and 14 the first feature exceeds 1. *)
Example age_feature_above_one :
  inUnit (Number_of_Z 13 / 12)%float = false
  /\ inUnit (Number_of_Z 14 / 12)%float = false.
Proof. vm_compute. split; reflexivity. Qed.

End PrepareFeaturesFacts.

(* ================================================================== *)
(** * The forest's vote *)

Module RandomForestFacts.
Import RandomForest.

Lemma voteFacts_checked : forallZ 0 11 voteFacts = true.
Proof. vm_compute. reflexivity. Qed.

Lemma tree_vote_range (tree : SimpleDecisionTree) (features : list float) :
  prediction tree = 0 \/ prediction tree = 1 ->
  0 <= nth 0 (tree_predict tree [features]) 0 <= 1.
Proof.
  intros H. unfold tree_predict. cbn [map nth]. unfold tree_predict_row.
  destruct (nth_error features (feature tree)) as [value|];
    [destruct (value <=? threshold tree)%float|]; lia.
Qed.

Lemma fold_add_range (l : list Z) (acc : Z) :
  Forall (fun v => 0 <= v <= 1) l ->
  acc <= fold_left Z.add l acc <= acc + Z.of_nat (List.length l).
Proof.
  revert acc. induction l as [|v rest IH]; intros acc H.
  - simpl. lia.
  - inversion H as [|v' rest' Hv Hrest]; subst.
    specialize (IH (acc + v) Hrest). simpl fold_left. simpl List.length. lia.
Qed.

Lemma votes_range (trees : list SimpleDecisionTree) (features : list float) :
  Forall (fun tree => prediction tree = 0 \/ prediction tree = 1) trees ->
  0 <= votes trees features <= Z.of_nat (List.length trees).
Proof.
  intros H. unfold votes.
  pose proof (fold_add_range
                (map (fun tree => nth 0 (tree_predict tree [features]) 0) trees) 0)
    as Hr.
  rewrite length_map in Hr. apply Hr.
  apply Forall_forall. intros v Hv. apply in_map_iff in Hv.
  destruct Hv as (tree & Hv & Hin). subst v.
  apply tree_vote_range. rewrite Forall_forall in H. apply H. exact Hin.
Qed.

(** A sum of 0s and 1s is the number of 1s. *)
Lemma fold_add_count (l : list Z) (acc : Z) :
  Forall (fun v => v = 0 \/ v = 1) l ->
  fold_left Z.add l acc = acc + Z.of_nat (count_occ Z.eq_dec l 1).
Proof.
  revert acc. induction l as [|v rest IH]; intros acc H.
  - simpl. lia.
  - inversion H as [|v' rest' Hv Hrest]; subst.
    cbn [fold_left]. rewrite (IH (acc + v) Hrest).
    destruct Hv as [Hv|Hv]; subst v.
    + rewrite count_occ_cons_neq by discriminate. lia.
    + rewrite count_occ_cons_eq by reflexivity. lia.
Qed.

(** The sum that [predict] and [predictProba] reduce to is the number of
    trees that predict 1 for the row. *)
Lemma votes_count (trees : list SimpleDecisionTree) (features : list float) :
  Forall (fun tree => prediction tree = 0 \/ prediction tree = 1) trees ->
  votes trees features = Z.of_nat (treesVotingOne trees features).
Proof.
  intros H. unfold votes, treesVotingOne.
  change (map (fun tree => nth 0 (tree_predict tree [features]) 0) trees)
    with (map (fun tree => tree_predict_row tree features) trees).
  rewrite fold_add_count; [lia|].
  apply Forall_forall. intros v Hv. apply in_map_iff in Hv.
  destruct Hv as (tree & Hv & Hin). subst v.
  rewrite Forall_forall in H. specialize (H tree Hin).
  unfold tree_predict_row.
  destruct (nth_error features (feature tree)) as [value|];
    [destruct (value <=? threshold tree)%float|]; lia.
Qed.

(** X24.  For a forest of at most ten stumps that each predict 0 or 1,
    [predict] and [predictProba] give one value per row and agree row by
    row.  Writing [ones] for the number of trees whose own prediction for
    the row is 1 (counted on the list of trees, not through the code's sum):
    the code's sum of votes is [ones]; the prediction is 1 exactly when
    [ones] is at least five, which is exactly when the probability is at
    least 0.5 (a tie of five votes counts as 1); the probability is [ones]
    divided by ten; the prediction is 0 or 1 and the probability lies
    between 0 and 1. *)
Theorem forest_predict_matches_proba (trees : list SimpleDecisionTree)
    (rows : list (list float)) :
  Forall (fun tree => prediction tree = 0 \/ prediction tree = 1) trees ->
  (List.length trees <= 10)%nat ->
  List.length (forest_predict trees rows) = List.length rows
  /\ List.length (forest_predictProba trees rows) = List.length rows
  /\ forall (i : nat) (features : list float),
       nth_error rows i = Some features ->
       let ones := treesVotingOne trees features in
       exists (label : Z) (p : float),
         nth_error (forest_predict trees rows) i = Some label
         /\ nth_error (forest_predictProba trees rows) i = Some p
         /\ votes trees features = Z.of_nat ones
         /\ (label = 1 <-> (5 <= ones)%nat)
         /\ (label = 1 <-> (0.5 <=? p)%float = true)
         /\ p = (Number_of_Z (Z.of_nat ones) / 10)%float
         /\ (label = 0 \/ label = 1)
         /\ (0 <=? p)%float = true /\ (p <=? 1)%float = true.
Proof.
  intros Hbin Hlen.
  unfold forest_predict, forest_predictProba.
  split; [apply length_map|]. split; [apply length_map|].
  intros i features Hrow. cbv zeta.
  rewrite !nth_error_map, Hrow. cbn [option_map].
  eexists. eexists. split; [reflexivity|]. split; [reflexivity|].
  pose proof (votes_range trees features Hbin) as Hv.
  pose proof (forallZ_spec _ _ _ voteFacts_checked (votes trees features) ltac:(lia))
    as Hf.
  unfold voteFacts in Hf. cbv zeta in Hf.
  rewrite (votes_count trees features Hbin) in Hf |- *.
  split; [reflexivity|].
  change (Number_of_Z nTrees) with 10%float in Hf |- *.
  revert Hf. generalize (treesVotingOne trees features). intros ones Hf.
  destruct (10 / 2 <=? Number_of_Z (Z.of_nat ones))%float;
    destruct (0.5 <=? Number_of_Z (Z.of_nat ones) / 10)%float;
    destruct (Z.leb_spec 5 (Z.of_nat ones));
    destruct (0 <=? Number_of_Z (Z.of_nat ones) / 10)%float;
    destruct (Number_of_Z (Z.of_nat ones) / 10 <=? 1)%float;
    simpl in Hf; try discriminate Hf;
    repeat split; intros; try lia; try reflexivity; try discriminate; auto.
Qed.

(** A forest of ten trees of which exactly five predict 1 for the row: the
    tie is resolved to 1, with probability one half. *)
Lemma forest_predict_matches_proba_witness :
  Forall (fun tree => prediction tree = 0 \/ prediction tree = 1) tiedForest
  /\ List.length tiedForest = 10%nat
  /\ treesVotingOne tiedForest [0.25%float] = 5%nat
  /\ votes tiedForest [0.25%float] = 5
  /\ nth_error (forest_predict tiedForest [[0.25%float]]) 0 = Some 1
  /\ nth_error (forest_predictProba tiedForest [[0.25%float]]) 0
     = Some (Number_of_Z 5 / 10)%float.
Proof.
  assert (H1 : Forall (fun tree => prediction tree = 0 \/ prediction tree = 1)
                 tiedForest)
    by (unfold tiedForest; repeat constructor).
  assert (H2 : (List.length tiedForest <= 10)%nat) by (vm_compute; lia).
  assert (H3 : treesVotingOne tiedForest [0.25%float] = 5%nat)
    by (vm_compute; reflexivity).
  destruct (forest_predict_matches_proba tiedForest [[0.25%float]] H1 H2)
    as (_ & _ & Hrows).
  destruct (Hrows 0%nat [0.25%float] eq_refl)
    as (label & p & Hlabel & Hp & Hvotes & Hfive & _ & Hratio & _).
  rewrite H3 in Hvotes, Hfive, Hratio.
  assert (Hone : label = 1) by (apply Hfive; lia).
  split; [exact H1|]. split; [reflexivity|]. split; [exact H3|].
  split; [exact Hvotes|].
  split; [rewrite Hlabel, Hone; reflexivity|].
  rewrite Hp, Hratio. reflexivity.
Defined.

(** A forest that has not been fitted has no trees: it predicts 0 with
    probability 0 for every row.  Five votes out of ten give 1. *)
Example forest_samples :
  forest_predict [] [[0.25%float]] = [0]
  /\ forest_predictProba [] [[0.25%float]] = [0%float]
  /\ forest_predict
       (repeat {| threshold := 0.5%float; feature := 0%nat; prediction := 1 |} 5
        ++ repeat newTree 5) [[0.25%float]] = [1]
  /\ forest_predictProba
       (repeat {| threshold := 0.5%float; feature := 0%nat; prediction := 1 |} 5
        ++ repeat newTree 5) [[0.25%float]] = [0.5%float].
Proof. vm_compute. repeat split. Qed.

End RandomForestFacts.
